(** * Balance ledger of the personal-finance backend

    A shallow embedding of the transaction handlers of
    [src/routes/transacciones.ts] (POST, PATCH, DELETE), of the handlers of
    [src/routes/cuentas.ts] that create and delete an account, and of the
    part of the relational store of [src/db/schema.ts] they read and write.
    Around them: PATCH of an account, the category routes
    ([src/routes/categorias.ts]), the authentication and permission gates
    ([src/middleware/auth.ts]), PATCH and DELETE of a user, the read of one
    transaction and the total of the summary report.

    Conventions of the model.
    - Amounts ([saldo], [monto]) are JavaScript numbers in the source: IEEE
      doubles, kept in REAL columns.  The model counts them in hundredths,
      as integers ([Z]: 100.00 is 10000).  A comparison of two of them, and
      one sum or one difference, are what the code computes.  What needs
      more than that (that a difference undoes a sum, that a total does not
      depend on the order of its terms) holds of doubles where no sum
      rounds: on whole amounts, here the multiples of 100, below 2^53 in
      absolute value, which are the safe integers of JavaScript
      ([safe_integer]).  A statement that needs it carries that range as a
      hypothesis.
    - A table is a finite map from the primary key [id] to the other columns
      of the row.  The columns [createdAt] are not kept: no handler modelled
      here reads them.
    - The store enforces what [schema.ts] declares on the rows: primary keys,
      the two CHECK constraints [saldo_positivo] (saldo >= 0) and
      [monto_positivo] (monto > 0), and the references of a transaction to
      its category and to its account (lines 63-64), which carry no ON
      DELETE action: a write that violates a constraint raises, and so does
      the removal of a category or of an account that a transaction points
      to.  The handlers write into a transaction only references they have
      just looked up, so the other side of a reference, the insertion of a
      row that points nowhere, does not arise from them.  The tables of
      master accounts and of users are not part of the ledger store: the
      rows a handler writes carry the identifiers of the session, which the
      middleware opens for a stored user only.
    - [db.transaction] is an exception monad over the store: the body either
      commits its final store or raises, in which case the store it started
      from is kept.
    - A request body is taken after JSON decoding, with its fields typed as
      the zod schema types them; the value tests of the schema are modelled.
    - The [data] payload of a success envelope is not modelled; the envelope
      keeps its message, an error keeps its code and message, and each
      response its HTTP status.
    - [nanoid()] and [new Date().toISOString()] are inputs of the handlers. *)

From Stdlib Require Import ZArith String List Bool Lia.
From stdpp Require Import base option gmap strings fin_maps.

Local Open Scope string_scope.
Local Open Scope Z_scope.

(** ** Data model ([src/db/schema.ts]) *)

(** [text('tipo', { enum: ['ingreso', 'gasto'] })] *)
Inductive Tipo : Type := ingreso | gasto.

#[global] Instance Tipo_eq_dec : EqDecision Tipo.
Proof. solve_decision. Defined.

Module Categoria.
Record t : Type := mk {
  cuentaMaestraId : string;
  nombre : string;
  tipo : Tipo;
  icono : string;
  color : string;
  activa : bool
}.
End Categoria.

Module Cuenta.
Record t : Type := mk {
  cuentaMaestraId : string;
  nombre : string;
  saldo : Z;
  tipo : string;
  color : string;
  icono : string;
  activa : bool;
  updatedAt : string
}.
End Cuenta.

Module Transaccion.
Record t : Type := mk {
  cuentaMaestraId : string;
  usuarioId : string;
  tipo : Tipo;
  monto : Z;
  categoriaId : string;
  cuentaId : string;
  fecha : string;
  notas : option string;
  fotoComprobanteUrl : option string;
  updatedAt : string
}.
End Transaccion.

(** The three tables the ledger handlers touch, keyed by [id]. *)
Record Store : Type := mkStore {
  categorias : gmap string Categoria.t;
  cuentas : gmap string Cuenta.t;
  transacciones : gmap string Transaccion.t
}.

(** The identity the auth middleware attaches to the request
    ([c.get('user')]). *)
Record User : Type := mkUser {
  user_id : string;
  cuenta_maestra_id : string
}.

(** ** Response envelope ([src/utils/responses.ts]) *)

Inductive Envelope : Type :=
| successResponse (message : string)
| makeError (code : string) (message : string).

(** [c.json(envelope)] answers 200, [c.json(envelope, n)] answers [n]. *)
Record Response : Type := json {
  envelope : Envelope;
  status : Z
}.

Definition ok (message : string) : Response := json (successResponse message) 200.

(** ** Exceptions and the atomic unit *)

(** What can be thrown inside a handler: a JavaScript [Error] with its
    message, or the store's rejection of a write, named after the violated
    constraint.  The message of the latter is the database's and is never the
    handler's own ['Saldo insuficiente en la cuenta']. *)
Inductive Exn : Type :=
| JsError (message : string)
| ConstraintFailed (constraint : string).

(** A computation inside [db.transaction(async (tx) => ...)]. *)
Definition Tx (A : Type) : Type := Store -> Exn + (A * Store).

Definition tx_ret {A} (a : A) : Tx A := fun s => inr (a, s).

Definition tx_bind {A B} (m : Tx A) (k : A -> Tx B) : Tx B :=
  fun s => match m s with
           | inl e => inl e
           | inr (a, s') => k a s'
           end.

Definition tx_throw {A} (e : Exn) : Tx A := fun _ => inl e.

Definition tx_read {A} (f : Store -> A) : Tx A := fun s => inr (f s, s).

Notation "x <- m ;; k" := (tx_bind m (fun x => k))
  (at level 100, m at next level, right associativity).
Notation "m ;;; k" := (tx_bind m (fun _ => k))
  (at level 100, right associativity).

(** [db.transaction(body)]: commit the body's store, or roll back to the
    store the unit started from and rethrow. *)
Definition db_transaction {A} (body : Tx A) (s : Store) : Store * (Exn + A) :=
  match body s with
  | inl e => (s, inl e)
  | inr (a, s') => (s', inr a)
  end.

(** ** Store primitives *)

Definition with_saldo (c : Cuenta.t) (nuevo : Z) (now : string) : Cuenta.t :=
  Cuenta.mk (Cuenta.cuentaMaestraId c) (Cuenta.nombre c) nuevo (Cuenta.tipo c)
            (Cuenta.color c) (Cuenta.icono c) (Cuenta.activa c) now.

(** [tx.select().from(cuentas).where(eq(cuentas.id, id)).limit(1)] *)
Definition select_cuenta (id : string) : Tx (option Cuenta.t) :=
  tx_read (fun s => cuentas s !! id).

(** [tx.update(cuentas).set({ saldo, updatedAt }).where(eq(cuentas.id, id))]:
    no row, no write; a negative [saldo] violates [saldo_positivo]. *)
Definition update_saldo (id : string) (nuevo : Z) (now : string) : Tx unit :=
  fun s =>
    match cuentas s !! id with
    | None => inr (tt, s)
    | Some c =>
        if nuevo <? 0 then inl (ConstraintFailed "saldo_positivo")
        else inr (tt, mkStore (categorias s)
                              (<[id := with_saldo c nuevo now]> (cuentas s))
                              (transacciones s))
    end.

(** [tx.insert(transacciones).values(row)] *)
Definition insert_transaccion (id : string) (row : Transaccion.t) : Tx unit :=
  fun s =>
    match transacciones s !! id with
    | Some _ => inl (ConstraintFailed "transacciones.id")
    | None =>
        if Transaccion.monto row <=? 0 then inl (ConstraintFailed "monto_positivo")
        else inr (tt, mkStore (categorias s) (cuentas s)
                              (<[id := row]> (transacciones s)))
    end.

(** [tx.delete(transacciones).where(eq(transacciones.id, id))] *)
Definition delete_transaccion (id : string) : Tx unit :=
  fun s => inr (tt, mkStore (categorias s) (cuentas s) (delete id (transacciones s))).

(** The reads the handlers make before the atomic unit:
    [and(eq(t.id, id), eq(t.cuentaMaestraId, m), eq(t.activa, true))]. *)
Definition find_categoria (s : Store) (id maestra : string) : option Categoria.t :=
  match categorias s !! id with
  | Some c =>
      if bool_decide (Categoria.cuentaMaestraId c = maestra) && Categoria.activa c
      then Some c else None
  | None => None
  end.

Definition find_cuenta (s : Store) (id maestra : string) : option Cuenta.t :=
  match cuentas s !! id with
  | Some c =>
      if bool_decide (Cuenta.cuentaMaestraId c = maestra) && Cuenta.activa c
      then Some c else None
  | None => None
  end.

(** [and(eq(transacciones.id, id), eq(transacciones.cuentaMaestraId, m))] *)
Definition find_transaccion (s : Store) (id maestra : string) : option Transaccion.t :=
  match transacciones s !! id with
  | Some t =>
      if bool_decide (Transaccion.cuentaMaestraId t = maestra) then Some t else None
  | None => None
  end.

(** ** Balance arithmetic of the handlers *)

(** [tipo === 'ingreso' ? saldo + monto : saldo - monto] *)
Definition aplicar (tipo : Tipo) (saldo monto : Z) : Z :=
  match tipo with ingreso => saldo + monto | gasto => saldo - monto end.

(** [tipo === 'ingreso' ? saldo - monto : saldo + monto] *)
Definition revertir (tipo : Tipo) (saldo monto : Z) : Z :=
  match tipo with ingreso => saldo - monto | gasto => saldo + monto end.

(** ** Request bodies and their zod schemas *)

(** [z.string().min(1)] *)
Definition min1 (s : string) : bool := negb (bool_decide (s = "")).

(** An optional field passes when absent, or when its value passes. *)
Definition optional {A} (p : A -> bool) (o : option A) : bool :=
  match o with Some a => p a | None => true end.

Module CreateBody.
Record t : Type := mk {
  tipo : Tipo;
  monto : Z;
  categoria_id : string;
  cuenta_id : string;
  fecha : string;
  notas : option string;
  foto_comprobante_url : option string
}.
End CreateBody.

Module UpdateBody.
Record t : Type := mk {
  tipo : option Tipo;
  monto : option Z;
  categoria_id : option string;
  cuenta_id : option string;
  fecha : option string;
  notas : option string;
  foto_comprobante_url : option string
}.
End UpdateBody.

Module CuentaBody.
Record t : Type := mk {
  nombre : string;
  saldo : option Z;
  tipo : option string;
  color : option string;
  icono : option string
}.
End CuentaBody.

(** What the handlers take from their surroundings: the identifier drawn by
    [nanoid()], the instant of [new Date().toISOString()], and the instant the
    store writes for a [CURRENT_TIMESTAMP] default. *)
Record Ambient : Type := mkAmbient {
  nanoid : string;
  toISOString : string;
  CURRENT_TIMESTAMP : string
}.

(** JavaScript truthiness of an optional field, and [field || fallback]. *)
Definition truthy_str (o : option string) : bool :=
  match o with Some s => min1 s | None => false end.

Definition truthy_num (o : option Z) : bool :=
  match o with Some n => negb (n =? 0) | None => false end.

Definition truthy_tipo (o : option Tipo) : bool :=
  match o with Some _ => true | None => false end.

Definition or_str (o : option string) (d : string) : string :=
  match o with Some s => if min1 s then s else d | None => d end.

Definition or_num (o : option Z) (d : Z) : Z :=
  match o with Some n => if n =? 0 then d else n | None => d end.

Definition or_tipo (o : option Tipo) (d : Tipo) : Tipo :=
  match o with Some k => k | None => d end.

(** ** The object handed to [tx.update(transacciones).set(...)] *)

Inductive Value : Type :=
| VTipo (t : Tipo)
| VNum (n : Z)
| VStr (s : string).

(** A field that is [undefined] contributes no key. *)
Definition entry {A} (key : string) (inj : A -> Value) (o : option A) : list (string * Value) :=
  match o with Some a => [(key, inj a)] | None => [] end.

(** [{ ...validatedData, updatedAt: new Date().toISOString() }]: the keys are
    those of the request schema. *)
Definition spread (v : UpdateBody.t) (now : string) : list (string * Value) :=
  entry "tipo" VTipo (UpdateBody.tipo v) ++
  entry "monto" VNum (UpdateBody.monto v) ++
  entry "categoria_id" VStr (UpdateBody.categoria_id v) ++
  entry "cuenta_id" VStr (UpdateBody.cuenta_id v) ++
  entry "fecha" VStr (UpdateBody.fecha v) ++
  entry "notas" VStr (UpdateBody.notas v) ++
  entry "foto_comprobante_url" VStr (UpdateBody.foto_comprobante_url v) ++
  [("updatedAt", VStr now)].

Fixpoint assoc (key : string) (l : list (string * Value)) : option Value :=
  match l with
  | [] => None
  | (k, v) :: rest => if bool_decide (k = key) then Some v else assoc key rest
  end.

Section Handlers.

(** [z.string().url()]: the URL test of zod is not part of the repository. *)
Variable is_url : string -> bool.

(** In [schema.ts] a column has a property name on the table object
    ([categoriaId], [cuentaId], [fotoComprobanteUrl]) and a SQL name
    ([categoria_id], [cuenta_id], [foto_comprobante_url]); the request keys
    spread into the set object are spelt like the SQL names.  The query
    builder takes the keys of a set object by property name and drops the
    others: that is [false], the program as it runs.  [true] is the handler
    as it reads, each key reaching the column it is meant for; the
    statements that hold either way are made for both. *)
Variable sql_names : bool.

Definition createTransaccionSchema (b : CreateBody.t) : bool :=
  (0 <? CreateBody.monto b) &&
  min1 (CreateBody.categoria_id b) &&
  min1 (CreateBody.cuenta_id b) &&
  min1 (CreateBody.fecha b) &&
  optional is_url (CreateBody.foto_comprobante_url b).

Definition updateTransaccionSchema (b : UpdateBody.t) : bool :=
  optional (fun n => 0 <? n) (UpdateBody.monto b) &&
  optional min1 (UpdateBody.categoria_id b) &&
  optional min1 (UpdateBody.cuenta_id b) &&
  optional min1 (UpdateBody.fecha b) &&
  optional is_url (UpdateBody.foto_comprobante_url b).

Definition createCuentaSchema (b : CuentaBody.t) : bool :=
  min1 (CuentaBody.nombre b) && optional (fun n => 0 <=? n) (CuentaBody.saldo b).

(** The value the set object gives to the column named [prop] on the table
    object and [sql] in the database. *)
Definition column_value (set : list (string * Value)) (prop sql : string) : option Value :=
  match assoc prop set with
  | Some v => Some v
  | None => if sql_names then assoc sql set else None
  end.

Definition set_tipo (o : option Value) (d : Tipo) : Tipo :=
  match o with Some (VTipo k) => k | _ => d end.

Definition set_num (o : option Value) (d : Z) : Z :=
  match o with Some (VNum n) => n | _ => d end.

Definition set_str (o : option Value) (d : string) : string :=
  match o with Some (VStr x) => x | _ => d end.

Definition set_opt (o : option Value) (d : option string) : option string :=
  match o with Some (VStr x) => Some x | _ => d end.

Definition set_transaccion (set : list (string * Value)) (t : Transaccion.t) : Transaccion.t :=
  Transaccion.mk
    (Transaccion.cuentaMaestraId t)
    (Transaccion.usuarioId t)
    (set_tipo (column_value set "tipo" "tipo") (Transaccion.tipo t))
    (set_num (column_value set "monto" "monto") (Transaccion.monto t))
    (set_str (column_value set "categoriaId" "categoria_id") (Transaccion.categoriaId t))
    (set_str (column_value set "cuentaId" "cuenta_id") (Transaccion.cuentaId t))
    (set_str (column_value set "fecha" "fecha") (Transaccion.fecha t))
    (set_opt (column_value set "notas" "notas") (Transaccion.notas t))
    (set_opt (column_value set "fotoComprobanteUrl" "foto_comprobante_url")
             (Transaccion.fotoComprobanteUrl t))
    (set_str (column_value set "updatedAt" "updated_at") (Transaccion.updatedAt t)).

(** [tx.update(transacciones).set(set).where(eq(transacciones.id, id))] *)
Definition update_transaccion (id : string) (set : list (string * Value)) : Tx unit :=
  fun s =>
    match transacciones s !! id with
    | None => inr (tt, s)
    | Some t =>
        let t' := set_transaccion set t in
        if Transaccion.monto t' <=? 0 then inl (ConstraintFailed "monto_positivo")
        else inr (tt, mkStore (categorias s) (cuentas s)
                              (<[id := t']> (transacciones s)))
    end.

(** ** POST /transacciones ([transacciones.ts], lines 179-293) *)

Definition nueva_transaccion (user : User) (v : CreateBody.t) (env : Ambient) : Transaccion.t :=
  Transaccion.mk
    (cuenta_maestra_id user)
    (user_id user)
    (CreateBody.tipo v)
    (CreateBody.monto v)
    (CreateBody.categoria_id v)
    (CreateBody.cuenta_id v)
    (CreateBody.fecha v)
    (CreateBody.notas v)
    (CreateBody.foto_comprobante_url v)
    (CURRENT_TIMESTAMP env).

(** The body of the atomic unit, lines 225-250: the row is inserted, then the
    balance read before the unit is adjusted and written. *)
Definition post_unit (user : User) (v : CreateBody.t) (cuenta : Cuenta.t) (env : Ambient) : Tx unit :=
  insert_transaccion (nanoid env) (nueva_transaccion user v env) ;;;
  update_saldo (CreateBody.cuenta_id v)
               (aplicar (CreateBody.tipo v) (Cuenta.saldo cuenta) (CreateBody.monto v))
               (toISOString env).

Definition transacciones_post (user : User) (body : CreateBody.t) (env : Ambient)
    (s : Store) : Store * Response :=
  if negb (createTransaccionSchema body) then
    (s, json (makeError "ERR_VALIDATION" "Datos inválidos") 400)
  else
    match find_categoria s (CreateBody.categoria_id body) (cuenta_maestra_id user) with
    | None => (s, json (makeError "ERR_NOT_FOUND" "Categoría no encontrada o inactiva") 404)
    | Some categoria =>
        if negb (bool_decide (Categoria.tipo categoria = CreateBody.tipo body)) then
          (s, json (makeError "ERR_VALIDATION"
                      "El tipo de transacción no coincide con el tipo de categoría") 400)
        else
          match find_cuenta s (CreateBody.cuenta_id body) (cuenta_maestra_id user) with
          | None => (s, json (makeError "ERR_NOT_FOUND" "Cuenta no encontrada o inactiva") 404)
          | Some cuenta =>
              if bool_decide (CreateBody.tipo body = gasto)
                 && (Cuenta.saldo cuenta <? CreateBody.monto body) then
                (s, json (makeError "ERR_VALIDATION" "Saldo insuficiente en la cuenta") 400)
              else
                match db_transaction (post_unit user body cuenta env) s with
                | (s', inr _) => (s', ok "Transacción creada correctamente")
                | (s', inl _) =>
                    (s', json (makeError "ERR_INTERNAL" "Error al crear transacción") 500)
                end
          end
    end.

(** ** PATCH /transacciones/:id ([transacciones.ts], lines 295-464) *)

(** Lines 319-340: the category is looked up only when the request names
    one; the kind compared with it is the request's, or else the stored one. *)
Definition validar_categoria (s : Store) (user : User) (old : Transaccion.t)
    (v : UpdateBody.t) : option Response :=
  match UpdateBody.categoria_id v with
  | Some cid =>
      if min1 cid then
        match find_categoria s cid (cuenta_maestra_id user) with
        | None => Some (json (makeError "ERR_NOT_FOUND" "Categoría no encontrada o inactiva") 404)
        | Some categoria =>
            if negb (bool_decide (Categoria.tipo categoria
                                  = or_tipo (UpdateBody.tipo v) (Transaccion.tipo old))) then
              Some (json (makeError "ERR_VALIDATION"
                            "El tipo de transacción no coincide con el tipo de categoría") 400)
            else None
        end
      else None
  | None => None
  end.

(** Lines 342-358. *)
Definition validar_cuenta (s : Store) (user : User) (v : UpdateBody.t) : option Response :=
  match UpdateBody.cuenta_id v with
  | Some cid =>
      if min1 cid then
        match find_cuenta s cid (cuenta_maestra_id user) with
        | None => Some (json (makeError "ERR_NOT_FOUND" "Cuenta no encontrada o inactiva") 404)
        | Some _ => None
        end
      else None
  | None => None
  end.

(** [validatedData.monto || validatedData.tipo || validatedData.cuenta_id] *)
Definition toca_saldo (v : UpdateBody.t) : bool :=
  truthy_num (UpdateBody.monto v) || truthy_tipo (UpdateBody.tipo v)
  || truthy_str (UpdateBody.cuenta_id v).

(** Lines 362-380: the stored contribution is taken back from the account
    the row points to, when that account exists. *)
Definition revertir_anterior (old : Transaccion.t) (now : string) : Tx unit :=
  cuentaAnterior <- select_cuenta (Transaccion.cuentaId old) ;;
  match cuentaAnterior with
  | Some c =>
      update_saldo (Transaccion.cuentaId old)
                   (revertir (Transaccion.tipo old) (Cuenta.saldo c) (Transaccion.monto old))
                   now
  | None => tx_ret tt
  end.

(** Lines 382-384: [validatedData.field || oldTransaccion.field]. *)
Definition nuevaCuentaId (old : Transaccion.t) (v : UpdateBody.t) : string :=
  or_str (UpdateBody.cuenta_id v) (Transaccion.cuentaId old).

Definition nuevoMonto (old : Transaccion.t) (v : UpdateBody.t) : Z :=
  or_num (UpdateBody.monto v) (Transaccion.monto old).

Definition nuevoTipo (old : Transaccion.t) (v : UpdateBody.t) : Tipo :=
  or_tipo (UpdateBody.tipo v) (Transaccion.tipo old).

(** Lines 386-408: the new contribution is applied to the account read
    after the reversal; an expense that would leave it negative throws. *)
Definition aplicar_nueva (old : Transaccion.t) (v : UpdateBody.t) (now : string) : Tx unit :=
  cuentaNueva <- select_cuenta (nuevaCuentaId old v) ;;
  match cuentaNueva with
  | Some c =>
      let nuevoSaldo := aplicar (nuevoTipo old v) (Cuenta.saldo c) (nuevoMonto old v) in
      if bool_decide (nuevoTipo old v = gasto) && (nuevoSaldo <? 0) then
        tx_throw (JsError "Saldo insuficiente en la cuenta")
      else update_saldo (nuevaCuentaId old v) nuevoSaldo now
  | None => tx_ret tt
  end.

(** The body of the atomic unit, lines 360-418. *)
Definition patch_unit (transaccionId : string) (old : Transaccion.t) (v : UpdateBody.t)
    (now : string) : Tx unit :=
  (if toca_saldo v then revertir_anterior old now ;;; aplicar_nueva old v now
   else tx_ret tt) ;;;
  update_transaccion transaccionId (spread v now).

(** The [catch] of the handler, lines 452-463, for what the unit throws. *)
Definition patch_catch (e : Exn) : Response :=
  match e with
  | JsError m =>
      if bool_decide (m = "Saldo insuficiente en la cuenta") then
        json (makeError "ERR_VALIDATION" "Saldo insuficiente en la cuenta") 400
      else json (makeError "ERR_INTERNAL" "Error al actualizar transacción") 500
  | ConstraintFailed _ =>
      json (makeError "ERR_INTERNAL" "Error al actualizar transacción") 500
  end.

Definition transacciones_patch (user : User) (transaccionId : string) (body : UpdateBody.t)
    (env : Ambient) (s : Store) : Store * Response :=
  if negb (updateTransaccionSchema body) then
    (s, json (makeError "ERR_VALIDATION" "Datos inválidos") 400)
  else
    match find_transaccion s transaccionId (cuenta_maestra_id user) with
    | None => (s, json (makeError "ERR_NOT_FOUND" "Transacción no encontrada") 404)
    | Some oldTransaccion =>
        match validar_categoria s user oldTransaccion body with
        | Some r => (s, r)
        | None =>
            match validar_cuenta s user body with
            | Some r => (s, r)
            | None =>
                match db_transaction
                        (patch_unit transaccionId oldTransaccion body (toISOString env)) s with
                | (s', inr _) => (s', ok "Transacción actualizada correctamente")
                | (s', inl e) => (s', patch_catch e)
                end
            end
        end
    end.

(** ** DELETE /transacciones/:id ([transacciones.ts], lines 466-518) *)

(** The body of the atomic unit, lines 488-510. *)
Definition delete_unit (transaccionId : string) (transaccion : Transaccion.t)
    (now : string) : Tx unit :=
  cuenta <- select_cuenta (Transaccion.cuentaId transaccion) ;;
  (match cuenta with
   | Some c =>
       update_saldo (Transaccion.cuentaId transaccion)
                    (revertir (Transaccion.tipo transaccion) (Cuenta.saldo c)
                              (Transaccion.monto transaccion))
                    now
   | None => tx_ret tt
   end) ;;;
  delete_transaccion transaccionId.

Definition transacciones_delete (user : User) (transaccionId : string) (env : Ambient)
    (s : Store) : Store * Response :=
  match find_transaccion s transaccionId (cuenta_maestra_id user) with
  | None => (s, json (makeError "ERR_NOT_FOUND" "Transacción no encontrada") 404)
  | Some transaccion =>
      match db_transaction (delete_unit transaccionId transaccion (toISOString env)) s with
      | (s', inr _) => (s', ok "Transacción eliminada correctamente")
      | (s', inl _) =>
          (s', json (makeError "ERR_INTERNAL" "Error al eliminar transacción") 500)
      end
  end.

(** ** POST /cuentas ([cuentas.ts], lines 77-119) *)

(** [and(eq(cuentas.nombre, n), eq(cuentas.cuentaMaestraId, m))] has a row. *)
Definition existe_nombre (s : Store) (n maestra : string) : bool :=
  map_fold (fun _ c found =>
              found || (bool_decide (Cuenta.nombre c = n)
                        && bool_decide (Cuenta.cuentaMaestraId c = maestra)))
           false (cuentas s).

Definition nueva_cuenta (user : User) (v : CuentaBody.t) (env : Ambient) : Cuenta.t :=
  Cuenta.mk
    (cuenta_maestra_id user)
    (CuentaBody.nombre v)
    (default 0 (CuentaBody.saldo v))
    (default "efectivo" (CuentaBody.tipo v))
    (default "#3B82F6" (CuentaBody.color v))
    (default "Wallet" (CuentaBody.icono v))
    true
    (CURRENT_TIMESTAMP env).

Definition cuentas_post (user : User) (body : CuentaBody.t) (env : Ambient)
    (s : Store) : Store * Response :=
  if negb (createCuentaSchema body) then
    (s, json (makeError "ERR_VALIDATION" "Datos inválidos") 400)
  else if existe_nombre s (CuentaBody.nombre body) (cuenta_maestra_id user) then
    (s, json (makeError "ERR_CONFLICT" "Ya existe una cuenta con este nombre") 409)
  else
    match cuentas s !! nanoid env with
    | Some _ => (s, json (makeError "ERR_INTERNAL" "Error al crear cuenta") 500)
    | None =>
        if Cuenta.saldo (nueva_cuenta user body env) <? 0 then
          (s, json (makeError "ERR_INTERNAL" "Error al crear cuenta") 500)
        else
          (mkStore (categorias s)
                   (<[nanoid env := nueva_cuenta user body env]> (cuentas s))
                   (transacciones s),
           ok "Cuenta creada correctamente")
    end.

(** ** DELETE /cuentas/:id ([cuentas.ts], lines 182-210) *)

(** [cuentaId: text('cuenta_id').notNull().references(() => cuentas.id)]
    ([schema.ts], line 64): some transaction row points to the account. *)
Definition cuenta_referida (s : Store) (cuentaId : string) : bool :=
  map_fold (fun _ t found => found || bool_decide (Transaccion.cuentaId t = cuentaId))
           false (transacciones s).

(** The handler looks the account up and deletes it; the store refuses the
    [db.delete] of a row that a transaction points to, and the [catch] of
    the handler answers for it. *)
Definition cuentas_delete (user : User) (cuentaId : string) (s : Store) : Store * Response :=
  match cuentas s !! cuentaId with
  | Some c =>
      if bool_decide (Cuenta.cuentaMaestraId c = cuenta_maestra_id user) then
        if cuenta_referida s cuentaId then
          (s, json (makeError "ERR_INTERNAL" "Error al eliminar cuenta") 500)
        else
          (mkStore (categorias s) (delete cuentaId (cuentas s)) (transacciones s),
           ok "Cuenta eliminada correctamente")
      else (s, json (makeError "ERR_NOT_FOUND" "Cuenta no encontrada") 404)
  | None => (s, json (makeError "ERR_NOT_FOUND" "Cuenta no encontrada") 404)
  end.

(** ** Sequences of ledger operations *)

Inductive Op : Type :=
| Create (user : User) (body : CreateBody.t) (env : Ambient)
| Update (user : User) (transaccionId : string) (body : UpdateBody.t) (env : Ambient)
| Delete (user : User) (transaccionId : string) (env : Ambient).

Definition handle (op : Op) (s : Store) : Store * Response :=
  match op with
  | Create user body env => transacciones_post user body env s
  | Update user id body env => transacciones_patch user id body env s
  | Delete user id env => transacciones_delete user id env s
  end.

Definition run (ops : list Op) (s : Store) : Store :=
  fold_left (fun acc op => fst (handle op acc)) ops s.

End Handlers.

(** ** Signed contributions (the vocabulary of the specification) *)

(** [+monto] for an income, [-monto] for an expense. *)
Definition signed (t : Transaccion.t) : Z :=
  match Transaccion.tipo t with
  | ingreso => Transaccion.monto t
  | gasto => - Transaccion.monto t
  end.

Definition contribution (cuentaId : string) (t : Transaccion.t) : Z :=
  if bool_decide (Transaccion.cuentaId t = cuentaId) then signed t else 0.

(** The sum of the signed contributions of the rows persisted for an
    account. *)
Definition total (cuentaId : string) (rows : gmap string Transaccion.t) : Z :=
  map_fold (fun _ t acc => acc + contribution cuentaId t) 0 rows.

Definition contributions (s : Store) (cuentaId : string) : Z :=
  total cuentaId (transacciones s).

Definition balance (s : Store) (cuentaId : string) : option Z :=
  Cuenta.saldo <$> cuentas s !! cuentaId.

(** The part of an account's stored balance that its persisted transactions
    do not account for. *)
Definition opening (s : Store) (cuentaId : string) : option Z :=
  (fun b => b - contributions s cuentaId) <$> balance s cuentaId.

(** The signed amount the request gives to the row. *)
Definition nuevo_signed (old : Transaccion.t) (v : UpdateBody.t) : Z :=
  match nuevoTipo old v with
  | ingreso => nuevoMonto old v
  | gasto => - nuevoMonto old v
  end.

(** An answer is a success when it is the 200 envelope of [successResponse]. *)
Definition is_success (r : Response) : Prop := exists msg, r = ok msg.

(** An operation that does not ask to move a transaction to an account. *)
Definition keeps_account (op : Op) : Prop :=
  match op with
  | Update _ _ body _ => UpdateBody.cuenta_id body = None
  | _ => True
  end.

(** ** The range in which the arithmetic of the handlers is exact *)

(** [Number.isSafeInteger]: an amount without hundredths, which a double
    holds exactly.  The sum and the difference of two of them, computed on
    doubles, are the exact ones whenever the exact result is one of them
    too. *)
Definition safe_integer (n : Z) : Prop := n mod 100 = 0 /\ Z.abs n < 2 ^ 53.

(** Every stored balance and amount is a whole amount below 2^52 in
    absolute value, so that one sum or difference of two of them is a safe
    integer. *)
Definition en_rango (s : Store) : Prop :=
  (forall id c, cuentas s !! id = Some c ->
     Cuenta.saldo c mod 100 = 0 /\ Z.abs (Cuenta.saldo c) < 2 ^ 52) /\
  (forall id t, transacciones s !! id = Some t ->
     Transaccion.monto t mod 100 = 0 /\ Z.abs (Transaccion.monto t) < 2 ^ 52).

(** ** Scenarios of the specification, as concrete stores *)

Module Ex.

Definition is_url (x : string) : bool := String.prefix "http" x.

Definition u : User := mkUser "u1" "m1".

Definition env (id : string) : Ambient :=
  mkAmbient id "2025-01-02T10:00:00.000Z" "2025-01-02 10:00:00".

Definition food : Categoria.t := Categoria.mk "m1" "Food" gasto "Tag" "blue" true.
Definition salary : Categoria.t := Categoria.mk "m1" "Salary" ingreso "Tag" "blue" true.

(** Two categories, no account, no transaction. *)
Definition s0 : Store :=
  mkStore (<["food" := food]> (<["salary" := salary]> ∅)) ∅ ∅.

Definition expense (monto : Z) (cuenta : string) : CreateBody.t :=
  CreateBody.mk gasto monto "food" cuenta "2025-01-01" None None.

Definition income (monto : Z) (cuenta : string) : CreateBody.t :=
  CreateBody.mk ingreso monto "salary" cuenta "2025-01-01" None None.

Definition no_change : UpdateBody.t :=
  UpdateBody.mk None None None None None None None.

(** Account A is opened with 100.00. *)
Definition s_A : Store :=
  fst (cuentas_post u (CuentaBody.mk "Cash" (Some 10000) None None None) (env "A") s0).

(** An expense of 30.00 on A: A holds 70.00. *)
Definition s_30 : Store :=
  fst (transacciones_post is_url u (expense 3000 "A") (env "t1") s_A).

(** Account B is opened with 200.00. *)
Definition s_AB : Store :=
  fst (cuentas_post u (CuentaBody.mk "Bank" (Some 20000) None None None) (env "B") s_30).

(** An income of 50.00 on A, which holds 70.00. *)
Definition s_50 : Store :=
  fst (transacciones_post is_url u (income 5000 "A") (env "t2") s_30).

(** Account C is opened empty, receives 50.00 and spends 30.00 of it. *)
Definition s_C : Store :=
  run is_url false
      [Create u (income 5000 "C") (env "t3"); Create u (expense 3000 "C") (env "t4")]
      (fst (cuentas_post u (CuentaBody.mk "Savings" None None None None) (env "C") s0)).

(** The expense "t1" without the row of its account: the store that the
    guard [if (cuenta.length)] of DELETE /transacciones provides for, which
    no handler produces as long as the reference is enforced. *)
Definition s_orphan : Store :=
  mkStore (categorias s_30) (delete "A" (cuentas s_30)) (transacciones s_30).

(** The row of the expense of 30.00. *)
Definition t1 : Transaccion.t := nueva_transaccion u (expense 3000 "A") (env "t1").

(** Requests: move to account B; raise the amount to 250.00 and move to B;
    change the date and the notes only. *)
Definition move_to_B : UpdateBody.t :=
  UpdateBody.mk None None None (Some "B") None None None.


Definition note_only : UpdateBody.t :=
  UpdateBody.mk None None None None (Some "2025-02-01") (Some "lunch") None.

(** An income of 50.00 on A, the expense "t1" moved to B, the income
    deleted. *)
Definition ops_AB : list Op :=
  [Create u (income 5000 "A") (env "t2");
   Update u "t1" move_to_B (env "p1");
   Delete u "t2" (env "d1")].

(** An income of 50.00 on A, the expense "t1" raised to 40.00, the income
    deleted. *)
Definition ops_A : list Op :=
  [Create u (income 5000 "A") (env "t2");
   Update u "t1" (UpdateBody.mk None (Some 4000) None None None None None) (env "p1");
   Delete u "t2" (env "d1")].

End Ex.

(** ** Vocabulary of the further properties *)

(** The rows meet the two CHECK constraints of [schema.ts]: no balance is
    negative and every amount is positive. *)
Definition checks_hold (s : Store) : Prop :=
  (forall id c, cuentas s !! id = Some c -> 0 <= Cuenta.saldo c) /\
  (forall id t, transacciones s !! id = Some t -> 0 < Transaccion.monto t).

(** Two versions of an account row that differ at most in [saldo] and
    [updatedAt]. *)
Definition same_account (c c' : Cuenta.t) : Prop :=
  Cuenta.cuentaMaestraId c' = Cuenta.cuentaMaestraId c /\
  Cuenta.nombre c' = Cuenta.nombre c /\
  Cuenta.tipo c' = Cuenta.tipo c /\
  Cuenta.color c' = Cuenta.color c /\
  Cuenta.icono c' = Cuenta.icono c /\
  Cuenta.activa c' = Cuenta.activa c.

(** The caller of a ledger operation. *)
Definition op_user (op : Op) : User :=
  match op with
  | Create user _ _ => user
  | Update user _ _ _ => user
  | Delete user _ _ => user
  end.

(** Every transaction that points to an existing account points to an
    account of its own master account. *)
Definition same_tenant_refs (s : Store) : Prop :=
  forall id t c,
    transacciones s !! id = Some t ->
    cuentas s !! Transaccion.cuentaId t = Some c ->
    Cuenta.cuentaMaestraId c = Transaccion.cuentaMaestraId t.

(** What a computation of the atomic unit guarantees between the store it
    starts from and the store it returns. *)
Definition tx_rel {A} (R : Store -> Store -> Prop) (m : Tx A) : Prop :=
  forall s a s', m s = inr (a, s') -> R s s'.


(** Between two stores: the categories are the same, the same accounts
    exist, and each differs at most in [saldo] and [updatedAt]. *)
Definition accounts_static (s s' : Store) : Prop :=
  categorias s' = categorias s /\
  forall id, match cuentas s !! id, cuentas s' !! id with
             | Some c, Some c' => same_account c c'
             | None, None => True
             | _, _ => False
             end.


(** Between two stores, seen from the master account [m]: the rows of
    transactions and of accounts that belong to another master account are
    the same. *)
Definition isolated (m : string) (s s' : Store) : Prop :=
  (forall id t, Transaccion.cuentaMaestraId t <> m ->
     (transacciones s !! id = Some t <-> transacciones s' !! id = Some t)) /\
  (forall id c, Cuenta.cuentaMaestraId c <> m ->
     (cuentas s !! id = Some c <-> cuentas s' !! id = Some c)).


(** ** PATCH /cuentas/:id ([cuentas.ts], lines 121-180) *)

Module CuentaUpdate.
Record t : Type := mk {
  nombre : option string;
  saldo : option Z;
  tipo : option string;
  color : option string;
  icono : option string;
  activa : option bool
}.
End CuentaUpdate.

Definition updateCuentaSchema (b : CuentaUpdate.t) : bool :=
  optional min1 (CuentaUpdate.nombre b) && optional (fun n => 0 <=? n) (CuentaUpdate.saldo b).

(** [{ ...validatedData, updatedAt }] on the table of accounts: every key
    of the request is the property name of its column. *)
Definition set_cuenta (v : CuentaUpdate.t) (now : string) (c : Cuenta.t) : Cuenta.t :=
  Cuenta.mk
    (Cuenta.cuentaMaestraId c)
    (default (Cuenta.nombre c) (CuentaUpdate.nombre v))
    (default (Cuenta.saldo c) (CuentaUpdate.saldo v))
    (default (Cuenta.tipo c) (CuentaUpdate.tipo v))
    (default (Cuenta.color c) (CuentaUpdate.color v))
    (default (Cuenta.icono c) (CuentaUpdate.icono v))
    (default (Cuenta.activa c) (CuentaUpdate.activa v))
    now.

(** The duplicate test of lines 144-154:
    [and(eq(nombre, n), eq(cuentaMaestraId, m), eq(cuentas.id, cuentaId, false))].
    [eq] has two operands, so the last conjunct is [id = cuentaId]: the rows
    looked at are the row of that identifier. *)
Definition duplicado_cuenta (s : Store) (cuentaId n maestra : string) : bool :=
  match cuentas s !! cuentaId with
  | Some c => bool_decide (Cuenta.nombre c = n)
              && bool_decide (Cuenta.cuentaMaestraId c = maestra)
  | None => false
  end.

Definition cuentas_patch (user : User) (cuentaId : string) (body : CuentaUpdate.t)
    (env : Ambient) (s : Store) : Store * Response :=
  if negb (updateCuentaSchema body) then
    (s, json (makeError "ERR_VALIDATION" "Datos inválidos") 400)
  else
    match cuentas s !! cuentaId with
    | Some c =>
        if bool_decide (Cuenta.cuentaMaestraId c = cuenta_maestra_id user) then
          if truthy_str (CuentaUpdate.nombre body)
             && duplicado_cuenta s cuentaId (default "" (CuentaUpdate.nombre body))
                                 (cuenta_maestra_id user) then
            (s, json (makeError "ERR_CONFLICT" "Ya existe una cuenta con este nombre") 409)
          else if Cuenta.saldo (set_cuenta body (toISOString env) c) <? 0 then
            (s, json (makeError "ERR_INTERNAL" "Error al actualizar cuenta") 500)
          else
            (mkStore (categorias s)
                     (<[cuentaId := set_cuenta body (toISOString env) c]> (cuentas s))
                     (transacciones s),
             ok "Cuenta actualizada correctamente")
        else (s, json (makeError "ERR_NOT_FOUND" "Cuenta no encontrada") 404)
    | None => (s, json (makeError "ERR_NOT_FOUND" "Cuenta no encontrada") 404)
    end.

(** ** /categorias ([categorias.ts]) *)

(** The table of categories is modelled without its timestamp columns, so
    the [updatedAt] that PATCH writes has no place in the row. *)

Module CategoriaBody.
Record t : Type := mk {
  nombre : string;
  tipo : Tipo;
  icono : option string;
  color : option string
}.
End CategoriaBody.

Module CategoriaUpdate.
Record t : Type := mk {
  nombre : option string;
  tipo : option Tipo;
  icono : option string;
  color : option string;
  activa : option bool
}.
End CategoriaUpdate.

Definition createCategoriaSchema (b : CategoriaBody.t) : bool := min1 (CategoriaBody.nombre b).

Definition updateCategoriaSchema (b : CategoriaUpdate.t) : bool :=
  optional min1 (CategoriaUpdate.nombre b).

(** [and(eq(nombre, n), eq(tipo, k), eq(cuentaMaestraId, m))] has a row
    (lines 91-101). *)
Definition existe_categoria (s : Store) (n : string) (k : Tipo) (maestra : string) : bool :=
  map_fold (fun _ c found =>
              found || (bool_decide (Categoria.nombre c = n)
                        && bool_decide (Categoria.tipo c = k)
                        && bool_decide (Categoria.cuentaMaestraId c = maestra)))
           false (categorias s).

Definition nueva_categoria (user : User) (v : CategoriaBody.t) : Categoria.t :=
  Categoria.mk
    (cuenta_maestra_id user)
    (CategoriaBody.nombre v)
    (CategoriaBody.tipo v)
    (default "Tag" (CategoriaBody.icono v))
    (default "blue" (CategoriaBody.color v))
    true.

(** POST /categorias, lines 85-127. *)
Definition categorias_post (user : User) (body : CategoriaBody.t) (env : Ambient)
    (s : Store) : Store * Response :=
  if negb (createCategoriaSchema body) then
    (s, json (makeError "ERR_VALIDATION" "Datos inválidos") 400)
  else if existe_categoria s (CategoriaBody.nombre body) (CategoriaBody.tipo body)
                           (cuenta_maestra_id user) then
    (s, json (makeError "ERR_CONFLICT" "Ya existe una categoría con este nombre y tipo") 409)
  else
    match categorias s !! nanoid env with
    | Some _ => (s, json (makeError "ERR_INTERNAL" "Error al crear categoría") 500)
    | None =>
        (mkStore (<[nanoid env := nueva_categoria user body]> (categorias s))
                 (cuentas s) (transacciones s),
         ok "Categoría creada correctamente")
    end.

Definition set_categoria (v : CategoriaUpdate.t) (c : Categoria.t) : Categoria.t :=
  Categoria.mk
    (Categoria.cuentaMaestraId c)
    (default (Categoria.nombre c) (CategoriaUpdate.nombre v))
    (default (Categoria.tipo c) (CategoriaUpdate.tipo v))
    (default (Categoria.icono c) (CategoriaUpdate.icono v))
    (default (Categoria.color c) (CategoriaUpdate.color v))
    (default (Categoria.activa c) (CategoriaUpdate.activa v)).

(** The duplicate test of lines 152-163, with the same
    [eq(categorias.id, categoriaId, false)] as for accounts. *)
Definition duplicado_categoria (s : Store) (categoriaId n : string) (k : Tipo)
    (maestra : string) : bool :=
  match categorias s !! categoriaId with
  | Some c => bool_decide (Categoria.nombre c = n)
              && bool_decide (Categoria.tipo c = k)
              && bool_decide (Categoria.cuentaMaestraId c = maestra)
  | None => false
  end.

(** PATCH /categorias/:id, lines 129-189. *)
Definition categorias_patch (user : User) (categoriaId : string) (body : CategoriaUpdate.t)
    (s : Store) : Store * Response :=
  if negb (updateCategoriaSchema body) then
    (s, json (makeError "ERR_VALIDATION" "Datos inválidos") 400)
  else
    match categorias s !! categoriaId with
    | Some c =>
        if bool_decide (Categoria.cuentaMaestraId c = cuenta_maestra_id user) then
          if truthy_str (CategoriaUpdate.nombre body)
             && truthy_tipo (CategoriaUpdate.tipo body)
             && duplicado_categoria s categoriaId
                  (default "" (CategoriaUpdate.nombre body))
                  (default (Categoria.tipo c) (CategoriaUpdate.tipo body))
                  (cuenta_maestra_id user) then
            (s, json (makeError "ERR_CONFLICT"
                        "Ya existe una categoría con este nombre y tipo") 409)
          else
            (mkStore (<[categoriaId := set_categoria body c]> (categorias s))
                     (cuentas s) (transacciones s),
             ok "Categoría actualizada correctamente")
        else (s, json (makeError "ERR_NOT_FOUND" "Categoría no encontrada") 404)
    | None => (s, json (makeError "ERR_NOT_FOUND" "Categoría no encontrada") 404)
    end.

(** [categoriaId: text('categoria_id').notNull().references(() => categorias.id)]
    ([schema.ts], line 63): some transaction row points to the category. *)
Definition categoria_referida (s : Store) (categoriaId : string) : bool :=
  map_fold (fun _ t found => found || bool_decide (Transaccion.categoriaId t = categoriaId))
           false (transacciones s).

(** DELETE /categorias/:id, lines 191-219; the store refuses the removal of
    a category that a transaction points to. *)
Definition categorias_delete (user : User) (categoriaId : string) (s : Store) : Store * Response :=
  match categorias s !! categoriaId with
  | Some c =>
      if bool_decide (Categoria.cuentaMaestraId c = cuenta_maestra_id user) then
        if categoria_referida s categoriaId then
          (s, json (makeError "ERR_INTERNAL" "Error al eliminar categoría") 500)
        else
          (mkStore (delete categoriaId (categorias s)) (cuentas s) (transacciones s),
           ok "Categoría eliminada correctamente")
      else (s, json (makeError "ERR_NOT_FOUND" "Categoría no encontrada") 404)
  | None => (s, json (makeError "ERR_NOT_FOUND" "Categoría no encontrada") 404)
  end.

(** No two accounts of one master account have the same name. *)
Definition nombres_unicos (s : Store) : Prop :=
  forall id1 id2 c1 c2,
    cuentas s !! id1 = Some c1 -> cuentas s !! id2 = Some c2 ->
    Cuenta.nombre c1 = Cuenta.nombre c2 ->
    Cuenta.cuentaMaestraId c1 = Cuenta.cuentaMaestraId c2 ->
    id1 = id2.

(** No two categories of one master account have the same name and kind. *)
Definition categorias_unicas (s : Store) : Prop :=
  forall id1 id2 c1 c2,
    categorias s !! id1 = Some c1 -> categorias s !! id2 = Some c2 ->
    Categoria.nombre c1 = Categoria.nombre c2 ->
    Categoria.tipo c1 = Categoria.tipo c2 ->
    Categoria.cuentaMaestraId c1 = Categoria.cuentaMaestraId c2 ->
    id1 = id2.


(** ** Authentication and permission gates ([middleware/auth.ts]) *)

(** [text('tipo_permiso', { enum: ['lectura', 'escritura'] })] *)
Inductive Permiso : Type := lectura | escritura.

Module Usuario.
Record t : Type := mk {
  cuentaMaestraId : string;
  email : string;
  nombreCompleto : option string;
  fotoUrl : option string;
  tipoPermiso : Permiso;
  activo : bool;
  passwordHash : string;
  updatedAt : string
}.
End Usuario.

(** The payload of a token, as decoded: its fields are what the signer put
    there. *)
Module JWTPayload.
Record t : Type := mk {
  usuario_id : string;
  cuenta_maestra_id : string;
  tipo_permiso : string;
  email : string
}.
End JWTPayload.

(** The object that [c.set('user', ...)] attaches to the request. *)
Module Sesion.
Record t : Type := mk {
  user : User;
  tipo_permiso : string;
  email : string
}.
End Sesion.

(** [process.env.JWT_SECRET || c.env?.JWT_SECRET] *)
Definition jwt_secret (process_env c_env : option string) : option string :=
  if truthy_str process_env then process_env else c_env.

Section Auth.

(** [verify(token, secret)] of jsonwebtoken, which is not part of the
    repository: the decoded payload, or nothing when it throws. *)
Variable verify : string -> string -> option JWTPayload.t.

(** [authenticateJWT], lines 16-52: the answer that ends the request, or the
    session with which [next()] runs. *)
Definition authenticateJWT (process_env c_env : option string) (authHeader : option string)
    (usuarios : gmap string Usuario.t) : Response + Sesion.t :=
  match authHeader with
  | None => inl (json (makeError "ERR_UNAUTHORIZED" "Token de autorización requerido") 401)
  | Some h =>
      if negb (min1 h && String.prefix "Bearer " h) then
        inl (json (makeError "ERR_UNAUTHORIZED" "Token de autorización requerido") 401)
      else
        let token := String.substring 7 (String.length h - 7) h in
        match jwt_secret process_env c_env with
        | None => inl (json (makeError "ERR_UNAUTHORIZED" "Token inválido") 401)
        | Some secret =>
            if negb (min1 secret) then
              inl (json (makeError "ERR_UNAUTHORIZED" "Token inválido") 401)
            else
              match verify token secret with
              | None => inl (json (makeError "ERR_UNAUTHORIZED" "Token inválido") 401)
              | Some decoded =>
                  match usuarios !! JWTPayload.usuario_id decoded with
                  | None =>
                      inl (json (makeError "ERR_UNAUTHORIZED"
                                   "Usuario no válido o inactivo") 401)
                  | Some u =>
                      if negb (Usuario.activo u) then
                        inl (json (makeError "ERR_UNAUTHORIZED"
                                     "Usuario no válido o inactivo") 401)
                      else
                        inr (Sesion.mk
                               (mkUser (JWTPayload.usuario_id decoded)
                                       (JWTPayload.cuenta_maestra_id decoded))
                               (JWTPayload.tipo_permiso decoded)
                               (JWTPayload.email decoded))
                  end
              end
        end
  end.

End Auth.

(** [requireWritePermission], lines 55-67. *)
Definition requireWritePermission (ctx : option Sesion.t)
    (next : User -> Store -> Store * Response) (s : Store) : Store * Response :=
  match ctx with
  | None => (s, json (makeError "ERR_UNAUTHORIZED" "Usuario no autenticado") 401)
  | Some sesion =>
      if negb (bool_decide (Sesion.tipo_permiso sesion = "escritura")) then
        (s, json (makeError "ERR_FORBIDDEN" "Permisos de escritura requeridos") 403)
      else next (Sesion.user sesion) s
  end.

(** The routes registered with [requireWritePermission] in
    [transacciones.ts], [cuentas.ts] and [categorias.ts]. *)
Inductive WriteRequest : Type :=
| PostTransaccion (body : CreateBody.t) (env : Ambient)
| PatchTransaccion (id : string) (body : UpdateBody.t) (env : Ambient)
| DeleteTransaccion (id : string) (env : Ambient)
| PostCuenta (body : CuentaBody.t) (env : Ambient)
| PatchCuenta (id : string) (body : CuentaUpdate.t) (env : Ambient)
| DeleteCuenta (id : string)
| PostCategoria (body : CategoriaBody.t) (env : Ambient)
| PatchCategoria (id : string) (body : CategoriaUpdate.t)
| DeleteCategoria (id : string).

Section Routes.

Variable is_url : string -> bool.
Variable sql_names : bool.
Variable verify : string -> string -> option JWTPayload.t.

Definition write_handler (req : WriteRequest) (user : User) (s : Store) : Store * Response :=
  match req with
  | PostTransaccion body env => transacciones_post is_url user body env s
  | PatchTransaccion id body env => transacciones_patch is_url sql_names user id body env s
  | DeleteTransaccion id env => transacciones_delete user id env s
  | PostCuenta body env => cuentas_post user body env s
  | PatchCuenta id body env => cuentas_patch user id body env s
  | DeleteCuenta id => cuentas_delete user id s
  | PostCategoria body env => categorias_post user body env s
  | PatchCategoria id body => categorias_patch user id body s
  | DeleteCategoria id => categorias_delete user id s
  end.

(** A request to a write route, through [router.use('*', authenticateJWT)]
    and then [requireWritePermission]. *)
Definition serve_write (process_env c_env : option string) (usuarios : gmap string Usuario.t)
    (authHeader : option string) (req : WriteRequest) (s : Store) : Store * Response :=
  match authenticateJWT verify process_env c_env authHeader usuarios with
  | inl r => (s, r)
  | inr sesion => requireWritePermission (Some sesion) (write_handler req) s
  end.

Definition serve_all (process_env c_env : option string) (usuarios : gmap string Usuario.t)
    (reqs : list (option string * WriteRequest)) (s : Store) : Store :=
  fold_left (fun acc '(h, req) => fst (serve_write process_env c_env usuarios h req acc))
            reqs s.

End Routes.

(** ** /usuarios (the users router) *)

Module UsuarioUpdate.
Record t : Type := mk {
  nombre_completo : option string;
  tipo_permiso : option Permiso;
  foto_url : option string;
  activo : option bool
}.
End UsuarioUpdate.

Section Usuarios.

Variable is_url : string -> bool.

(** As for transactions, the request keys [nombre_completo], [tipo_permiso]
    and [foto_url] are spelt like the SQL names of their columns, not like
    the properties of the table object; [activo] is both. *)
Variable sql_names : bool.

Definition updateUserSchema (b : UsuarioUpdate.t) : bool :=
  optional is_url (UsuarioUpdate.foto_url b).

Definition set_usuario (v : UsuarioUpdate.t) (now : string) (u : Usuario.t) : Usuario.t :=
  Usuario.mk
    (Usuario.cuentaMaestraId u)
    (Usuario.email u)
    (if sql_names then
       match UsuarioUpdate.nombre_completo v with
       | Some x => Some x
       | None => Usuario.nombreCompleto u
       end
     else Usuario.nombreCompleto u)
    (if sql_names then
       match UsuarioUpdate.foto_url v with
       | Some x => Some x
       | None => Usuario.fotoUrl u
       end
     else Usuario.fotoUrl u)
    (if sql_names then default (Usuario.tipoPermiso u) (UsuarioUpdate.tipo_permiso v)
     else Usuario.tipoPermiso u)
    (default (Usuario.activo u) (UsuarioUpdate.activo v))
    (Usuario.passwordHash u)
    now.

(** PATCH /usuarios/:id *)
Definition usuarios_patch (user : User) (userId : string) (body : UsuarioUpdate.t)
    (env : Ambient) (usuarios : gmap string Usuario.t)
    : gmap string Usuario.t * Response :=
  if negb (updateUserSchema body) then
    (usuarios, json (makeError "ERR_VALIDATION" "Datos inválidos") 400)
  else
    match usuarios !! userId with
    | Some u =>
        if bool_decide (Usuario.cuentaMaestraId u = cuenta_maestra_id user) then
          (<[userId := set_usuario body (toISOString env) u]> usuarios,
           ok "Usuario actualizado correctamente")
        else (usuarios, json (makeError "ERR_NOT_FOUND" "Usuario no encontrado") 404)
    | None => (usuarios, json (makeError "ERR_NOT_FOUND" "Usuario no encontrado") 404)
    end.

End Usuarios.

(** DELETE /usuarios/:id *)
Definition usuarios_delete (user : User) (userId : string)
    (usuarios : gmap string Usuario.t) : gmap string Usuario.t * Response :=
  if bool_decide (userId = user_id user) then
    (usuarios, json (makeError "ERR_FORBIDDEN" "No puedes eliminar tu propia cuenta") 403)
  else
    match usuarios !! userId with
    | Some u =>
        if bool_decide (Usuario.cuentaMaestraId u = cuenta_maestra_id user) then
          (delete userId usuarios, ok "Usuario eliminado correctamente")
        else (usuarios, json (makeError "ERR_NOT_FOUND" "Usuario no encontrado") 404)
    | None => (usuarios, json (makeError "ERR_NOT_FOUND" "Usuario no encontrado") 404)
    end.


(** ** The summary report (the reports router) and GET /transacciones/:id *)

(** The rows that the total of the summary report selects:
    [and(eq(cuentas.cuentaMaestraId, m), eq(cuentas.activa, true))]. *)
Definition cuentas_activas (maestra : string) (s : Store) : list (string * Cuenta.t) :=
  List.filter (fun ic => bool_decide (Cuenta.cuentaMaestraId ic.2 = maestra)
                         && Cuenta.activa ic.2)
              (map_to_list (cuentas s)).

(** [COALESCE(SUM(saldo), 0)] over those rows: [saldo_total_cuentas] of
    GET /reportes/resumen. *)
Definition saldo_total_cuentas (maestra : string) (s : Store) : Z :=
  foldr (fun ic sum => Cuenta.saldo ic.2 + sum) 0 (cuentas_activas maestra s).

(** The total of a master account, and that total with one more amount, are
    sums that do not round in whatever order they are taken: no balance is
    negative, each is a whole amount and so is [monto], and the total with
    [monto] is below 2^53. *)
Definition total_exacto (maestra : string) (s : Store) (monto : Z) : Prop :=
  (forall id c, cuentas s !! id = Some c ->
     0 <= Cuenta.saldo c /\ Cuenta.saldo c mod 100 = 0) /\
  monto mod 100 = 0 /\
  saldo_total_cuentas maestra s + monto < 2 ^ 53.

(** GET /transacciones/:id ([transacciones.ts], lines 126-177): the row of
    the caller's master account, joined with its category and its account. *)
Definition transacciones_get (user : User) (transaccionId : string) (s : Store)
    : Response * option (Transaccion.t * Categoria.t * Cuenta.t) :=
  match find_transaccion s transaccionId (cuenta_maestra_id user) with
  | Some t =>
      match categorias s !! Transaccion.categoriaId t, cuentas s !! Transaccion.cuentaId t with
      | Some k, Some c => (ok "Transacción obtenida correctamente", Some (t, k, c))
      | _, _ => (json (makeError "ERR_NOT_FOUND" "Transacción no encontrada") 404, None)
      end
  | None => (json (makeError "ERR_NOT_FOUND" "Transacción no encontrada") 404, None)
  end.


(** Every transaction points to a stored category and to a stored
    account. *)
Definition referencias (s : Store) : Prop :=
  forall id t,
    transacciones s !! id = Some t ->
    is_Some (categorias s !! Transaccion.categoriaId t) /\
    is_Some (cuentas s !! Transaccion.cuentaId t).

(** The write routes of accounts and categories. *)
Definition is_catalog (req : WriteRequest) : Prop :=
  match req with
  | PostTransaccion _ _ | PatchTransaccion _ _ _ | DeleteTransaccion _ _ => False
  | _ => True
  end.


(** ** Further scenarios *)

Module Ex2.

(** A caller of a second master account, and an account of theirs. *)
Definition u2 : User := mkUser "u9" "m2".

(** Account A of "m1" with 100.00 and account X of "m2" with 40.00; no
    transaction yet. *)
Definition s_two : Store :=
  fst (cuentas_post u2 (CuentaBody.mk "Cash" (Some 4000) None None None) (Ex.env "X") Ex.s_A).

Definition ops_m1 : list Op :=
  [Create Ex.u (Ex.expense 3000 "A") (Ex.env "t1");
   Create Ex.u (Ex.income 5000 "A") (Ex.env "t2");
   Update Ex.u "t1" (UpdateBody.mk None (Some 4000) None None None None None) (Ex.env "p1");
   Delete Ex.u "t2" (Ex.env "d1")].

Definition amount (n : Z) : UpdateBody.t :=
  UpdateBody.mk None (Some n) None None None None None.

Definition set_saldo (n : Z) : CuentaUpdate.t :=
  CuentaUpdate.mk None (Some n) None None None None.

Definition rename (n : string) : CuentaUpdate.t :=
  CuentaUpdate.mk (Some n) None None None None None.

Definition retire : CategoriaUpdate.t :=
  CategoriaUpdate.mk None None None None (Some false).

Definition empty : Store := mkStore ∅ ∅ ∅.

(** Users: an active writer "u1", an active reader "u2" and a deactivated
    writer "u3", all of "m1". *)
Definition usuarios : gmap string Usuario.t :=
  <["u1" := Usuario.mk "m1" "ana@example.com" None None escritura true "h1" "2025-01-01"]>
  (<["u2" := Usuario.mk "m1" "luis@example.com" None None lectura true "h2" "2025-01-01"]>
   (<["u3" := Usuario.mk "m1" "eva@example.com" None None escritura false "h3" "2025-01-01"]> ∅)).

(** A verification that accepts three tokens under the secret "s3cret". *)
Definition verify (token secret : string) : option JWTPayload.t :=
  if bool_decide (secret = "s3cret") then
    if bool_decide (token = "tok-ana") then
      Some (JWTPayload.mk "u1" "m1" "escritura" "ana@example.com")
    else if bool_decide (token = "tok-luis") then
      Some (JWTPayload.mk "u2" "m1" "lectura" "luis@example.com")
    else if bool_decide (token = "tok-eva") then
      Some (JWTPayload.mk "u3" "m1" "escritura" "eva@example.com")
    else None
  else None.

(** Requests of a reader, of a deactivated writer and of nobody. *)
Definition closed_requests : list (option string * WriteRequest) :=
  [(Some "Bearer tok-luis", PostTransaccion (Ex.expense 3000 "A") (Ex.env "t1"));
   (Some "Bearer tok-eva", DeleteCuenta "A");
   (None, PostCuenta (CuentaBody.mk "Other" None None None None) (Ex.env "Y"));
   (Some "Bearer forged", DeleteCategoria "food")].

(** Requests of the writer "u1": an expense on A, the removal of account
    A and of category "food", a change of the amount of "t1", the removal
    of "t2". *)
Definition writer_requests : list (option string * WriteRequest) :=
  [(Some "Bearer tok-ana", PostTransaccion (Ex.expense 1000 "A") (Ex.env "t2"));
   (Some "Bearer tok-ana", DeleteCuenta "A");
   (Some "Bearer tok-ana", DeleteCategoria "food");
   (Some "Bearer tok-ana", PatchTransaccion "t1" (amount 2000) (Ex.env "p1"));
   (Some "Bearer tok-ana", DeleteTransaccion "t2" (Ex.env "d1"))].

End Ex2.


(** ** The reads before the atomic unit *)

Lemma find_categoria_Some s id m c :
  find_categoria s id m = Some c ->
  categorias s !! id = Some c /\ Categoria.cuentaMaestraId c = m /\ Categoria.activa c = true.
Proof.
  unfold find_categoria. destruct (categorias s !! id) as [c'|]; [|discriminate].
  destruct (bool_decide _) eqn:Hm; simpl; [|discriminate].
  destruct (Categoria.activa c') eqn:Ha; [|discriminate].
  intros [= <-]. apply bool_decide_eq_true in Hm. auto.
Qed.

(** A category is not found exactly when no row has the identifier, or the
    row belongs to another master account, or it is inactive. *)
Lemma find_categoria_None s id m :
  find_categoria s id m = None <->
  (forall c, categorias s !! id = Some c ->
             Categoria.cuentaMaestraId c <> m \/ Categoria.activa c = false).
Proof.
  unfold find_categoria. split.
  - destruct (categorias s !! id) as [c'|]; [|discriminate].
    destruct (bool_decide _) eqn:Hm; simpl.
    + destruct (Categoria.activa c') eqn:Ha; [discriminate|].
      intros _ c [= <-]. auto.
    + apply bool_decide_eq_false in Hm. intros _ c [= <-]. auto.
  - intros H. destruct (categorias s !! id) as [c'|]; [|reflexivity].
    destruct (H c' eq_refl) as [Hm|Ha].
    + rewrite (bool_decide_eq_false_2 _ Hm). reflexivity.
    + rewrite Ha, andb_false_r. reflexivity.
Qed.

Lemma find_cuenta_Some s id m c :
  find_cuenta s id m = Some c ->
  cuentas s !! id = Some c /\ Cuenta.cuentaMaestraId c = m /\ Cuenta.activa c = true.
Proof.
  unfold find_cuenta. destruct (cuentas s !! id) as [c'|]; [|discriminate].
  destruct (bool_decide _) eqn:Hm; simpl; [|discriminate].
  destruct (Cuenta.activa c') eqn:Ha; [|discriminate].
  intros [= <-]. apply bool_decide_eq_true in Hm. auto.
Qed.

(** An account is not found exactly when no row has the identifier, or the
    row belongs to another master account, or it is inactive. *)
Lemma find_cuenta_None s id m :
  find_cuenta s id m = None <->
  (forall c, cuentas s !! id = Some c ->
             Cuenta.cuentaMaestraId c <> m \/ Cuenta.activa c = false).
Proof.
  unfold find_cuenta. split.
  - destruct (cuentas s !! id) as [c'|]; [|discriminate].
    destruct (bool_decide _) eqn:Hm; simpl.
    + destruct (Cuenta.activa c') eqn:Ha; [discriminate|].
      intros _ c [= <-]. auto.
    + apply bool_decide_eq_false in Hm. intros _ c [= <-]. auto.
  - intros H. destruct (cuentas s !! id) as [c'|]; [|reflexivity].
    destruct (H c' eq_refl) as [Hm|Ha].
    + rewrite (bool_decide_eq_false_2 _ Hm). reflexivity.
    + rewrite Ha, andb_false_r. reflexivity.
Qed.

Lemma find_transaccion_Some s id m t :
  find_transaccion s id m = Some t ->
  transacciones s !! id = Some t /\ Transaccion.cuentaMaestraId t = m.
Proof.
  unfold find_transaccion. destruct (transacciones s !! id) as [t'|]; [|discriminate].
  destruct (bool_decide _) eqn:Hm; [|discriminate].
  intros [= <-]. apply bool_decide_eq_true in Hm. auto.
Qed.

(** ** The store primitives *)

Lemma update_saldo_inv id n now s s' :
  update_saldo id n now s = inr (tt, s') ->
  categorias s' = categorias s /\ transacciones s' = transacciones s /\
  ((cuentas s !! id = None /\ cuentas s' = cuentas s) \/
   (exists c, cuentas s !! id = Some c /\ 0 <= n /\
              cuentas s' = <[id := with_saldo c n now]> (cuentas s))).
Proof.
  unfold update_saldo. destruct (cuentas s !! id) as [c|] eqn:Hc.
  - destruct (n <? 0) eqn:Hn; [discriminate|]. apply Z.ltb_ge in Hn.
    intros [= <-]. simpl. repeat split; eauto.
  - intros [= <-]. auto.
Qed.

Lemma update_saldo_some id n now s c :
  cuentas s !! id = Some c -> 0 <= n ->
  update_saldo id n now s =
  inr (tt, mkStore (categorias s) (<[id := with_saldo c n now]> (cuentas s)) (transacciones s)).
Proof.
  intros Hc Hn. unfold update_saldo. rewrite Hc.
  destruct (n <? 0) eqn:E; [apply Z.ltb_lt in E; lia | reflexivity].
Qed.

Lemma update_saldo_refused id n now s c :
  cuentas s !! id = Some c -> n < 0 ->
  update_saldo id n now s = inl (ConstraintFailed "saldo_positivo").
Proof.
  intros Hc Hn. unfold update_saldo. rewrite Hc.
  destruct (n <? 0) eqn:E; [reflexivity | apply Z.ltb_ge in E; lia].
Qed.

Lemma insert_transaccion_inv id row s s' :
  insert_transaccion id row s = inr (tt, s') ->
  transacciones s !! id = None /\ 0 < Transaccion.monto row /\
  s' = mkStore (categorias s) (cuentas s) (<[id := row]> (transacciones s)).
Proof.
  unfold insert_transaccion. destruct (transacciones s !! id); [discriminate|].
  destruct (Transaccion.monto row <=? 0) eqn:Hm; [discriminate|].
  apply Z.leb_gt in Hm. intros [= <-]. auto.
Qed.

(** [db.transaction] fails closed: a unit that throws leaves the store it
    started from. *)
Lemma db_transaction_rollback {A} (body : Tx A) s s' e :
  db_transaction body s = (s', inl e) -> s' = s.
Proof.
  unfold db_transaction. destruct (body s) as [e'|[a s'']]; congruence.
Qed.

Lemma db_transaction_commit {A} (body : Tx A) s s' a :
  db_transaction body s = (s', inr a) -> body s = inr (a, s').
Proof.
  unfold db_transaction. destruct (body s) as [e'|[a' s'']]; congruence.
Qed.

Lemma not_success_error code msg st : st <> 200 -> ~ is_success (json (makeError code msg) st).
Proof. intros Hst [m Hm]. discriminate Hm. Qed.

(** ** DELETE *)

(** DELETE on a row whose account row is gone: only the row is removed. *)
Lemma delete_orphan user id env s t :
  find_transaccion s id (cuenta_maestra_id user) = Some t ->
  cuentas s !! Transaccion.cuentaId t = None ->
  transacciones_delete user id env s =
  (mkStore (categorias s) (cuentas s) (delete id (transacciones s)),
   ok "Transacción eliminada correctamente").
Proof.
  intros Ht Hc. unfold transacciones_delete. rewrite Ht.
  unfold db_transaction, delete_unit, tx_bind, select_cuenta, tx_read.
  rewrite Hc. reflexivity.
Qed.

(** C10. Deleting a transaction whose account row no longer exists succeeds:
    the transaction row is removed, the table of accounts is left as it was,
    and the answer is the success envelope. *)
Theorem C10_delete_without_account (user : User) (id : string) (env : Ambient)
    (s : Store) (t : Transaccion.t) :
  find_transaccion s id (cuenta_maestra_id user) = Some t ->
  cuentas s !! Transaccion.cuentaId t = None ->
  transacciones_delete user id env s =
  (mkStore (categorias s) (cuentas s) (delete id (transacciones s)),
   ok "Transacción eliminada correctamente").
Proof. apply delete_orphan. Qed.

(** ** POST *)

Lemma post_unit_inv user v cuenta env s s' :
  post_unit user v cuenta env s = inr (tt, s') ->
  transacciones s !! nanoid env = None /\
  categorias s' = categorias s /\
  transacciones s' = <[nanoid env := nueva_transaccion user v env]> (transacciones s) /\
  ((cuentas s !! CreateBody.cuenta_id v = None /\ cuentas s' = cuentas s) \/
   (exists c, cuentas s !! CreateBody.cuenta_id v = Some c /\
      cuentas s' =
      <[CreateBody.cuenta_id v :=
          with_saldo c (aplicar (CreateBody.tipo v) (Cuenta.saldo cuenta) (CreateBody.monto v))
                     (toISOString env)]> (cuentas s))).
Proof.
  unfold post_unit, tx_bind.
  destruct (insert_transaccion _ _ s) as [e|[[] s1]] eqn:Hi; [discriminate|].
  apply insert_transaccion_inv in Hi as (Hfresh & _ & ->).
  intros Hu. apply update_saldo_inv in Hu as (Hcat & Htx & Hc). simpl in *.
  repeat split; auto.
  destruct Hc as [[Hn He]|(c & Hc & _ & He)]; [left|right]; eauto.
Qed.

(** What a successful POST has checked and written. *)
Lemma post_success is_url user body env s s' r :
  transacciones_post is_url user body env s = (s', r) ->
  is_success r ->
  exists categoria cuenta,
    find_categoria s (CreateBody.categoria_id body) (cuenta_maestra_id user) = Some categoria /\
    Categoria.tipo categoria = CreateBody.tipo body /\
    find_cuenta s (CreateBody.cuenta_id body) (cuenta_maestra_id user) = Some cuenta /\
    (CreateBody.tipo body = gasto -> CreateBody.monto body <= Cuenta.saldo cuenta) /\
    transacciones s !! nanoid env = None /\
    s' = mkStore (categorias s)
           (<[CreateBody.cuenta_id body :=
                with_saldo cuenta
                  (aplicar (CreateBody.tipo body) (Cuenta.saldo cuenta) (CreateBody.monto body))
                  (toISOString env)]> (cuentas s))
           (<[nanoid env := nueva_transaccion user body env]> (transacciones s)).
Proof.
  unfold transacciones_post. intros H [msg ->].
  destruct (negb _); [discriminate|].
  destruct (find_categoria _ _ _) as [categoria|] eqn:Hcat; [|discriminate].
  destruct (bool_decide (Categoria.tipo categoria = _)) eqn:Hk; simpl in H; [|discriminate].
  apply bool_decide_eq_true in Hk.
  destruct (find_cuenta _ _ _) as [cuenta|] eqn:Hcu; [|discriminate].
  destruct (bool_decide (CreateBody.tipo body = gasto) && _) eqn:Hb; [discriminate|].
  destruct (db_transaction _ s) as [s1 [e|[]]] eqn:Hu; [discriminate|].
  injection H as <- _. apply db_transaction_commit in Hu.
  apply post_unit_inv in Hu as (Hfresh & Hc & Ht & Hcs).
  exists categoria, cuenta. repeat split; auto.
  - intros Hg. apply andb_false_iff in Hb as [Hb|Hb].
    + apply bool_decide_eq_false in Hb. contradiction.
    + apply Z.ltb_ge in Hb. exact Hb.
  - apply find_cuenta_Some in Hcu as (Hcu & _).
    destruct Hcs as [[Hn _]|(c & Hc' & He)]; [congruence|].
    assert (c = cuenta) as -> by congruence.
    destruct s1 as [k c1 t1]. simpl in *. congruence.
Qed.

(** A POST that does not succeed has written nothing. *)
Lemma post_fails_closed is_url user body env s s' r :
  transacciones_post is_url user body env s = (s', r) ->
  ~ is_success r -> s' = s.
Proof.
  unfold transacciones_post. intros H Hr.
  destruct (negb _); [congruence|].
  destruct (find_categoria _ _ _) as [categoria|]; [|congruence].
  destruct (negb _); [congruence|].
  destruct (find_cuenta _ _ _) as [cuenta|]; [|congruence].
  destruct (_ && _); [congruence|].
  destruct (db_transaction _ s) as [s1 [e|[]]] eqn:Hu.
  - apply db_transaction_rollback in Hu. congruence.
  - exfalso. apply Hr. injection H as _ <-. eexists. reflexivity.
Qed.

(** C6. A create that fails a precondition writes nothing: a category or an
    account that is missing, foreign or inactive answers ERR_NOT_FOUND (404),
    a kind that differs from the category's or an expense above the balance
    answers ERR_VALIDATION (400), and every answer that is not a success
    leaves the store as it was. *)
Theorem C6_create_precondition_failures (is_url : string -> bool) (user : User)
    (body : CreateBody.t) (env : Ambient) (s : Store) :
  createTransaccionSchema is_url body = true ->
  (find_categoria s (CreateBody.categoria_id body) (cuenta_maestra_id user) = None ->
   transacciones_post is_url user body env s =
   (s, json (makeError "ERR_NOT_FOUND" "Categoría no encontrada o inactiva") 404)) /\
  (forall categoria,
   find_categoria s (CreateBody.categoria_id body) (cuenta_maestra_id user) = Some categoria ->
   Categoria.tipo categoria <> CreateBody.tipo body ->
   transacciones_post is_url user body env s =
   (s, json (makeError "ERR_VALIDATION"
              "El tipo de transacción no coincide con el tipo de categoría") 400)) /\
  (forall categoria,
   find_categoria s (CreateBody.categoria_id body) (cuenta_maestra_id user) = Some categoria ->
   Categoria.tipo categoria = CreateBody.tipo body ->
   find_cuenta s (CreateBody.cuenta_id body) (cuenta_maestra_id user) = None ->
   transacciones_post is_url user body env s =
   (s, json (makeError "ERR_NOT_FOUND" "Cuenta no encontrada o inactiva") 404)) /\
  (forall categoria cuenta,
   find_categoria s (CreateBody.categoria_id body) (cuenta_maestra_id user) = Some categoria ->
   Categoria.tipo categoria = CreateBody.tipo body ->
   find_cuenta s (CreateBody.cuenta_id body) (cuenta_maestra_id user) = Some cuenta ->
   CreateBody.tipo body = gasto ->
   Cuenta.saldo cuenta < CreateBody.monto body ->
   transacciones_post is_url user body env s =
   (s, json (makeError "ERR_VALIDATION" "Saldo insuficiente en la cuenta") 400)) /\
  (forall s' r,
   transacciones_post is_url user body env s = (s', r) -> ~ is_success r -> s' = s).
Proof.
  intros Hschema. unfold transacciones_post. rewrite Hschema. simpl.
  split; [|split; [|split; [|split]]].
  - intros ->. reflexivity.
  - intros categoria -> Hk. rewrite (bool_decide_eq_false_2 _ Hk). reflexivity.
  - intros categoria -> Hk ->. rewrite (bool_decide_eq_true_2 _ Hk). reflexivity.
  - intros categoria cuenta -> Hk -> Hg Hlt.
    rewrite (bool_decide_eq_true_2 _ Hk), (bool_decide_eq_true_2 _ Hg). simpl.
    apply Z.ltb_lt in Hlt. rewrite Hlt. reflexivity.
  - intros s' r H. apply (post_fails_closed is_url user body env).
    unfold transacciones_post. rewrite Hschema. exact H.
Qed.

(** C3. A create of an expense above the balance of the account it names is
    rejected and leaves the store (the balance and the table of transactions)
    as it was; the answer is ERR_VALIDATION (400) whenever the request names a
    category of the caller.  Conversely a create of an expense that succeeds
    had an amount within the balance. *)
Theorem C3_expense_over_balance (is_url : string -> bool) (user : User)
    (body : CreateBody.t) (env : Ambient) (s : Store) (cuenta : Cuenta.t) :
  CreateBody.tipo body = gasto ->
  find_cuenta s (CreateBody.cuenta_id body) (cuenta_maestra_id user) = Some cuenta ->
  (Cuenta.saldo cuenta < CreateBody.monto body ->
   exists r,
     transacciones_post is_url user body env s = (s, r) /\
     ~ is_success r /\
     (is_Some (find_categoria s (CreateBody.categoria_id body) (cuenta_maestra_id user)) ->
      exists msg, r = json (makeError "ERR_VALIDATION" msg) 400)) /\
  (forall s' r,
   transacciones_post is_url user body env s = (s', r) ->
   is_success r -> CreateBody.monto body <= Cuenta.saldo cuenta).
Proof.
  intros Hg Hcu. split.
  - intros Hlt. apply Z.ltb_lt in Hlt.
    unfold transacciones_post. rewrite Hcu, Hlt, (bool_decide_eq_true_2 _ Hg). simpl.
    destruct (negb (createTransaccionSchema is_url body)).
    { eexists. split; [reflexivity|]. split; [apply not_success_error; lia|]. eauto. }
    destruct (find_categoria _ _ _) as [categoria|].
    + destruct (negb _);
        (eexists; split; [reflexivity|]; split; [apply not_success_error; lia|]; eauto).
    + eexists. split; [reflexivity|]. split; [apply not_success_error; lia|].
      intros [x Hx]. discriminate Hx.
  - intros s' r H Hr.
    destruct (post_success _ _ _ _ _ _ _ H Hr) as (k & c & _ & _ & Hc & Hle & _).
    assert (c = cuenta) as -> by congruence. auto.
Qed.

(** C4. A create that succeeds leaves the named account with its prior
    balance plus the amount for an income, minus the amount for an expense,
    and the new row in the table, no other account or row being touched; a
    create that does not succeed leaves the store as it was, so the row and
    the balance change together or not at all. *)
Theorem C4_create_applies_delta (is_url : string -> bool) (user : User)
    (body : CreateBody.t) (env : Ambient) (s s' : Store) (r : Response) :
  transacciones_post is_url user body env s = (s', r) ->
  (is_success r ->
   exists cuenta,
     cuentas s !! CreateBody.cuenta_id body = Some cuenta /\
     balance s' (CreateBody.cuenta_id body) =
     Some (match CreateBody.tipo body with
           | ingreso => Cuenta.saldo cuenta + CreateBody.monto body
           | gasto => Cuenta.saldo cuenta - CreateBody.monto body
           end) /\
     (forall a, a <> CreateBody.cuenta_id body -> cuentas s' !! a = cuentas s !! a) /\
     transacciones s !! nanoid env = None /\
     transacciones s' = <[nanoid env := nueva_transaccion user body env]> (transacciones s)) /\
  (~ is_success r -> s' = s).
Proof.
  intros H. split; [|apply (post_fails_closed _ _ _ _ _ _ _ H)].
  intros Hr.
  destruct (post_success _ _ _ _ _ _ _ H Hr) as (k & c & _ & _ & Hc & _ & Hfresh & ->).
  apply find_cuenta_Some in Hc as (Hc & _).
  exists c. unfold balance. simpl. repeat split; auto.
  - rewrite lookup_insert_eq. simpl. destruct (CreateBody.tipo body); reflexivity.
  - intros a Ha. rewrite lookup_insert_ne; auto.
Qed.

(** The reversal undoes the application, and is the subtraction of the
    signed contribution. *)
Lemma revertir_aplicar tipo saldo monto : revertir tipo (aplicar tipo saldo monto) monto = saldo.
Proof. destruct tipo; simpl; lia. Qed.

Lemma revertir_signed t saldo :
  revertir (Transaccion.tipo t) saldo (Transaccion.monto t) = saldo - signed t.
Proof. unfold signed. destruct (Transaccion.tipo t); simpl; lia. Qed.

Lemma aplicar_signed t saldo :
  aplicar (Transaccion.tipo t) saldo (Transaccion.monto t) = saldo + signed t.
Proof. unfold signed. destruct (Transaccion.tipo t); simpl; lia. Qed.

(** DELETE on a row whose account exists: the store accepts the reverted
    balance and the unit commits both writes, *)
Lemma delete_commits user id env s t c :
  find_transaccion s id (cuenta_maestra_id user) = Some t ->
  cuentas s !! Transaccion.cuentaId t = Some c ->
  0 <= revertir (Transaccion.tipo t) (Cuenta.saldo c) (Transaccion.monto t) ->
  transacciones_delete user id env s =
  (mkStore (categorias s)
     (<[Transaccion.cuentaId t :=
          with_saldo c (revertir (Transaccion.tipo t) (Cuenta.saldo c) (Transaccion.monto t))
                     (toISOString env)]> (cuentas s))
     (delete id (transacciones s)),
   ok "Transacción eliminada correctamente").
Proof.
  intros Ht Hc Hn. unfold transacciones_delete. rewrite Ht.
  unfold db_transaction, delete_unit, tx_bind, select_cuenta, tx_read.
  rewrite Hc, (update_saldo_some _ _ _ _ c Hc Hn). reflexivity.
Qed.

(** or the store refuses it and nothing is written. *)
Lemma delete_refused user id env s t c :
  find_transaccion s id (cuenta_maestra_id user) = Some t ->
  cuentas s !! Transaccion.cuentaId t = Some c ->
  revertir (Transaccion.tipo t) (Cuenta.saldo c) (Transaccion.monto t) < 0 ->
  transacciones_delete user id env s =
  (s, json (makeError "ERR_INTERNAL" "Error al eliminar transacción") 500).
Proof.
  intros Ht Hc Hn. unfold transacciones_delete. rewrite Ht.
  unfold db_transaction, delete_unit, tx_bind, select_cuenta, tx_read.
  rewrite Hc, (update_saldo_refused _ _ _ _ c Hc Hn). reflexivity.
Qed.

Lemma delete_fails_closed user id env s s' r :
  transacciones_delete user id env s = (s', r) -> ~ is_success r -> s' = s.
Proof.
  unfold transacciones_delete. intros H Hr.
  destruct (find_transaccion _ _ _) as [t|]; [|congruence].
  destruct (db_transaction _ s) as [s1 [e|[]]] eqn:Hu.
  - apply db_transaction_rollback in Hu. congruence.
  - exfalso. apply Hr. injection H as _ <-. eexists. reflexivity.
Qed.

(** C5, as amended.  Deleting a persisted transaction whose account exists
    takes its signed contribution back from the account and removes the row
    in one unit, leaving the other accounts as they were, whenever the
    reverted balance is not negative; the handler makes no floor check of its
    own.  In particular a transaction that was just created on an account
    whose balance [b] was not negative is deleted with success: the table of
    transactions is back to what it was, and the account holds what the two
    handlers computed one after the other, [(b + monto) - monto] for an
    income and [(b - monto) + monto] for an expense.  That is [b] itself
    when [b] and the balance in between are safe integers, the sum and the
    difference being exact there; on other doubles it is [b] up to the
    rounding of the two operations. *)
Theorem C5_delete_reverts :
  (forall (user : User) (id : string) (env : Ambient) (s : Store)
          (t : Transaccion.t) (c : Cuenta.t),
     find_transaccion s id (cuenta_maestra_id user) = Some t ->
     cuentas s !! Transaccion.cuentaId t = Some c ->
     0 <= Cuenta.saldo c - signed t ->
     exists s',
       transacciones_delete user id env s = (s', ok "Transacción eliminada correctamente") /\
       balance s' (Transaccion.cuentaId t) = Some (Cuenta.saldo c - signed t) /\
       (forall a, a <> Transaccion.cuentaId t -> cuentas s' !! a = cuentas s !! a) /\
       transacciones s' = delete id (transacciones s)) /\
  (forall (is_url : string -> bool) (user : User) (body : CreateBody.t)
          (env env' : Ambient) (s s1 : Store) (r1 : Response) (b : Z),
     balance s (CreateBody.cuenta_id body) = Some b ->
     0 <= b ->
     transacciones_post is_url user body env s = (s1, r1) ->
     is_success r1 ->
     exists s2,
       transacciones_delete user (nanoid env) env' s1 =
       (s2, ok "Transacción eliminada correctamente") /\
       balance s2 (CreateBody.cuenta_id body)
       = Some (revertir (CreateBody.tipo body)
                        (aplicar (CreateBody.tipo body) b (CreateBody.monto body))
                        (CreateBody.monto body)) /\
       transacciones s2 = transacciones s /\
       (safe_integer b ->
        safe_integer (aplicar (CreateBody.tipo body) b (CreateBody.monto body)) ->
        balance s2 (CreateBody.cuenta_id body) = Some b)).
Proof.
  split.
  - intros user id env s t c Ht Hc Hn. rewrite <- revertir_signed in Hn.
    eexists. split; [apply (delete_commits user id env s t c Ht Hc Hn)|].
    unfold balance. simpl. repeat split.
    + rewrite lookup_insert_eq. simpl. rewrite revertir_signed. reflexivity.
    + intros a Ha. rewrite lookup_insert_ne; auto.
  - intros is_url user body env env' s s1 r1 b Hb Hb0 Hpost Hr1.
    destruct (post_success _ _ _ _ _ _ _ Hpost Hr1)
      as (k & c & _ & _ & Hc & _ & Hfresh & ->).
    apply find_cuenta_Some in Hc as (Hc & _).
    unfold balance in Hb. rewrite Hc in Hb. injection Hb as Hb.
    set (row := nueva_transaccion user body env).
    set (c1 := with_saldo c _ _).
    set (s1 := mkStore _ _ _).
    assert (Hrow : find_transaccion s1 (nanoid env) (cuenta_maestra_id user) = Some row).
    { unfold find_transaccion, s1. simpl. rewrite lookup_insert_eq. simpl.
      rewrite bool_decide_eq_true_2; reflexivity. }
    assert (Hc1 : cuentas s1 !! Transaccion.cuentaId row = Some c1).
    { unfold s1, row. simpl. apply lookup_insert_eq. }
    assert (Hrev : revertir (Transaccion.tipo row) (Cuenta.saldo c1) (Transaccion.monto row)
                   = Cuenta.saldo c).
    { unfold row, c1. simpl. apply revertir_aplicar. }
    eexists. split.
    { apply (delete_commits user (nanoid env) env' s1 row c1 Hrow Hc1). rewrite Hrev. lia. }
    unfold balance. cbn [cuentas transacciones].
    change (Transaccion.cuentaId row) with (CreateBody.cuenta_id body).
    rewrite lookup_insert_eq. cbn [fmap option_fmap option_map with_saldo Cuenta.saldo].
    split; [|split].
    + unfold row, c1. cbn [nueva_transaccion Transaccion.tipo Transaccion.monto
                            with_saldo Cuenta.saldo]. rewrite Hb. reflexivity.
    + apply delete_insert_id. exact Hfresh.
    + intros _ _. rewrite Hrev, Hb. reflexivity.
Qed.

(** ** PATCH *)

(** What the set object built from a request gives to the columns that
    carry the contribution of the row. *)
Lemma spread_tipo sql_names v now d :
  set_tipo (column_value sql_names (spread v now) "tipo" "tipo") d
  = or_tipo (UpdateBody.tipo v) d.
Proof.
  destruct v as [[k|] [n|] [ci|] [cu|] [f|] [no|] [fo|]]; destruct sql_names; reflexivity.
Qed.

Lemma spread_monto sql_names v now d :
  set_num (column_value sql_names (spread v now) "monto" "monto") d
  = default d (UpdateBody.monto v).
Proof.
  destruct v as [[k|] [n|] [ci|] [cu|] [f|] [no|] [fo|]]; destruct sql_names; reflexivity.
Qed.

Lemma spread_cuentaId sql_names v now d :
  set_str (column_value sql_names (spread v now) "cuentaId" "cuenta_id") d
  = if sql_names then default d (UpdateBody.cuenta_id v) else d.
Proof.
  destruct v as [[k|] [n|] [ci|] [cu|] [f|] [no|] [fo|]]; destruct sql_names; reflexivity.
Qed.

(** A request that passed the schema has a positive amount and non-empty
    identifiers where it has them, so what it supplies is truthy. *)
Lemma schema_monto is_url v n :
  updateTransaccionSchema is_url v = true -> UpdateBody.monto v = Some n -> 0 < n.
Proof.
  unfold updateTransaccionSchema. intros H Hn. rewrite Hn in H. simpl in H.
  repeat (apply andb_true_iff in H as [H _]). apply Z.ltb_lt in H. exact H.
Qed.

Lemma schema_cuenta_id is_url v x :
  updateTransaccionSchema is_url v = true -> UpdateBody.cuenta_id v = Some x -> min1 x = true.
Proof.
  unfold updateTransaccionSchema. intros H Hx. rewrite Hx in H. simpl in H.
  repeat (apply andb_true_iff in H as [H ?]). assumption.
Qed.

Lemma set_transaccion_frame sql_names v now t :
  UpdateBody.monto v = None -> UpdateBody.tipo v = None -> UpdateBody.cuenta_id v = None ->
  Transaccion.tipo (set_transaccion sql_names (spread v now) t) = Transaccion.tipo t /\
  Transaccion.monto (set_transaccion sql_names (spread v now) t) = Transaccion.monto t /\
  Transaccion.cuentaId (set_transaccion sql_names (spread v now) t) = Transaccion.cuentaId t /\
  Transaccion.cuentaMaestraId (set_transaccion sql_names (spread v now) t)
  = Transaccion.cuentaMaestraId t /\
  Transaccion.usuarioId (set_transaccion sql_names (spread v now) t) = Transaccion.usuarioId t.
Proof.
  intros Hm Hk Hc. unfold set_transaccion.
  cbn [Transaccion.tipo Transaccion.monto Transaccion.cuentaId Transaccion.cuentaMaestraId
       Transaccion.usuarioId].
  rewrite spread_tipo, spread_monto, spread_cuentaId, Hm, Hk, Hc.
  destruct sql_names; auto.
Qed.

Lemma update_transaccion_inv sql_names id set s s' :
  update_transaccion sql_names id set s = inr (tt, s') ->
  categorias s' = categorias s /\ cuentas s' = cuentas s /\
  ((transacciones s !! id = None /\ transacciones s' = transacciones s) \/
   (exists t, transacciones s !! id = Some t /\
              0 < Transaccion.monto (set_transaccion sql_names set t) /\
              transacciones s' = <[id := set_transaccion sql_names set t]> (transacciones s))).
Proof.
  unfold update_transaccion. destruct (transacciones s !! id) as [t|] eqn:Ht.
  - cbv zeta. destruct (_ <=? 0) eqn:Hm; [discriminate|]. apply Z.leb_gt in Hm.
    intros [= <-]. simpl. repeat split; eauto.
  - intros [= <-]. auto.
Qed.

Lemma update_transaccion_some sql_names id set s t :
  transacciones s !! id = Some t ->
  0 < Transaccion.monto (set_transaccion sql_names set t) ->
  update_transaccion sql_names id set s =
  inr (tt, mkStore (categorias s) (cuentas s)
                   (<[id := set_transaccion sql_names set t]> (transacciones s))).
Proof.
  intros Ht Hm. unfold update_transaccion. rewrite Ht. cbv zeta.
  destruct (_ <=? 0) eqn:E; [apply Z.leb_le in E; lia | reflexivity].
Qed.

(** A PATCH that does not succeed has written nothing. *)
Lemma patch_fails_closed is_url sql_names user id body env s s' r :
  transacciones_patch is_url sql_names user id body env s = (s', r) ->
  ~ is_success r -> s' = s.
Proof.
  unfold transacciones_patch. intros H Hr.
  destruct (negb _); [congruence|].
  destruct (find_transaccion _ _ _) as [old|]; [|congruence].
  destruct (validar_categoria _ _ _ _); [congruence|].
  destruct (validar_cuenta _ _ _); [congruence|].
  destruct (db_transaction _ s) as [s1 [e|[]]] eqn:Hu.
  - apply db_transaction_rollback in Hu. congruence.
  - exfalso. apply Hr. injection H as _ <-. eexists. reflexivity.
Qed.

(** C8. An update that supplies none of amount, kind and account skips the
    balance adjustment: the tables of accounts and categories are left as they
    were, no other transaction row is touched, and the row itself keeps its
    kind, amount, account, owner and author (its notes, date, receipt
    reference and category are the only request fields that may reach it). *)
Theorem C8_update_without_ledger_fields (is_url : string -> bool) (sql_names : bool)
    (user : User) (id : string) (body : UpdateBody.t) (env : Ambient)
    (s s' : Store) (r : Response) :
  UpdateBody.monto body = None ->
  UpdateBody.tipo body = None ->
  UpdateBody.cuenta_id body = None ->
  transacciones_patch is_url sql_names user id body env s = (s', r) ->
  cuentas s' = cuentas s /\
  categorias s' = categorias s /\
  (forall id', id' <> id -> transacciones s' !! id' = transacciones s !! id') /\
  (forall t, transacciones s !! id = Some t ->
     exists t', transacciones s' !! id = Some t' /\
       Transaccion.tipo t' = Transaccion.tipo t /\
       Transaccion.monto t' = Transaccion.monto t /\
       Transaccion.cuentaId t' = Transaccion.cuentaId t /\
       Transaccion.cuentaMaestraId t' = Transaccion.cuentaMaestraId t /\
       Transaccion.usuarioId t' = Transaccion.usuarioId t) /\
  (transacciones s !! id = None -> transacciones s' !! id = None).
Proof.
  intros Hm Hk Hc H.
  assert (Hsame : s' = s ->
    cuentas s' = cuentas s /\ categorias s' = categorias s /\
    (forall id', id' <> id -> transacciones s' !! id' = transacciones s !! id') /\
    (forall t, transacciones s !! id = Some t ->
       exists t', transacciones s' !! id = Some t' /\
         Transaccion.tipo t' = Transaccion.tipo t /\
         Transaccion.monto t' = Transaccion.monto t /\
         Transaccion.cuentaId t' = Transaccion.cuentaId t /\
         Transaccion.cuentaMaestraId t' = Transaccion.cuentaMaestraId t /\
         Transaccion.usuarioId t' = Transaccion.usuarioId t) /\
    (transacciones s !! id = None -> transacciones s' !! id = None)).
  { intros ->. repeat split; auto. intros t Ht. exists t. repeat split; auto. }
  unfold transacciones_patch in H.
  destruct (negb _); [apply Hsame; congruence|].
  destruct (find_transaccion _ _ _) as [old|]; [|apply Hsame; congruence].
  destruct (validar_categoria _ _ _ _); [apply Hsame; congruence|].
  destruct (validar_cuenta _ _ _); [apply Hsame; congruence|].
  destruct (db_transaction _ s) as [s1 [e|[]]] eqn:Hu.
  { apply db_transaction_rollback in Hu. apply Hsame. congruence. }
  injection H as <- _. apply db_transaction_commit in Hu.
  unfold patch_unit, toca_saldo in Hu. rewrite Hm, Hk, Hc in Hu.
  cbn [truthy_num truthy_tipo truthy_str orb] in Hu.
  unfold tx_bind, tx_ret in Hu.
  apply update_transaccion_inv in Hu as (Hcat & Hcu & [[Hn Ht]|(t & Ht & _ & Ht')]).
  - repeat split; auto; congruence.
  - repeat split; auto.
    + intros id' Hne. rewrite Ht'. apply lookup_insert_ne. auto.
    + intros t0 Ht0. assert (t0 = t) as -> by congruence.
      eexists. split; [rewrite Ht'; apply lookup_insert_eq|].
      apply set_transaccion_frame; assumption.
    + congruence.
Qed.



(** An update that only names another account for an expense: the amount
    goes back to the account the row pointed to and is taken from the one
    named. *)
Lemma patch_moves_expense is_url sql_names user id body env s old ca cb B :
  updateTransaccionSchema is_url body = true ->
  find_transaccion s id (cuenta_maestra_id user) = Some old ->
  validar_categoria s user old body = None ->
  UpdateBody.monto body = None ->
  UpdateBody.tipo body = None ->
  UpdateBody.cuenta_id body = Some B ->
  Transaccion.tipo old = gasto ->
  0 < Transaccion.monto old ->
  Transaccion.cuentaId old <> B ->
  cuentas s !! Transaccion.cuentaId old = Some ca ->
  find_cuenta s B (cuenta_maestra_id user) = Some cb ->
  0 <= Cuenta.saldo ca ->
  Transaccion.monto old <= Cuenta.saldo cb ->
  exists s',
    transacciones_patch is_url sql_names user id body env s =
    (s', ok "Transacción actualizada correctamente") /\
    balance s' (Transaccion.cuentaId old) = Some (Cuenta.saldo ca + Transaccion.monto old) /\
    balance s' B = Some (Cuenta.saldo cb - Transaccion.monto old).
Proof.
  intros Hschema Hold Hcat Hm Hk HB Hg Hpos Hne Hca Hcb Hca0 Hle.
  pose proof (schema_cuenta_id _ _ _ Hschema HB) as HminB.
  pose proof Hcb as Hcb'. apply find_cuenta_Some in Hcb' as (HcbS & _).
  pose proof Hold as Hold'. apply find_transaccion_Some in Hold' as (Hrow & _).
  unfold transacciones_patch. rewrite Hschema, Hold, Hcat. cbn [negb].
  unfold validar_cuenta. rewrite HB, HminB, Hcb.
  unfold db_transaction, patch_unit, toca_saldo. rewrite Hm, Hk, HB.
  cbn [truthy_num truthy_tipo truthy_str orb]. rewrite HminB.
  set (now := toISOString env).
  (* the reversal on the account the row points to *)
  set (s1 := mkStore (categorias s)
               (<[Transaccion.cuentaId old :=
                    with_saldo ca (Cuenta.saldo ca + Transaccion.monto old) now]> (cuentas s))
               (transacciones s)).
  assert (Hrev : revertir_anterior old now s = inr (tt, s1)).
  { unfold revertir_anterior, tx_bind, select_cuenta, tx_read. rewrite Hca, Hg.
    cbn [revertir]. apply update_saldo_some; [exact Hca | lia]. }
  (* the application on the account the request names *)
  set (s2 := mkStore (categorias s1)
               (<[B := with_saldo cb (Cuenta.saldo cb - Transaccion.monto old) now]> (cuentas s1))
               (transacciones s1)).
  assert (Hap : aplicar_nueva old body now s1 = inr (tt, s2)).
  { unfold aplicar_nueva, nuevaCuentaId, nuevoMonto, nuevoTipo, tx_bind, select_cuenta, tx_read.
    rewrite HB, Hm, Hk. cbn [or_str or_num or_tipo]. rewrite HminB, Hg.
    assert (Hs1B : cuentas s1 !! B = Some cb).
    { unfold s1. cbn [cuentas]. rewrite lookup_insert_ne; auto. }
    rewrite Hs1B. cbn [aplicar bool_decide decide_rel].
    destruct (Cuenta.saldo cb - Transaccion.monto old <? 0) eqn:E;
      [apply Z.ltb_lt in E; lia|].
    rewrite andb_false_r. apply update_saldo_some; [exact Hs1B | lia]. }
  (* the row *)
  set (t' := set_transaccion sql_names (spread body now) old).
  assert (Hmonto : Transaccion.monto t' = Transaccion.monto old).
  { unfold t', set_transaccion. cbn [Transaccion.monto]. rewrite spread_monto, Hm. reflexivity. }
  assert (Hup : update_transaccion sql_names id (spread body now) s2
                = inr (tt, mkStore (categorias s2) (cuentas s2) (<[id := t']> (transacciones s2)))).
  { apply update_transaccion_some; [exact Hrow | fold t'; lia]. }
  unfold tx_bind at 1 2. rewrite Hrev. unfold tx_bind. rewrite Hap, Hup.
  eexists. split; [reflexivity|].
  unfold balance, s2, s1. cbn [cuentas]. split.
  - rewrite lookup_insert_ne, lookup_insert_eq by auto. reflexivity.
  - rewrite lookup_insert_eq. reflexivity.
Qed.

(** C9. Moving an expense of 30.00 from the account it was taken from (now
    at 70.00) to another account B that holds 200.00 succeeds and brings the
    origin account back to 100.00 and account B down to 170.00. *)
Theorem C9_move_expense_scenario (is_url : string -> bool) (sql_names : bool)
    (user : User) (id : string) (body : UpdateBody.t) (env : Ambient)
    (s : Store) (old : Transaccion.t) (ca cb : Cuenta.t) (B : string) :
  updateTransaccionSchema is_url body = true ->
  find_transaccion s id (cuenta_maestra_id user) = Some old ->
  validar_categoria s user old body = None ->
  UpdateBody.monto body = None ->
  UpdateBody.tipo body = None ->
  UpdateBody.cuenta_id body = Some B ->
  Transaccion.tipo old = gasto ->
  Transaccion.monto old = 3000 ->
  Transaccion.cuentaId old <> B ->
  cuentas s !! Transaccion.cuentaId old = Some ca ->
  Cuenta.saldo ca = 7000 ->
  find_cuenta s B (cuenta_maestra_id user) = Some cb ->
  Cuenta.saldo cb = 20000 ->
  exists s',
    transacciones_patch is_url sql_names user id body env s =
    (s', ok "Transacción actualizada correctamente") /\
    balance s' (Transaccion.cuentaId old) = Some 10000 /\
    balance s' B = Some 17000.
Proof.
  intros Hschema Hold Hcat Hm Hk HB Hg Hmonto Hne Hca Hsa Hcb Hsb.
  destruct (patch_moves_expense is_url sql_names user id body env s old ca cb B)
    as (s' & Hp & Ha & Hb); try assumption; try lia.
  exists s'. rewrite Ha, Hb, Hmonto, Hsa, Hsb. auto.
Qed.

(** ** The ledger across operations *)

Lemma total_insert_fresh a k t (m : gmap string Transaccion.t) :
  m !! k = None -> total a (<[k := t]> m) = total a m + contribution a t.
Proof.
  intros Hk. unfold total. rewrite map_fold_insert_L; [reflexivity| |exact Hk].
  intros. lia.
Qed.

Lemma total_delete a k t (m : gmap string Transaccion.t) :
  m !! k = Some t -> total a (delete k m) = total a m - contribution a t.
Proof.
  intros Hk. unfold total.
  rewrite (map_fold_delete_L _ 0 k t m); [lia| |exact Hk].
  intros. lia.
Qed.

Lemma total_update a k t t' (m : gmap string Transaccion.t) :
  m !! k = Some t ->
  total a (<[k := t']> m) = total a m - contribution a t + contribution a t'.
Proof.
  intros Hk. rewrite <- insert_delete_eq.
  rewrite total_insert_fresh by apply lookup_delete_eq.
  rewrite (total_delete a k t m Hk). reflexivity.
Qed.

Lemma is_success_dec r : is_success r \/ ~ is_success r.
Proof.
  destruct r as [[m|c m] st].
  - destruct (decide (st = 200)) as [->|Hst].
    + left. exists m. reflexivity.
    + right. intros [m' [= _ Hst']]. contradiction.
  - right. intros [m' Hm]. discriminate Hm.
Qed.

Lemma opening_same s s' a :
  cuentas s' = cuentas s -> transacciones s' = transacciones s -> opening s' a = opening s a.
Proof. unfold opening, balance, contributions. intros -> ->. reflexivity. Qed.

(** When every balance moves by what the sum of contributions moves by, the
    opening amounts stay. *)
Lemma opening_shift s s' a d :
  balance s' a = (fun b => b + d) <$> balance s a ->
  contributions s' a = contributions s a + d ->
  opening s' a = opening s a.
Proof.
  unfold opening. intros -> ->. destruct (balance s a); simpl; [f_equal; lia | reflexivity].
Qed.

Lemma saldo_lookup_insert (cs : gmap string Cuenta.t) k c a :
  Cuenta.saldo <$> <[k := c]> cs !! a
  = if bool_decide (k = a) then Some (Cuenta.saldo c) else Cuenta.saldo <$> cs !! a.
Proof.
  destruct (bool_decide (k = a)) eqn:E.
  - apply bool_decide_eq_true in E as ->. rewrite lookup_insert_eq. reflexivity.
  - apply bool_decide_eq_false in E. rewrite lookup_insert_ne; auto.
Qed.

(** A write of [saldo + d] on the account [k], when it exists, moves the
    balance of each account [a] by [d] if [a] is [k] and by nothing
    otherwise. *)
Lemma update_saldo_balance k c d now s s' a :
  cuentas s !! k = Some c ->
  update_saldo k (Cuenta.saldo c + d) now s = inr (tt, s') ->
  balance s' a = (fun b => b + (if bool_decide (k = a) then d else 0)) <$> balance s a.
Proof.
  intros Hc Hu. apply update_saldo_inv in Hu as (_ & _ & [[Hn _]|(c' & Hc' & _ & He)]).
  { congruence. }
  assert (c' = c) as -> by congruence.
  unfold balance. rewrite He, saldo_lookup_insert.
  destruct (bool_decide (k = a)) eqn:E.
  - apply bool_decide_eq_true in E as <-. rewrite Hc. reflexivity.
  - destruct (cuentas s !! a); simpl; [f_equal; lia | reflexivity].
Qed.

Lemma balance_shift_zero s a : balance s a = (fun b => b + 0) <$> balance s a.
Proof. destruct (balance s a); simpl; [f_equal; lia | reflexivity]. Qed.

(** POST keeps the opening amount of every account. *)
Lemma post_opening is_url user body env s s' r a :
  transacciones_post is_url user body env s = (s', r) -> opening s' a = opening s a.
Proof.
  intros H. destruct (is_success_dec r) as [Hr|Hr].
  2:{ rewrite (post_fails_closed _ _ _ _ _ _ _ H Hr). reflexivity. }
  destruct (post_success _ _ _ _ _ _ _ H Hr) as (k & c & _ & _ & Hc & _ & Hfresh & ->).
  apply find_cuenta_Some in Hc as (Hc & _).
  set (row := nueva_transaccion user body env).
  apply (opening_shift _ _ _ (contribution a row)).
  - unfold balance. cbn [cuentas]. rewrite saldo_lookup_insert.
    unfold contribution. change (Transaccion.cuentaId row) with (CreateBody.cuenta_id body).
    destruct (bool_decide (CreateBody.cuenta_id body = a)) eqn:E.
    + apply bool_decide_eq_true in E as <-. rewrite Hc. simpl.
      rewrite <- (aplicar_signed row). reflexivity.
    + destruct (cuentas s !! a); simpl; [f_equal; lia | reflexivity].
  - unfold contributions. cbn [transacciones]. apply total_insert_fresh. exact Hfresh.
Qed.

(** DELETE keeps the opening amount of every account. *)
Lemma delete_opening user id env s s' r a :
  transacciones_delete user id env s = (s', r) -> opening s' a = opening s a.
Proof.
  intros H. destruct (find_transaccion s id (cuenta_maestra_id user)) as [t|] eqn:Ht.
  2:{ unfold transacciones_delete in H. rewrite Ht in H. injection H as <- _. reflexivity. }
  pose proof Ht as Ht'. apply find_transaccion_Some in Ht' as (Hrow & _).
  destruct (cuentas s !! Transaccion.cuentaId t) as [c|] eqn:Hc.
  - destruct (Z_lt_le_dec (revertir (Transaccion.tipo t) (Cuenta.saldo c) (Transaccion.monto t)) 0)
      as [Hn|Hn].
    + rewrite (delete_refused user id env s t c Ht Hc Hn) in H. injection H as <- _. reflexivity.
    + rewrite (delete_commits user id env s t c Ht Hc Hn) in H. injection H as <- _.
      apply (opening_shift _ _ _ (- contribution a t)).
      * unfold balance. cbn [cuentas]. rewrite saldo_lookup_insert.
        unfold contribution.
        destruct (bool_decide (Transaccion.cuentaId t = a)) eqn:E.
        -- apply bool_decide_eq_true in E as <-. rewrite Hc. simpl.
           rewrite revertir_signed. f_equal; lia.
        -- destruct (cuentas s !! a); simpl; [f_equal; lia | reflexivity].
      * unfold contributions. cbn [transacciones].
        rewrite (total_delete a id t _ Hrow). lia.
  - rewrite (delete_orphan user id env s t Ht Hc) in H. injection H as <- _.
    unfold opening, balance, contributions. cbn [cuentas transacciones].
    destruct (cuentas s !! a) as [c|] eqn:Ha; simpl; [|reflexivity].
    rewrite (total_delete a id t _ Hrow). unfold contribution.
    rewrite bool_decide_eq_false_2; [f_equal; lia | congruence].
Qed.

Lemma patch_success is_url sql_names user id body env s s' r :
  transacciones_patch is_url sql_names user id body env s = (s', r) ->
  is_success r ->
  updateTransaccionSchema is_url body = true /\
  exists old,
    find_transaccion s id (cuenta_maestra_id user) = Some old /\
    patch_unit sql_names id old body (toISOString env) s = inr (tt, s').
Proof.
  unfold transacciones_patch. intros H Hr.
  destruct (updateTransaccionSchema is_url body); cbn [negb] in H.
  2:{ exfalso. injection H as _ <-. destruct Hr as [m Hm]. discriminate Hm. }
  split; [reflexivity|].
  destruct (find_transaccion _ _ _) as [old|].
  2:{ exfalso. injection H as _ <-. destruct Hr as [m Hm]. discriminate Hm. }
  exists old. split; [reflexivity|].
  destruct (validar_categoria _ _ _ _) as [r0|] eqn:Hv.
  { exfalso. injection H as _ <-. destruct Hr as [m ->].
    unfold validar_categoria in Hv.
    repeat match type of Hv with
           | match ?x with _ => _ end = _ => destruct x
           | (if ?x then _ else _) = _ => destruct x
           end; discriminate Hv. }
  destruct (validar_cuenta _ _ _) as [r0|] eqn:Hv'.
  { exfalso. injection H as _ <-. destruct Hr as [m ->].
    unfold validar_cuenta in Hv'.
    repeat match type of Hv' with
           | match ?x with _ => _ end = _ => destruct x
           | (if ?x then _ else _) = _ => destruct x
           end; discriminate Hv'. }
  destruct (db_transaction _ s) as [s1 [e|[]]] eqn:Hu.
  - exfalso. injection H as _ <-. destruct Hr as [m Hm].
    destruct e as [msg|k]; simpl in Hm; [destruct (bool_decide _)|]; discriminate Hm.
  - injection H as <- _. apply db_transaction_commit in Hu. exact Hu.
Qed.

Lemma revertir_anterior_effect old now s s1 :
  revertir_anterior old now s = inr (tt, s1) ->
  transacciones s1 = transacciones s /\
  forall a, balance s1 a =
            (fun b => b + (if bool_decide (Transaccion.cuentaId old = a)
                           then - signed old else 0)) <$> balance s a.
Proof.
  unfold revertir_anterior, tx_bind, select_cuenta, tx_read, tx_ret.
  destruct (cuentas s !! Transaccion.cuentaId old) as [c|] eqn:Hc.
  - rewrite revertir_signed. intros Hu. split.
    + apply update_saldo_inv in Hu as (_ & Ht & _). exact Ht.
    + intros a. apply (update_saldo_balance _ c (- signed old) now s s1 a Hc Hu).
  - intros [= <-]. split; [reflexivity|]. intros a. unfold balance.
    destruct (bool_decide (Transaccion.cuentaId old = a)) eqn:E.
    + apply bool_decide_eq_true in E as <-. rewrite Hc. reflexivity.
    + apply balance_shift_zero.
Qed.

Lemma aplicar_nueva_effect old v now s1 s2 :
  aplicar_nueva old v now s1 = inr (tt, s2) ->
  transacciones s2 = transacciones s1 /\
  forall a, balance s2 a =
            (fun b => b + (if bool_decide (nuevaCuentaId old v = a)
                           then nuevo_signed old v else 0)) <$> balance s1 a.
Proof.
  unfold aplicar_nueva, tx_bind, select_cuenta, tx_read, tx_ret.
  destruct (cuentas s1 !! nuevaCuentaId old v) as [c|] eqn:Hc.
  - cbv zeta. destruct (_ && _); [discriminate|].
    assert (Hd : aplicar (nuevoTipo old v) (Cuenta.saldo c) (nuevoMonto old v)
                 = Cuenta.saldo c + nuevo_signed old v).
    { unfold nuevo_signed. destruct (nuevoTipo old v); simpl; lia. }
    rewrite Hd. intros Hu. split.
    + apply update_saldo_inv in Hu as (_ & Ht & _). exact Ht.
    + intros a. apply (update_saldo_balance _ c (nuevo_signed old v) now s1 s2 a Hc Hu).
  - intros [= <-]. split; [reflexivity|]. intros a. unfold balance.
    destruct (bool_decide (nuevaCuentaId old v = a)) eqn:E.
    + apply bool_decide_eq_true in E as <-. rewrite Hc. reflexivity.
    + apply balance_shift_zero.
Qed.

(** The row written by a request that passed the schema carries the kind
    and the amount the balances were adjusted with, and the account too when
    the request's account reaches the row or names none. *)
Lemma set_transaccion_new is_url sql_names v now old :
  updateTransaccionSchema is_url v = true ->
  sql_names = true \/ UpdateBody.cuenta_id v = None ->
  Transaccion.cuentaId (set_transaccion sql_names (spread v now) old) = nuevaCuentaId old v /\
  signed (set_transaccion sql_names (spread v now) old) = nuevo_signed old v.
Proof.
  intros Hschema Hsql. unfold signed, nuevo_signed, nuevaCuentaId, nuevoMonto, nuevoTipo.
  unfold set_transaccion. cbn [Transaccion.cuentaId Transaccion.tipo Transaccion.monto].
  rewrite spread_tipo, spread_monto, spread_cuentaId.
  assert (Hmonto : default (Transaccion.monto old) (UpdateBody.monto v)
                   = or_num (UpdateBody.monto v) (Transaccion.monto old)).
  { destruct (UpdateBody.monto v) as [n|] eqn:Hn; [|reflexivity].
    pose proof (schema_monto _ _ _ Hschema Hn) as Hpos. simpl.
    destruct (n =? 0) eqn:E; [apply Z.eqb_eq in E; lia | reflexivity]. }
  rewrite Hmonto. split; [|reflexivity].
  destruct (UpdateBody.cuenta_id v) as [x|] eqn:Hx.
  - destruct Hsql as [->|Hn]; [|discriminate Hn].
    rewrite <- Hx at 2. cbn [default or_str]. rewrite Hx.
    cbn [or_str]. rewrite (schema_cuenta_id _ _ _ Hschema Hx). reflexivity.
  - destruct sql_names; reflexivity.
Qed.

(** A request that passed the schema and is falsy on amount, kind and
    account supplies none of them. *)
Lemma toca_saldo_false is_url v :
  updateTransaccionSchema is_url v = true ->
  toca_saldo v = false ->
  UpdateBody.monto v = None /\ UpdateBody.tipo v = None /\ UpdateBody.cuenta_id v = None.
Proof.
  intros Hschema. unfold toca_saldo. intros H.
  apply orb_false_iff in H as [H Hc]. apply orb_false_iff in H as [Hm Hk].
  repeat split.
  - destruct (UpdateBody.monto v) as [n|] eqn:Hn; [|reflexivity].
    pose proof (schema_monto _ _ _ Hschema Hn). simpl in Hm.
    apply negb_false_iff, Z.eqb_eq in Hm. lia.
  - destruct (UpdateBody.tipo v); [discriminate Hk | reflexivity].
  - destruct (UpdateBody.cuenta_id v) as [x|] eqn:Hx; [|reflexivity].
    pose proof (schema_cuenta_id _ _ _ Hschema Hx) as Hmin. simpl in Hc. congruence.
Qed.

(** PATCH keeps the opening amount of every account, as long as the account
    the balances were adjusted for is the account the row ends on. *)
Lemma patch_opening is_url sql_names user id body env s s' r a :
  sql_names = true \/ UpdateBody.cuenta_id body = None ->
  transacciones_patch is_url sql_names user id body env s = (s', r) ->
  opening s' a = opening s a.
Proof.
  intros Hsql H. destruct (is_success_dec r) as [Hr|Hr].
  2:{ rewrite (patch_fails_closed _ _ _ _ _ _ _ _ _ H Hr). reflexivity. }
  destruct (patch_success _ _ _ _ _ _ _ _ _ H Hr) as (Hschema & old & Hold & Hu).
  apply find_transaccion_Some in Hold as (Hrow & _).
  set (now := toISOString env) in *.
  set (t' := set_transaccion sql_names (spread body now) old).
  unfold patch_unit in Hu.
  destruct (toca_saldo body) eqn:Htoca.
  - unfold tx_bind at 1 2 in Hu.
    destruct (revertir_anterior old now s) as [e|[[] s1]] eqn:Hrev; [discriminate|].
    unfold tx_bind in Hu.
    destruct (aplicar_nueva old body now s1) as [e|[[] s2]] eqn:Hap; [discriminate|].
    apply revertir_anterior_effect in Hrev as (Ht1 & Hb1).
    apply aplicar_nueva_effect in Hap as (Ht2 & Hb2).
    apply update_transaccion_inv in Hu as (_ & Hc3 & [[Hn _]|(t & Ht & _ & Ht3)]).
    { congruence. }
    assert (t = old) as -> by congruence. fold t' in Ht3.
    destruct (set_transaccion_new is_url sql_names body now old Hschema Hsql) as (Hacc & Hsig).
    fold t' in Hacc, Hsig.
    unfold opening, contributions. rewrite Ht3, Ht2, Ht1, (total_update a id old t' _ Hrow).
    unfold balance at 1. rewrite Hc3. fold (balance s2 a). rewrite Hb2, Hb1.
    unfold contribution. rewrite Hacc, Hsig.
    destruct (bool_decide (Transaccion.cuentaId old = a)),
             (bool_decide (nuevaCuentaId old body = a)), (balance s a);
      simpl; try reflexivity; f_equal; lia.
  - unfold tx_bind, tx_ret in Hu.
    destruct (toca_saldo_false _ _ Hschema Htoca) as (Hm & Hk & Hc).
    apply update_transaccion_inv in Hu as (_ & Hc3 & [[Hn _]|(t & Ht & _ & Ht3)]).
    { congruence. }
    assert (t = old) as -> by congruence. fold t' in Ht3.
    destruct (set_transaccion_frame sql_names body now old Hm Hk Hc) as (Hk' & Hm' & Hc' & _).
    fold t' in Hk', Hm', Hc'.
    unfold opening, contributions, balance. rewrite Ht3, Hc3, (total_update a id old t' _ Hrow).
    unfold contribution, signed. rewrite Hk', Hm', Hc'.
    destruct (cuentas s !! a); simpl; [f_equal; lia | reflexivity].
Qed.

Lemma handle_opening is_url sql_names op s a :
  sql_names = true \/ keeps_account op ->
  opening (fst (handle is_url sql_names op s)) a = opening s a.
Proof.
  intros Hk. destruct op as [user body env|user id body env|user id env]; simpl.
  - destruct (transacciones_post is_url user body env s) as [s' r] eqn:H.
    apply (post_opening _ _ _ _ _ _ _ _ H).
  - destruct (transacciones_patch is_url sql_names user id body env s) as [s' r] eqn:H.
    apply (patch_opening _ _ _ _ _ _ _ _ _ _ Hk H).
  - destruct (transacciones_delete user id env s) as [s' r] eqn:H.
    apply (delete_opening _ _ _ _ _ _ _ H).
Qed.

Lemma run_opening is_url sql_names ops s a :
  sql_names = true \/ Forall keeps_account ops ->
  opening (run is_url sql_names ops s) a = opening s a.
Proof.
  revert s. induction ops as [|op ops IH]; intros s Hk; [reflexivity|].
  change (run is_url sql_names (op :: ops) s)
    with (run is_url sql_names ops (fst (handle is_url sql_names op s))).
  rewrite IH.
  - apply handle_opening. destruct Hk as [Hk|Hk]; [left; exact Hk|].
    right. inversion Hk; assumption.
  - destruct Hk as [Hk|Hk]; [left; exact Hk|]. right. inversion Hk; assumption.
Qed.

(** POST /cuentas opens the account with the balance of the request, zero
    by default; when no stored transaction points to the new identifier, that
    balance is its opening amount. *)
Lemma cuentas_post_opening user body env s s' r :
  cuentas_post user body env s = (s', r) ->
  is_success r ->
  contributions s (nanoid env) = 0 ->
  opening s' (nanoid env) = Some (default 0 (CuentaBody.saldo body)).
Proof.
  unfold cuentas_post. intros H [msg ->] Hz.
  destruct (negb _); [discriminate|].
  destruct (existe_nombre _ _ _); [discriminate|].
  destruct (cuentas s !! nanoid env); [discriminate|].
  destruct (_ <? 0); [discriminate|].
  injection H as <- _. unfold opening, balance, contributions in *. cbn [cuentas transacciones].
  rewrite lookup_insert_eq, Hz. simpl. f_equal. lia.
Qed.

(** C1, as amended.  Across a sequence of transaction creates, updates and
    deletes in which no update names an account, the stored balance of an
    account equals its opening amount (what its balance held beyond the
    contributions of its transactions before the sequence: the balance it
    was created with, for a fresh account) plus the sum of the signed
    contributions of the transactions persisted for it.  The equality is
    that of exact sums, between safe integers: it is asked of sequences
    along which every stored balance and amount stays in the range where
    the handlers add and subtract without rounding.  An update that names
    an account is left out because it moves the balances and leaves the row
    on the account it was on ([move_leaves_row_behind]). *)
Theorem C1_balance_is_opening_plus_contributions (is_url : string -> bool)
    (sql_names : bool) (ops : list Op) (s : Store) (a : string) (b0 : Z) :
  Forall keeps_account ops ->
  (forall k : nat, en_rango (run is_url sql_names (take k ops) s)) ->
  opening s a = Some b0 ->
  balance (run is_url sql_names ops s) a
  = Some (b0 + contributions (run is_url sql_names ops s) a) /\
  safe_integer (b0 + contributions (run is_url sql_names ops s) a).
Proof.
  intros Hk Hr Hs.
  pose proof (run_opening is_url sql_names ops s a (or_intror Hk)) as Ho.
  rewrite Hs in Ho. unfold opening in Ho.
  destruct (balance (run is_url sql_names ops s) a) as [b|] eqn:Hb; [|discriminate Ho].
  simpl in Ho. injection Ho as Ho.
  assert (Hb0 : b0 + contributions (run is_url sql_names ops s) a = b) by lia.
  rewrite Hb0. split; [reflexivity|].
  specialize (Hr (length ops)). rewrite firstn_all in Hr.
  unfold balance in Hb.
  destruct (cuentas (run is_url sql_names ops s) !! a) as [c|] eqn:Hc; [|discriminate Hb].
  injection Hb as <-. destruct (proj1 Hr a c Hc) as [Hw Hlt].
  split; [exact Hw|]. eapply Z.lt_trans; [exact Hlt | reflexivity].
Qed.

(** C7, evaluated where the code departs from it.  The stored expense "t1"
    of category "food" (an expense category) is updated with only
    [tipo: 'ingreso']: the handler answers with success, and the row is now
    an income whose category is still the expense category "food". *)
Theorem C7_kind_mismatch_persisted (sql_names : bool) :
  let body := UpdateBody.mk (Some ingreso) None None None None None None in
  let out := transacciones_patch Ex.is_url sql_names Ex.u "t1" body (Ex.env "p1") Ex.s_30 in
  Transaccion.tipo <$> transacciones Ex.s_30 !! "t1" = Some gasto /\
  snd out = ok "Transacción actualizada correctamente" /\
  Transaccion.tipo <$> transacciones (fst out) !! "t1" = Some ingreso /\
  Transaccion.categoriaId <$> transacciones (fst out) !! "t1" = Some "food" /\
  Categoria.tipo <$> categorias (fst out) !! "food" = Some gasto.
Proof. destruct sql_names; vm_compute; repeat split; reflexivity. Qed.

(** ** The claims at concrete inputs *)

(** C1 as stated fails: account A is opened with 100.00 and receives one
    income of 50.00; its stored balance is 150.00 while the signed
    contributions of its transactions sum to 50.00. *)
Lemma C1_counterexample :
  let s := run Ex.is_url false [Create Ex.u (Ex.income 5000 "A") (Ex.env "t2")] Ex.s_A in
  balance s "A" = Some 15000 /\
  contributions s "A" = 5000 /\
  balance s "A" <> Some (contributions s "A").
Proof. vm_compute. split; [reflexivity|]. split; [reflexivity | discriminate]. Qed.

(** C5 as stated fails: account C, opened empty, received 50.00 ("t3") and
    spent 30.00; deleting "t3" would leave -30.00, the store refuses the
    write, and the row and the balance stay. *)
Lemma C5_counterexample :
  Transaccion.monto <$> find_transaccion Ex.s_C "t3" "m1" = Some 5000 /\
  balance Ex.s_C "C" = Some 2000 /\
  transacciones_delete Ex.u "t3" (Ex.env "d1") Ex.s_C =
  (Ex.s_C, json (makeError "ERR_INTERNAL" "Error al eliminar transacción") 500).
Proof. vm_compute. repeat split; reflexivity. Qed.


(** Why C1 leaves out the updates that name an account: after [Ex.ops_AB],
    which moves the expense "t1" of 30.00 from A to B, the balances have
    moved (A holds 100.00 again, B 170.00) and the row still points to A,
    so that the contributions persisted for A sum to -30.00 and those for B
    to nothing. *)
Lemma move_leaves_row_behind :
  let s := run Ex.is_url false Ex.ops_AB Ex.s_AB in
  opening Ex.s_AB "A" = Some 10000 /\
  balance s "A" = Some 10000 /\
  contributions s "A" = -3000 /\
  Transaccion.cuentaId <$> transacciones s !! "t1" = Some "A" /\
  balance s "B" = Some 17000 /\
  contributions s "B" = 0.
Proof. vm_compute. repeat split; reflexivity. Qed.

Lemma map_forallb_check {A} (p : A -> bool) (m : gmap string A) :
  forallb (fun ix => p ix.2) (map_to_list m) = true ->
  forall i x, m !! i = Some x -> p x = true.
Proof.
  intros Hb i x Hx. apply elem_of_map_to_list, list_elem_of_In in Hx.
  apply (proj1 (forallb_forall _ _) Hb (i, x) Hx).
Defined.

Lemma en_rango_check (s : Store) :
  forallb (fun ix => (Cuenta.saldo ix.2 mod 100 =? 0) && (Z.abs (Cuenta.saldo ix.2) <? 2 ^ 52))
          (map_to_list (cuentas s)) = true ->
  forallb (fun ix => (Transaccion.monto ix.2 mod 100 =? 0)
                     && (Z.abs (Transaccion.monto ix.2) <? 2 ^ 52))
          (map_to_list (transacciones s)) = true ->
  en_rango s.
Proof.
  intros Hc Ht. split.
  - intros id c H.
    pose proof (map_forallb_check
                  (fun c => (Cuenta.saldo c mod 100 =? 0) && (Z.abs (Cuenta.saldo c) <? 2 ^ 52))
                  _ Hc id c H) as Hb.
    apply andb_true_iff in Hb as [H1 H2].
    apply Z.eqb_eq in H1. apply Z.ltb_lt in H2. split; assumption.
  - intros id t H.
    pose proof (map_forallb_check
                  (fun t => (Transaccion.monto t mod 100 =? 0)
                            && (Z.abs (Transaccion.monto t) <? 2 ^ 52))
                  _ Ht id t H) as Hb.
    apply andb_true_iff in Hb as [H1 H2].
    apply Z.eqb_eq in H1. apply Z.ltb_lt in H2. split; assumption.
Defined.

Lemma C1_witness :
  Forall keeps_account Ex.ops_A /\
  (forall k : nat, en_rango (run Ex.is_url false (take k Ex.ops_A) Ex.s_AB)) /\
  opening Ex.s_AB "A" = Some 10000 /\
  contributions (run Ex.is_url false Ex.ops_A Ex.s_AB) "A" = -4000 /\
  balance (run Ex.is_url false Ex.ops_A Ex.s_AB) "A"
  = Some (10000 + contributions (run Ex.is_url false Ex.ops_A Ex.s_AB) "A").
Proof.
  assert (Hr : forall k : nat, en_rango (run Ex.is_url false (take k Ex.ops_A) Ex.s_AB)).
  { intros k. do 4 (try destruct k as [|k]);
      apply en_rango_check; vm_compute; reflexivity. }
  split; [repeat constructor|]. split; [exact Hr|].
  split; [reflexivity|]. split; [reflexivity|].
  refine (proj1 (C1_balance_is_opening_plus_contributions Ex.is_url false Ex.ops_A
                   Ex.s_AB "A" 10000 _ Hr _)).
  - repeat constructor.
  - reflexivity.
Defined.


Lemma C3_witness :
  balance Ex.s_30 "A" = Some 7000 /\
  exists r,
    transacciones_post Ex.is_url Ex.u (Ex.expense 8000 "A") (Ex.env "t2") Ex.s_30 = (Ex.s_30, r) /\
    ~ is_success r /\
    exists msg, r = json (makeError "ERR_VALIDATION" msg) 400.
Proof.
  split; [reflexivity|].
  edestruct (C3_expense_over_balance Ex.is_url Ex.u (Ex.expense 8000 "A") (Ex.env "t2") Ex.s_30)
    as [H _].
  - reflexivity.
  - vm_compute. reflexivity.
  - destruct H as (r & Hp & Hr & Hcode).
    + vm_compute. reflexivity.
    + exists r. split; [exact Hp|]. split; [exact Hr|].
      apply Hcode. exists Ex.food. reflexivity.
Defined.

Lemma C4_witness :
  balance Ex.s_30 "A" = Some 7000 /\
  transacciones_post Ex.is_url Ex.u (Ex.income 5000 "A") (Ex.env "t2") Ex.s_30
  = (Ex.s_50, ok "Transacción creada correctamente") /\
  balance Ex.s_50 "A" = Some 12000.
Proof.
  split; [reflexivity|]. split; [reflexivity|].
  destruct (C4_create_applies_delta Ex.is_url Ex.u (Ex.income 5000 "A") (Ex.env "t2")
              Ex.s_30 Ex.s_50 (ok "Transacción creada correctamente") eq_refl) as [H _].
  destruct H as (c & Hc & Hb & _).
  - eexists. reflexivity.
  - vm_compute in Hc. injection Hc as <-. exact Hb.
Defined.

Lemma C5_witness :
  balance Ex.s_30 "A" = Some 7000 /\
  balance Ex.s_50 "A" = Some 12000 /\
  exists s2,
    transacciones_delete Ex.u "t2" (Ex.env "d1") Ex.s_50
    = (s2, ok "Transacción eliminada correctamente") /\
    balance s2 "A" = Some 7000 /\
    transacciones s2 = transacciones Ex.s_30.
Proof.
  split; [reflexivity|]. split; [reflexivity|].
  destruct C5_delete_reverts as [_ H].
  destruct (H Ex.is_url Ex.u (Ex.income 5000 "A") (Ex.env "t2") (Ex.env "d1")
              Ex.s_30 Ex.s_50 (ok "Transacción creada correctamente") 7000)
    as (s2 & Hd & _ & Ht & Hb).
  - reflexivity.
  - lia.
  - reflexivity.
  - eexists. reflexivity.
  - exists s2. split; [exact Hd|]. split; [|exact Ht].
    apply Hb; split; vm_compute; reflexivity.
Defined.

Lemma C6_witness :
  find_cuenta Ex.s_30 "Z" "m1" = None /\
  transacciones_post Ex.is_url Ex.u (Ex.expense 3000 "Z") (Ex.env "t9") Ex.s_30
  = (Ex.s_30, json (makeError "ERR_NOT_FOUND" "Cuenta no encontrada o inactiva") 404).
Proof.
  split; [reflexivity|].
  destruct (C6_create_precondition_failures Ex.is_url Ex.u (Ex.expense 3000 "Z")
              (Ex.env "t9") Ex.s_30 eq_refl) as (_ & _ & H & _).
  apply (H Ex.food); reflexivity.
Defined.

Lemma C8_witness :
  cuentas (fst (transacciones_patch Ex.is_url false Ex.u "t1" Ex.note_only (Ex.env "p1") Ex.s_AB))
  = cuentas Ex.s_AB.
Proof.
  exact (proj1 (C8_update_without_ledger_fields Ex.is_url false Ex.u "t1" Ex.note_only
                  (Ex.env "p1") Ex.s_AB _ _ eq_refl eq_refl eq_refl
                  (surjective_pairing _))).
Defined.

Lemma C9_witness :
  balance Ex.s_AB "A" = Some 7000 /\
  balance Ex.s_AB "B" = Some 20000 /\
  exists s',
    transacciones_patch Ex.is_url false Ex.u "t1" Ex.move_to_B (Ex.env "p1") Ex.s_AB
    = (s', ok "Transacción actualizada correctamente") /\
    balance s' "A" = Some 10000 /\
    balance s' "B" = Some 17000.
Proof.
  split; [reflexivity|]. split; [reflexivity|].
  eapply (C9_move_expense_scenario Ex.is_url false Ex.u "t1" Ex.move_to_B (Ex.env "p1")
            Ex.s_AB Ex.t1 _ _ "B").
  - reflexivity.
  - reflexivity.
  - reflexivity.
  - reflexivity.
  - reflexivity.
  - reflexivity.
  - reflexivity.
  - reflexivity.
  - discriminate.
  - vm_compute. reflexivity.
  - reflexivity.
  - vm_compute. reflexivity.
  - reflexivity.
Defined.

Lemma C10_witness :
  transacciones_delete Ex.u "t1" (Ex.env "d1") Ex.s_orphan
  = (mkStore (categorias Ex.s_orphan) (cuentas Ex.s_orphan)
             (delete "t1" (transacciones Ex.s_orphan)),
     ok "Transacción eliminada correctamente").
Proof.
  apply (C10_delete_without_account Ex.u "t1" (Ex.env "d1") Ex.s_orphan Ex.t1); reflexivity.
Defined.

(** * Further properties of the handlers *)

(** ** Relations kept by the atomic unit *)

Lemma tx_rel_ret {A} (R : Store -> Store -> Prop) (a : A) :
  (forall s, R s s) -> tx_rel R (tx_ret a).
Proof. intros Hrefl s a' s' [= _ <-]. apply Hrefl. Qed.

Lemma tx_rel_read {A} (R : Store -> Store -> Prop) (f : Store -> A) :
  (forall s, R s s) -> tx_rel R (tx_read f).
Proof. intros Hrefl s a' s' [= _ <-]. apply Hrefl. Qed.

Lemma tx_rel_throw {A} (R : Store -> Store -> Prop) (e : Exn) : tx_rel R (@tx_throw A e).
Proof. intros s a s' H. discriminate H. Qed.

Lemma tx_rel_bind {A B} (R : Store -> Store -> Prop) (m : Tx A) (k : A -> Tx B) :
  (forall s1 s2 s3, R s1 s2 -> R s2 s3 -> R s1 s3) ->
  tx_rel R m -> (forall a, tx_rel R (k a)) -> tx_rel R (tx_bind m k).
Proof.
  intros Htrans Hm Hk s b s'. unfold tx_bind.
  destruct (m s) as [e|[a s1]] eqn:E; [discriminate|].
  intros H. apply (Htrans s s1 s'); [apply (Hm s a s1 E) | apply (Hk a s1 b s' H)].
Qed.

(** The relation [R] holds across each of the three atomic units as soon as
    it is a preorder that every write of the store respects. *)
Section Units.

Variable sql_names : bool.
Variable R : Store -> Store -> Prop.
Hypothesis R_refl : forall s, R s s.
Hypothesis R_trans : forall s1 s2 s3, R s1 s2 -> R s2 s3 -> R s1 s3.
Hypothesis R_saldo : forall id n now, tx_rel R (update_saldo id n now).
Hypothesis R_insert : forall id row, tx_rel R (insert_transaccion id row).
Hypothesis R_update : forall id set, tx_rel R (update_transaccion sql_names id set).
Hypothesis R_delete : forall id, tx_rel R (delete_transaccion id).

Lemma post_unit_rel user v cuenta env : tx_rel R (post_unit user v cuenta env).
Proof. unfold post_unit. apply tx_rel_bind; auto. Qed.

Lemma revertir_anterior_rel old now : tx_rel R (revertir_anterior old now).
Proof.
  unfold revertir_anterior. apply tx_rel_bind; auto.
  - apply tx_rel_read, R_refl.
  - intros [c|]; [apply R_saldo | apply tx_rel_ret, R_refl].
Qed.

Lemma aplicar_nueva_rel old v now : tx_rel R (aplicar_nueva old v now).
Proof.
  unfold aplicar_nueva. apply tx_rel_bind; auto.
  - apply tx_rel_read, R_refl.
  - intros [c|]; [|apply tx_rel_ret, R_refl]. cbv zeta.
    destruct (_ && _); [apply tx_rel_throw | apply R_saldo].
Qed.

Lemma patch_unit_rel id old v now : tx_rel R (patch_unit sql_names id old v now).
Proof.
  unfold patch_unit. apply tx_rel_bind; auto.
  destruct (toca_saldo v); [|apply tx_rel_ret, R_refl].
  apply tx_rel_bind; auto using revertir_anterior_rel, aplicar_nueva_rel.
Qed.

Lemma delete_unit_rel id t now : tx_rel R (delete_unit id t now).
Proof.
  unfold delete_unit. apply tx_rel_bind; auto.
  - apply tx_rel_read, R_refl.
  - intros o. apply tx_rel_bind; auto.
    destruct o as [c|]; [apply R_saldo | apply tx_rel_ret, R_refl].
Qed.

Lemma db_transaction_rel {A} (body : Tx A) s s' (o : Exn + A) :
  tx_rel R body -> db_transaction body s = (s', o) -> R s s'.
Proof.
  intros Hb. unfold db_transaction. destruct (body s) as [e|[a s1]] eqn:E.
  - intros [= <- _]. apply R_refl.
  - intros [= <- _]. apply (Hb s a s1 E).
Qed.

Lemma handle_rel is_url op s : R s (fst (handle is_url sql_names op s)).
Proof.
  destruct op as [user body env|user id body env|user id env]; simpl.
  - unfold transacciones_post.
    destruct (negb _); [apply R_refl|].
    destruct (find_categoria _ _ _); [|apply R_refl].
    destruct (negb _); [apply R_refl|].
    destruct (find_cuenta _ _ _) as [cuenta|]; [|apply R_refl].
    destruct (_ && _); [apply R_refl|].
    destruct (db_transaction _ s) as [s1 [e|[]]] eqn:Hu; simpl;
      apply (db_transaction_rel _ _ _ _ (post_unit_rel user body cuenta env) Hu).
  - unfold transacciones_patch.
    destruct (negb _); [apply R_refl|].
    destruct (find_transaccion _ _ _) as [old|]; [|apply R_refl].
    destruct (validar_categoria _ _ _ _); [apply R_refl|].
    destruct (validar_cuenta _ _ _); [apply R_refl|].
    destruct (db_transaction _ s) as [s1 [e|[]]] eqn:Hu; simpl;
      apply (db_transaction_rel _ _ _ _ (patch_unit_rel id old body _) Hu).
  - unfold transacciones_delete.
    destruct (find_transaccion _ _ _) as [t|]; [|apply R_refl].
    destruct (db_transaction _ s) as [s1 [e|[]]] eqn:Hu; simpl;
      apply (db_transaction_rel _ _ _ _ (delete_unit_rel id t _) Hu).
Qed.

Lemma run_rel is_url ops s : R s (run is_url sql_names ops s).
Proof.
  revert s. induction ops as [|op ops IH]; intros s; [apply R_refl|].
  change (run is_url sql_names (op :: ops) s)
    with (run is_url sql_names ops (fst (handle is_url sql_names op s))).
  apply (R_trans _ (fst (handle is_url sql_names op s))); [apply handle_rel | apply IH].
Qed.

End Units.

(** ** The ledger operations as a whole *)

(** X1. Every ledger operation fails closed: a create, update or delete whose
    answer is not the success envelope returns the store it received. *)
Theorem X1_ledger_fails_closed (is_url : string -> bool) (sql_names : bool)
    (op : Op) (s : Store) :
  ~ is_success (snd (handle is_url sql_names op s)) ->
  fst (handle is_url sql_names op s) = s.
Proof.
  destruct op as [user body env|user id body env|user id env]; simpl; intros Hr.
  - apply (post_fails_closed is_url user body env s _ _ (surjective_pairing _) Hr).
  - apply (patch_fails_closed is_url sql_names user id body env s _ _
             (surjective_pairing _) Hr).
  - apply (delete_fails_closed user id env s _ _ (surjective_pairing _) Hr).
Qed.

Lemma checks_update_saldo id n now :
  tx_rel (fun s s' => checks_hold s -> checks_hold s') (update_saldo id n now).
Proof.
  intros s [] s' Hu [Hc Ht].
  apply update_saldo_inv in Hu as (_ & Htx & [[_ He]|(c & _ & Hn & He)]).
  - split; [rewrite He | rewrite Htx]; assumption.
  - split; [|rewrite Htx; assumption].
    intros a c'. rewrite He. destruct (decide (id = a)) as [->|Hne].
    + rewrite lookup_insert_eq. intros [= <-]. exact Hn.
    + rewrite lookup_insert_ne by exact Hne. apply Hc.
Qed.

Lemma checks_insert id row :
  tx_rel (fun s s' => checks_hold s -> checks_hold s') (insert_transaccion id row).
Proof.
  intros s [] s' Hi [Hc Ht]. apply insert_transaccion_inv in Hi as (_ & Hm & ->).
  split; [exact Hc|]. cbn [transacciones]. intros a t.
  destruct (decide (id = a)) as [->|Hne].
  - rewrite lookup_insert_eq. intros [= <-]. exact Hm.
  - rewrite lookup_insert_ne by exact Hne. apply Ht.
Qed.

Lemma checks_update sql_names id set :
  tx_rel (fun s s' => checks_hold s -> checks_hold s') (update_transaccion sql_names id set).
Proof.
  intros s [] s' Hu [Hc Ht].
  apply update_transaccion_inv in Hu as (_ & Hcs & [[_ He]|(t & _ & Hm & He)]).
  - split; [rewrite Hcs | rewrite He]; assumption.
  - split; [rewrite Hcs; assumption|].
    intros a t'. rewrite He. destruct (decide (id = a)) as [->|Hne].
    + rewrite lookup_insert_eq. intros [= <-]. exact Hm.
    + rewrite lookup_insert_ne by exact Hne. apply Ht.
Qed.

Lemma checks_delete id :
  tx_rel (fun s s' => checks_hold s -> checks_hold s') (delete_transaccion id).
Proof.
  intros s [] s' [= <-] [Hc Ht]. split; [exact Hc|]. cbn [transacciones].
  intros a t Ha. apply lookup_delete_Some in Ha as [_ Ha]. apply (Ht a t Ha).
Qed.

(** X2. The constraints of the schema hold across the ledger: from a store
    without a negative balance and without a non-positive amount, every
    sequence of creates, updates and deletes ends in such a store. *)
Theorem X2_checks_kept (is_url : string -> bool) (sql_names : bool)
    (ops : list Op) (s : Store) :
  checks_hold s -> checks_hold (run is_url sql_names ops s).
Proof.
  apply (run_rel sql_names (fun s s' => checks_hold s -> checks_hold s')); auto.
  - intros. apply checks_update_saldo.
  - intros. apply checks_insert.
  - intros. apply checks_update.
  - intros. apply checks_delete.
Qed.

Lemma same_account_refl c : same_account c c.
Proof. repeat split. Qed.

Lemma same_account_trans c1 c2 c3 :
  same_account c1 c2 -> same_account c2 c3 -> same_account c1 c3.
Proof. unfold same_account. intros H1 H2. repeat split; intuition congruence. Qed.

Lemma accounts_static_refl s : accounts_static s s.
Proof.
  split; [reflexivity|]. intros id. destruct (cuentas s !! id); [apply same_account_refl | exact I].
Qed.

Lemma accounts_static_trans s1 s2 s3 :
  accounts_static s1 s2 -> accounts_static s2 s3 -> accounts_static s1 s3.
Proof.
  intros [Hk1 H1] [Hk2 H2]. split; [congruence|]. intros id.
  specialize (H1 id). specialize (H2 id).
  destruct (cuentas s1 !! id), (cuentas s2 !! id), (cuentas s3 !! id);
    try contradiction; try exact I.
  eapply same_account_trans; eassumption.
Qed.

Lemma accounts_static_same s s' :
  categorias s' = categorias s -> cuentas s' = cuentas s -> accounts_static s s'.
Proof.
  intros Hk Hc. split; [exact Hk|]. intros id. rewrite Hc.
  destruct (cuentas s !! id); [apply same_account_refl | exact I].
Qed.

Lemma static_update_saldo id n now : tx_rel accounts_static (update_saldo id n now).
Proof.
  intros s [] s' Hu.
  apply update_saldo_inv in Hu as (Hk & _ & [[_ He]|(c & Hc & _ & He)]).
  - apply accounts_static_same; assumption.
  - split; [exact Hk|]. intros a. rewrite He. destruct (decide (id = a)) as [->|Hne].
    + rewrite lookup_insert_eq, Hc. repeat split.
    + rewrite lookup_insert_ne by exact Hne.
      destruct (cuentas s !! a); [apply same_account_refl | exact I].
Qed.

Lemma run_static is_url sql_names ops s : accounts_static s (run is_url sql_names ops s).
Proof.
  apply (run_rel sql_names accounts_static).
  - apply accounts_static_refl.
  - apply accounts_static_trans.
  - apply static_update_saldo.
  - intros id row s1 [] s2 Hi. apply insert_transaccion_inv in Hi as (_ & _ & ->).
    apply accounts_static_same; reflexivity.
  - intros id set s1 [] s2 Hu. apply update_transaccion_inv in Hu as (Hk & Hc & _).
    apply accounts_static_same; assumption.
  - intros id s1 [] s2 [= <-]. apply accounts_static_same; reflexivity.
Qed.

(** X3. The ledger never creates or removes an account, never changes what
    an account is (owner, name, type, colour, icon, active flag), and never
    touches a category: across every sequence of creates, updates and
    deletes of transactions only [saldo] and [updatedAt] of accounts move. *)
Theorem X3_ledger_keeps_accounts (is_url : string -> bool) (sql_names : bool)
    (ops : list Op) (s : Store) :
  accounts_static s (run is_url sql_names ops s).
Proof. apply run_static. Qed.

(** ** Master accounts are isolated *)

Lemma handle_static is_url sql_names op s :
  accounts_static s (fst (handle is_url sql_names op s)).
Proof. apply (run_static is_url sql_names [op] s). Qed.

Lemma static_tenant s s' a c' :
  accounts_static s s' -> cuentas s' !! a = Some c' ->
  exists c, cuentas s !! a = Some c /\ Cuenta.cuentaMaestraId c' = Cuenta.cuentaMaestraId c.
Proof.
  intros [_ H] Hc'. specialize (H a). rewrite Hc' in H.
  destruct (cuentas s !! a) as [c|]; [|contradiction].
  exists c. split; [reflexivity | apply H].
Qed.

(** The references stay within master accounts when the accounts are the
    same and each row either was there, with its owner and its account, or
    points to an account of its owner. *)
Lemma refs_kept s s' :
  accounts_static s s' ->
  (forall id t', transacciones s' !! id = Some t' ->
     (exists t, transacciones s !! id = Some t /\
                Transaccion.cuentaMaestraId t = Transaccion.cuentaMaestraId t' /\
                Transaccion.cuentaId t = Transaccion.cuentaId t') \/
     (forall c, cuentas s !! Transaccion.cuentaId t' = Some c ->
                Cuenta.cuentaMaestraId c = Transaccion.cuentaMaestraId t')) ->
  same_tenant_refs s -> same_tenant_refs s'.
Proof.
  intros Hst Hrows Hrefs id t' c' Ht' Hc'.
  destruct (static_tenant _ _ _ _ Hst Hc') as (c & Hc & ->).
  destruct (Hrows id t' Ht') as [(t & Ht & Hm & Ha)|Hown].
  - rewrite <- Hm. apply (Hrefs id t c Ht). rewrite Ha. exact Hc.
  - apply Hown. exact Hc.
Qed.

(** The accounts of other master accounts are the same when each account
    whose row changed belongs to [m]. *)
Lemma accounts_isolated m s s' :
  accounts_static s s' ->
  (forall a, cuentas s' !! a = cuentas s !! a \/
             (forall c, cuentas s !! a = Some c -> Cuenta.cuentaMaestraId c = m)) ->
  forall id c, Cuenta.cuentaMaestraId c <> m ->
               (cuentas s !! id = Some c <-> cuentas s' !! id = Some c).
Proof.
  intros Hst Hch id c Hne. destruct (Hch id) as [->|Hm]; [reflexivity|].
  split; intros Hc.
  - exfalso. apply Hne. apply (Hm c Hc).
  - exfalso. destruct (static_tenant _ _ _ _ Hst Hc) as (c0 & Hc0 & Ht).
    apply Hne. rewrite Ht. apply (Hm c0 Hc0).
Qed.

Lemma update_saldo_others id n now s s' a :
  update_saldo id n now s = inr (tt, s') -> a <> id -> cuentas s' !! a = cuentas s !! a.
Proof.
  intros Hu Hne. apply update_saldo_inv in Hu as (_ & _ & [[_ ->]|(c & _ & _ & ->)]).
  - reflexivity.
  - apply lookup_insert_ne. auto.
Qed.

Lemma patch_success_full is_url sql_names user id body env s s' r :
  transacciones_patch is_url sql_names user id body env s = (s', r) ->
  is_success r ->
  updateTransaccionSchema is_url body = true /\
  exists old,
    find_transaccion s id (cuenta_maestra_id user) = Some old /\
    validar_categoria s user old body = None /\
    validar_cuenta s user body = None /\
    patch_unit sql_names id old body (toISOString env) s = inr (tt, s').
Proof.
  intros H Hr.
  destruct (patch_success _ _ _ _ _ _ _ _ _ H Hr) as (Hschema & old & Hold & Hu).
  split; [exact Hschema|]. exists old. split; [exact Hold|].
  unfold transacciones_patch in H. rewrite Hschema, Hold in H. cbn [negb] in H.
  destruct (validar_categoria s user old body) as [r0|] eqn:Hv.
  { exfalso. injection H as _ <-. destruct Hr as [m ->]. unfold validar_categoria in Hv.
    repeat match type of Hv with
           | match ?x with _ => _ end = _ => destruct x
           | (if ?x then _ else _) = _ => destruct x
           end; discriminate Hv. }
  destruct (validar_cuenta s user body) as [r0|] eqn:Hv'.
  { exfalso. injection H as _ <-. destruct Hr as [m ->]. unfold validar_cuenta in Hv'.
    repeat match type of Hv' with
           | match ?x with _ => _ end = _ => destruct x
           | (if ?x then _ else _) = _ => destruct x
           end; discriminate Hv'. }
  auto.
Qed.

(** What a successful PATCH has written: the row, and at most the account
    the row pointed to and the account the request names. *)
Lemma patch_effect is_url sql_names user id body env s s' r :
  transacciones_patch is_url sql_names user id body env s = (s', r) ->
  is_success r ->
  exists old,
    find_transaccion s id (cuenta_maestra_id user) = Some old /\
    updateTransaccionSchema is_url body = true /\
    validar_cuenta s user body = None /\
    transacciones s'
    = <[id := set_transaccion sql_names (spread body (toISOString env)) old]> (transacciones s) /\
    (forall a, a <> Transaccion.cuentaId old -> a <> nuevaCuentaId old body ->
               cuentas s' !! a = cuentas s !! a).
Proof.
  intros H Hr.
  destruct (patch_success_full _ _ _ _ _ _ _ _ _ H Hr)
    as (Hschema & old & Hold & _ & Hvc & Hu).
  exists old. repeat split; auto.
  - pose proof Hold as Hrow. apply find_transaccion_Some in Hrow as (Hrow & _).
    unfold patch_unit in Hu. unfold tx_bind at 1 in Hu.
    destruct (if toca_saldo body then _ else _) as [e|[[] s2]] eqn:Hadj; [discriminate|].
    assert (Ht2 : transacciones s2 = transacciones s).
    { destruct (toca_saldo body).
      - unfold tx_bind in Hadj.
        destruct (revertir_anterior _ _ s) as [e|[[] s1]] eqn:Hrev; [discriminate|].
        apply revertir_anterior_effect in Hrev as (Ht1 & _).
        apply aplicar_nueva_effect in Hadj as (Ht2 & _). congruence.
      - injection Hadj as <-. reflexivity. }
    apply update_transaccion_inv in Hu as (_ & _ & [[Hn _]|(t & Ht & _ & Ht3)]).
    { congruence. }
    assert (t = old) as -> by congruence. congruence.
  - intros a Ha Hb. unfold patch_unit in Hu. unfold tx_bind at 1 in Hu.
    destruct (if toca_saldo body then _ else _) as [e|[[] s2]] eqn:Hadj; [discriminate|].
    apply update_transaccion_inv in Hu as (_ & Hc3 & _). rewrite Hc3.
    destruct (toca_saldo body).
    + unfold tx_bind in Hadj.
      destruct (revertir_anterior _ _ s) as [e|[[] s1]] eqn:Hrev; [discriminate|].
      assert (H1 : cuentas s1 !! a = cuentas s !! a).
      { unfold revertir_anterior, tx_bind, select_cuenta, tx_read, tx_ret in Hrev.
        destruct (cuentas s !! Transaccion.cuentaId old).
        - apply (update_saldo_others _ _ _ _ _ a Hrev Ha).
        - injection Hrev as <-. reflexivity. }
      rewrite <- H1.
      unfold aplicar_nueva, tx_bind, select_cuenta, tx_read, tx_ret in Hadj.
      destruct (cuentas s1 !! nuevaCuentaId old body); [|injection Hadj as <-; reflexivity].
      cbv zeta in Hadj. destruct (_ && _); [discriminate|].
      apply (update_saldo_others _ _ _ _ _ a Hadj Hb).
    + injection Hadj as <-. reflexivity.
Qed.

Lemma validar_cuenta_found is_url s user body x :
  updateTransaccionSchema is_url body = true ->
  validar_cuenta s user body = None ->
  UpdateBody.cuenta_id body = Some x ->
  exists c, find_cuenta s x (cuenta_maestra_id user) = Some c.
Proof.
  intros Hschema Hv Hx. pose proof (schema_cuenta_id _ _ _ Hschema Hx) as Hmin.
  unfold validar_cuenta in Hv. rewrite Hx, Hmin in Hv.
  destruct (find_cuenta s x (cuenta_maestra_id user)) as [c|]; [eauto | discriminate].
Qed.

Lemma set_transaccion_owner sql_names set t :
  Transaccion.cuentaMaestraId (set_transaccion sql_names set t) = Transaccion.cuentaMaestraId t /\
  Transaccion.usuarioId (set_transaccion sql_names set t) = Transaccion.usuarioId t.
Proof. split; reflexivity. Qed.

Lemma isolated_refl m s : isolated m s s.
Proof. split; intros; reflexivity. Qed.

Lemma isolated_trans m s1 s2 s3 : isolated m s1 s2 -> isolated m s2 s3 -> isolated m s1 s3.
Proof.
  intros [Ht1 Hc1] [Ht2 Hc2]. split; intros id x Hne.
  - rewrite (Ht1 id x Hne). apply (Ht2 id x Hne).
  - rewrite (Hc1 id x Hne). apply (Hc2 id x Hne).
Qed.

Lemma post_isolated is_url user body env s s' r :
  transacciones_post is_url user body env s = (s', r) ->
  accounts_static s s' ->
  same_tenant_refs s ->
  same_tenant_refs s' /\ isolated (cuenta_maestra_id user) s s'.
Proof.
  intros H Hst Hrefs. destruct (is_success_dec r) as [Hr|Hr].
  2:{ rewrite (post_fails_closed _ _ _ _ _ _ _ H Hr). split; [exact Hrefs | apply isolated_refl]. }
  destruct (post_success _ _ _ _ _ _ _ H Hr) as (k & c & _ & _ & Hc & _ & Hfresh & He).
  apply find_cuenta_Some in Hc as (Hc & Hm & _).
  set (row := nueva_transaccion user body env) in *.
  assert (Htx : transacciones s' = <[nanoid env := row]> (transacciones s)) by (rewrite He; reflexivity).
  assert (Hcs : forall a, a <> CreateBody.cuenta_id body -> cuentas s' !! a = cuentas s !! a).
  { intros a Ha. rewrite He. cbn [cuentas]. apply lookup_insert_ne. auto. }
  split; [|split].
  - apply (refs_kept s s' Hst); [|exact Hrefs]. intros id t'. rewrite Htx.
    destruct (decide (nanoid env = id)) as [<-|Hne].
    + rewrite lookup_insert_eq. intros [= <-]. right. intros c0 Hc0.
      change (Transaccion.cuentaId row) with (CreateBody.cuenta_id body) in Hc0.
      assert (c0 = c) as -> by congruence. exact Hm.
    + rewrite lookup_insert_ne by exact Hne. intros Ht. left. eauto.
  - intros id t Hne. rewrite Htx. destruct (decide (nanoid env = id)) as [<-|Hd].
    + rewrite lookup_insert_eq, Hfresh. split; [discriminate|].
      intros [= <-]. exfalso. apply Hne. reflexivity.
    + rewrite lookup_insert_ne by exact Hd. reflexivity.
  - apply (accounts_isolated _ s s' Hst). intros a.
    destruct (decide (a = CreateBody.cuenta_id body)) as [->|Ha]; [right | left; auto].
    intros c0 Hc0. assert (c0 = c) as -> by congruence. exact Hm.
Qed.

Lemma delete_isolated user id env s s' r :
  transacciones_delete user id env s = (s', r) ->
  accounts_static s s' ->
  same_tenant_refs s ->
  same_tenant_refs s' /\ isolated (cuenta_maestra_id user) s s'.
Proof.
  intros H Hst Hrefs. destruct (is_success_dec r) as [Hr|Hr].
  2:{ rewrite (delete_fails_closed _ _ _ _ _ _ H Hr). split; [exact Hrefs | apply isolated_refl]. }
  destruct (find_transaccion s id (cuenta_maestra_id user)) as [t|] eqn:Ht.
  2:{ exfalso. unfold transacciones_delete in H. rewrite Ht in H. injection H as _ <-.
      destruct Hr as [m Hm]. discriminate Hm. }
  pose proof Ht as Ht'. apply find_transaccion_Some in Ht' as (Hrow & Hm).
  assert (Htx : transacciones s' = delete id (transacciones s) /\
                forall a, a <> Transaccion.cuentaId t -> cuentas s' !! a = cuentas s !! a).
  { destruct (cuentas s !! Transaccion.cuentaId t) as [c|] eqn:Hc.
    - destruct (Z_lt_le_dec (revertir (Transaccion.tipo t) (Cuenta.saldo c)
                                      (Transaccion.monto t)) 0) as [Hn|Hn].
      + exfalso. rewrite (delete_refused user id env s t c Ht Hc Hn) in H.
        injection H as _ <-. destruct Hr as [m0 Hm0]. discriminate Hm0.
      + rewrite (delete_commits user id env s t c Ht Hc Hn) in H. injection H as <- _.
        split; [reflexivity|]. intros a Ha. cbn [cuentas]. apply lookup_insert_ne. auto.
    - rewrite (delete_orphan user id env s t Ht Hc) in H. injection H as <- _.
      split; [reflexivity|]. reflexivity. }
  destruct Htx as [Htx Hcs]. split; [|split].
  - apply (refs_kept s s' Hst); [|exact Hrefs]. intros id' t'. rewrite Htx.
    intros Hd. apply lookup_delete_Some in Hd as [_ Hd]. left. eauto.
  - intros id' t0 Hne. rewrite Htx. destruct (decide (id = id')) as [<-|Hd].
    + rewrite lookup_delete_eq, Hrow. split; [|discriminate].
      intros [= <-]. exfalso. apply Hne. exact Hm.
    + rewrite lookup_delete_ne by exact Hd. reflexivity.
  - apply (accounts_isolated _ s s' Hst). intros a.
    destruct (decide (a = Transaccion.cuentaId t)) as [->|Ha]; [right | left; auto].
    intros c0 Hc0. rewrite (Hrefs id t c0 Hrow Hc0). exact Hm.
Qed.

Lemma patch_isolated is_url sql_names user id body env s s' r :
  transacciones_patch is_url sql_names user id body env s = (s', r) ->
  accounts_static s s' ->
  same_tenant_refs s ->
  same_tenant_refs s' /\ isolated (cuenta_maestra_id user) s s'.
Proof.
  intros H Hst Hrefs. destruct (is_success_dec r) as [Hr|Hr].
  2:{ rewrite (patch_fails_closed _ _ _ _ _ _ _ _ _ H Hr).
      split; [exact Hrefs | apply isolated_refl]. }
  destruct (patch_effect _ _ _ _ _ _ _ _ _ H Hr) as (old & Hold & Hschema & Hvc & Htx & Hcs).
  apply find_transaccion_Some in Hold as (Hrow & Hm).
  set (t' := set_transaccion sql_names (spread body (toISOString env)) old) in *.
  assert (Hnamed : forall x c, UpdateBody.cuenta_id body = Some x ->
                               cuentas s !! x = Some c ->
                               Cuenta.cuentaMaestraId c = cuenta_maestra_id user).
  { intros x c Hx Hc. destruct (validar_cuenta_found _ _ _ _ _ Hschema Hvc Hx) as (c0 & Hc0).
    apply find_cuenta_Some in Hc0 as (Hc0 & Hm0 & _). congruence. }
  assert (Hold_acc : forall c, cuentas s !! Transaccion.cuentaId old = Some c ->
                               Cuenta.cuentaMaestraId c = cuenta_maestra_id user).
  { intros c Hc. rewrite (Hrefs id old c Hrow Hc). exact Hm. }
  split; [|split].
  - apply (refs_kept s s' Hst); [|exact Hrefs]. intros id' t0. rewrite Htx.
    destruct (decide (id = id')) as [<-|Hne].
    + rewrite lookup_insert_eq. intros [= <-].
      assert (Hacc : Transaccion.cuentaId t'
                     = if sql_names then default (Transaccion.cuentaId old)
                                                 (UpdateBody.cuenta_id body)
                       else Transaccion.cuentaId old).
      { unfold t', set_transaccion. cbn [Transaccion.cuentaId]. apply spread_cuentaId. }
      destruct sql_names; [destruct (UpdateBody.cuenta_id body) as [x|] eqn:Hx|].
      * right. intros c Hc. rewrite Hacc in Hc. cbn [default] in Hc.
        change (Transaccion.cuentaMaestraId t') with (Transaccion.cuentaMaestraId old).
        rewrite Hm. apply (Hnamed x c eq_refl Hc).
      * left. exists old. repeat split; [exact Hrow | symmetry; exact Hacc].
      * left. exists old. repeat split; [exact Hrow | symmetry; exact Hacc].
    + rewrite lookup_insert_ne by exact Hne. intros Ht. left. eauto.
  - intros id' t0 Hne. rewrite Htx. destruct (decide (id = id')) as [<-|Hd].
    + rewrite lookup_insert_eq, Hrow. split; intros [= <-]; exfalso; apply Hne; exact Hm.
    + rewrite lookup_insert_ne by exact Hd. reflexivity.
  - apply (accounts_isolated _ s s' Hst). intros a.
    destruct (decide (a = Transaccion.cuentaId old)) as [->|Ha]; [right; exact Hold_acc|].
    destruct (decide (a = nuevaCuentaId old body)) as [->|Hb]; [right | left; auto].
    unfold nuevaCuentaId, or_str in *.
    destruct (UpdateBody.cuenta_id body) as [x|] eqn:Hx; [|exact Hold_acc].
    destruct (min1 x); [|exact Hold_acc]. intros c Hc. apply (Hnamed x c eq_refl Hc).
Qed.

Lemma handle_isolated is_url sql_names op s :
  same_tenant_refs s ->
  same_tenant_refs (fst (handle is_url sql_names op s)) /\
  isolated (cuenta_maestra_id (op_user op)) s (fst (handle is_url sql_names op s)).
Proof.
  intros Hrefs. pose proof (handle_static is_url sql_names op s) as Hst.
  destruct op as [user body env|user id body env|user id env]; simpl in *.
  - apply (post_isolated is_url user body env s _ _ (surjective_pairing _) Hst Hrefs).
  - apply (patch_isolated is_url sql_names user id body env s _ _
             (surjective_pairing _) Hst Hrefs).
  - apply (delete_isolated user id env s _ _ (surjective_pairing _) Hst Hrefs).
Qed.

(** X4. Master accounts are isolated from each other's ledger operations.
    In a store where every transaction points to an account of its own master
    account, any sequence of creates, updates and deletes issued by callers
    of the master account [m] leaves every transaction row and every account
    row of the other master accounts exactly as it was, adds none, and keeps
    the references within master accounts. *)
Theorem X4_tenants_isolated (is_url : string -> bool) (sql_names : bool)
    (m : string) (ops : list Op) (s : Store) :
  Forall (fun op => cuenta_maestra_id (op_user op) = m) ops ->
  same_tenant_refs s ->
  isolated m s (run is_url sql_names ops s) /\
  same_tenant_refs (run is_url sql_names ops s).
Proof.
  revert s. induction ops as [|op ops IH]; intros s Hops Hrefs.
  { split; [apply isolated_refl | exact Hrefs]. }
  change (run is_url sql_names (op :: ops) s)
    with (run is_url sql_names ops (fst (handle is_url sql_names op s))).
  inversion Hops as [|? ? Hop Hrest]; subst.
  destruct (handle_isolated is_url sql_names op s Hrefs) as [Hrefs1 Hiso1].
  destruct (IH _ Hrest Hrefs1) as [Hiso2 Hrefs2].
  split; [|exact Hrefs2]. eapply isolated_trans; eassumption.
Qed.

(** ** Edges of the three handlers *)

(** An update whose reversal went through and whose new expense exceeds the
    balance read after it is rolled back as a whole. *)
Lemma patch_rolls_back is_url sql_names user id body env s s1 old c :
  updateTransaccionSchema is_url body = true ->
  find_transaccion s id (cuenta_maestra_id user) = Some old ->
  validar_categoria s user old body = None ->
  validar_cuenta s user body = None ->
  toca_saldo body = true ->
  revertir_anterior old (toISOString env) s = inr (tt, s1) ->
  cuentas s1 !! nuevaCuentaId old body = Some c ->
  nuevoTipo old body = gasto ->
  Cuenta.saldo c - nuevoMonto old body < 0 ->
  transacciones_patch is_url sql_names user id body env s =
  (s, json (makeError "ERR_VALIDATION" "Saldo insuficiente en la cuenta") 400).
Proof.
  intros Hschema Hold Hcat Hcu Htoca Hrev Hc Hk Hlt.
  unfold transacciones_patch. rewrite Hschema, Hold, Hcat, Hcu. cbn [negb].
  unfold db_transaction, patch_unit. rewrite Htoca.
  unfold tx_bind at 1 2. rewrite Hrev.
  unfold aplicar_nueva, tx_bind, select_cuenta, tx_read. rewrite Hc, Hk.
  cbn [aplicar]. apply Z.ltb_lt in Hlt. rewrite Hlt.
  reflexivity.
Qed.


(** X5. A transaction that does not exist, or that belongs to another master
    account, cannot be reached by its identifier: DELETE, and PATCH with a
    well-formed body, answer ERR_NOT_FOUND (404) and change nothing. *)
Theorem X5_foreign_transaction_not_found (is_url : string -> bool) (sql_names : bool)
    (user : User) (id : string) (body : UpdateBody.t) (env : Ambient) (s : Store) :
  (forall t, transacciones s !! id = Some t ->
             Transaccion.cuentaMaestraId t <> cuenta_maestra_id user) ->
  transacciones_delete user id env s
  = (s, json (makeError "ERR_NOT_FOUND" "Transacción no encontrada") 404) /\
  (updateTransaccionSchema is_url body = true ->
   transacciones_patch is_url sql_names user id body env s
   = (s, json (makeError "ERR_NOT_FOUND" "Transacción no encontrada") 404)).
Proof.
  intros Hno.
  assert (Hf : find_transaccion s id (cuenta_maestra_id user) = None).
  { unfold find_transaccion. destruct (transacciones s !! id) as [t|]; [|reflexivity].
    rewrite (bool_decide_eq_false_2 _ (Hno t eq_refl)). reflexivity. }
  split.
  - unfold transacciones_delete. rewrite Hf. reflexivity.
  - intros Hschema. unfold transacciones_patch. rewrite Hschema, Hf. reflexivity.
Qed.

(** X6. Changing only the amount of an expense is checked against the
    balance with the old amount given back.  For an expense of [m] on an
    account holding [b] (neither negative), a request that supplies only the
    amount [n] succeeds exactly when [n <= b + m]; the account then holds
    [b + m - n] and the row carries [n]; otherwise the answer is
    ERR_VALIDATION (400) and nothing changes. *)
Theorem X6_update_amount_of_expense (is_url : string -> bool) (sql_names : bool)
    (user : User) (id : string) (body : UpdateBody.t) (env : Ambient) (s : Store)
    (old : Transaccion.t) (c : Cuenta.t) (n : Z) :
  updateTransaccionSchema is_url body = true ->
  UpdateBody.monto body = Some n ->
  UpdateBody.tipo body = None ->
  UpdateBody.cuenta_id body = None ->
  UpdateBody.categoria_id body = None ->
  find_transaccion s id (cuenta_maestra_id user) = Some old ->
  Transaccion.tipo old = gasto ->
  0 <= Transaccion.monto old ->
  cuentas s !! Transaccion.cuentaId old = Some c ->
  0 <= Cuenta.saldo c ->
  (n <= Cuenta.saldo c + Transaccion.monto old ->
   exists s',
     transacciones_patch is_url sql_names user id body env s
     = (s', ok "Transacción actualizada correctamente") /\
     balance s' (Transaccion.cuentaId old)
     = Some (Cuenta.saldo c + Transaccion.monto old - n) /\
     Transaccion.monto <$> transacciones s' !! id = Some n) /\
  (Cuenta.saldo c + Transaccion.monto old < n ->
   transacciones_patch is_url sql_names user id body env s
   = (s, json (makeError "ERR_VALIDATION" "Saldo insuficiente en la cuenta") 400)).
Proof.
  intros Hschema Hn Hk Hcu Hcat Hold Hg Hm0 Hc Hb0.
  pose proof (schema_monto _ _ _ Hschema Hn) as Hpos.
  pose proof Hold as Hrow. apply find_transaccion_Some in Hrow as (Hrow & _).
  set (now := toISOString env).
  assert (Hne : (n =? 0) = false) by (apply Z.eqb_neq; lia).
  assert (Htoca : toca_saldo body = true).
  { unfold toca_saldo. rewrite Hn. cbn [truthy_num]. rewrite Hne. reflexivity. }
  set (c1 := with_saldo c (Cuenta.saldo c + Transaccion.monto old) now).
  set (s1 := mkStore (categorias s) (<[Transaccion.cuentaId old := c1]> (cuentas s))
                     (transacciones s)).
  assert (Hrev : revertir_anterior old now s = inr (tt, s1)).
  { unfold revertir_anterior, tx_bind, select_cuenta, tx_read. rewrite Hc, Hg.
    cbn [revertir]. apply update_saldo_some; [exact Hc | lia]. }
  assert (Hvcat : validar_categoria s user old body = None).
  { unfold validar_categoria. rewrite Hcat. reflexivity. }
  assert (Hvcu : validar_cuenta s user body = None).
  { unfold validar_cuenta. rewrite Hcu. reflexivity. }
  assert (Hid : nuevaCuentaId old body = Transaccion.cuentaId old).
  { unfold nuevaCuentaId. rewrite Hcu. reflexivity. }
  assert (Hmonto : nuevoMonto old body = n).
  { unfold nuevoMonto. rewrite Hn. cbn [or_num]. rewrite Hne. reflexivity. }
  assert (Htipo : nuevoTipo old body = gasto).
  { unfold nuevoTipo. rewrite Hk. exact Hg. }
  assert (Hc1 : cuentas s1 !! nuevaCuentaId old body = Some c1).
  { rewrite Hid. unfold s1. cbn [cuentas]. apply lookup_insert_eq. }
  split.
  - intros Hle.
    set (c2 := with_saldo c1 (Cuenta.saldo c + Transaccion.monto old - n) now).
    set (s2 := mkStore (categorias s1) (<[Transaccion.cuentaId old := c2]> (cuentas s1))
                       (transacciones s1)).
    assert (Hap : aplicar_nueva old body now s1 = inr (tt, s2)).
    { unfold aplicar_nueva, tx_bind, select_cuenta, tx_read. rewrite Hc1, Htipo, Hmonto.
      cbn [aplicar]. change (Cuenta.saldo c1) with (Cuenta.saldo c + Transaccion.monto old).
      destruct (Cuenta.saldo c + Transaccion.monto old - n <? 0) eqn:E;
        [apply Z.ltb_lt in E; lia|].
      rewrite andb_false_r, Hid. apply update_saldo_some; [|lia].
      unfold s1. cbn [cuentas]. apply lookup_insert_eq. }
    set (t' := set_transaccion sql_names (spread body now) old).
    assert (Ht'm : Transaccion.monto t' = n).
    { unfold t', set_transaccion. cbn [Transaccion.monto]. rewrite spread_monto, Hn. reflexivity. }
    assert (Hup : update_transaccion sql_names id (spread body now) s2
                  = inr (tt, mkStore (categorias s2) (cuentas s2)
                                     (<[id := t']> (transacciones s2)))).
    { apply update_transaccion_some; [exact Hrow | fold t'; lia]. }
    eexists. split; [|split].
    + unfold transacciones_patch. rewrite Hschema, Hold, Hvcat, Hvcu. cbn [negb].
      unfold db_transaction, patch_unit. rewrite Htoca.
      unfold tx_bind at 1 2. fold now. rewrite Hrev. unfold tx_bind. rewrite Hap, Hup.
      reflexivity.
    + unfold balance, s2. cbn [cuentas]. rewrite lookup_insert_eq. reflexivity.
    + cbn [transacciones]. rewrite lookup_insert_eq.
      cbn [fmap option_fmap option_map]. rewrite Ht'm. reflexivity.
  - intros Hlt.
    apply (patch_rolls_back is_url sql_names user id body env s s1 old c1); auto.
    rewrite Hmonto. change (Cuenta.saldo c1) with (Cuenta.saldo c + Transaccion.monto old). lia.
Qed.

Lemma delete_success_rows user id env s s' r :
  transacciones_delete user id env s = (s', r) ->
  is_success r ->
  exists t, find_transaccion s id (cuenta_maestra_id user) = Some t /\
            transacciones s' = delete id (transacciones s).
Proof.
  intros H Hr.
  destruct (find_transaccion s id (cuenta_maestra_id user)) as [t|] eqn:Ht.
  2:{ exfalso. unfold transacciones_delete in H. rewrite Ht in H. injection H as _ <-.
      destruct Hr as [m Hm]. discriminate Hm. }
  exists t. split; [reflexivity|].
  destruct (cuentas s !! Transaccion.cuentaId t) as [c|] eqn:Hc.
  - destruct (Z_lt_le_dec (revertir (Transaccion.tipo t) (Cuenta.saldo c)
                                    (Transaccion.monto t)) 0) as [Hn|Hn].
    + exfalso. rewrite (delete_refused user id env s t c Ht Hc Hn) in H.
      injection H as _ <-. destruct Hr as [m0 Hm0]. discriminate Hm0.
    + rewrite (delete_commits user id env s t c Ht Hc Hn) in H. injection H as <- _.
      reflexivity.
  - rewrite (delete_orphan user id env s t Ht Hc) in H. injection H as <- _. reflexivity.
Qed.

(** X7. A deleted transaction is gone: after a DELETE that succeeded, a
    second DELETE of the same identifier answers ERR_NOT_FOUND (404) and
    changes nothing, so no contribution is ever reverted twice. *)
Theorem X7_delete_twice (user : User) (id : string) (env env' : Ambient)
    (s s' : Store) (r : Response) :
  transacciones_delete user id env s = (s', r) ->
  is_success r ->
  transacciones_delete user id env' s'
  = (s', json (makeError "ERR_NOT_FOUND" "Transacción no encontrada") 404).
Proof.
  intros H Hr. destruct (delete_success_rows _ _ _ _ _ _ H Hr) as (t & _ & Htx).
  unfold transacciones_delete, find_transaccion. rewrite Htx, lookup_delete_eq. reflexivity.
Qed.

Lemma post_success_schema is_url user body env s s' r :
  transacciones_post is_url user body env s = (s', r) ->
  is_success r -> createTransaccionSchema is_url body = true.
Proof.
  unfold transacciones_post. intros H [msg ->].
  destruct (createTransaccionSchema is_url body); [reflexivity | discriminate H].
Qed.

(** X8. What a successful create leaves in the store: under the identifier
    drawn for it, a row owned by the caller's master account and written by
    the caller, with a positive amount; the category it points to exists, is
    active, belongs to the caller's master account and has the kind of the
    row; the account it points to exists, is active and belongs to the
    caller's master account. *)
Theorem X8_created_row (is_url : string -> bool) (user : User) (body : CreateBody.t)
    (env : Ambient) (s s' : Store) (r : Response) :
  transacciones_post is_url user body env s = (s', r) ->
  is_success r ->
  exists t categoria cuenta,
    transacciones s' !! nanoid env = Some t /\
    Transaccion.cuentaMaestraId t = cuenta_maestra_id user /\
    Transaccion.usuarioId t = user_id user /\
    0 < Transaccion.monto t /\
    categorias s' !! Transaccion.categoriaId t = Some categoria /\
    Categoria.tipo categoria = Transaccion.tipo t /\
    Categoria.activa categoria = true /\
    Categoria.cuentaMaestraId categoria = cuenta_maestra_id user /\
    cuentas s' !! Transaccion.cuentaId t = Some cuenta /\
    Cuenta.activa cuenta = true /\
    Cuenta.cuentaMaestraId cuenta = cuenta_maestra_id user.
Proof.
  intros H Hr. pose proof (post_success_schema _ _ _ _ _ _ _ H Hr) as Hschema.
  destruct (post_success _ _ _ _ _ _ _ H Hr) as (k & c & Hk & Hkt & Hc & _ & _ & ->).
  apply find_categoria_Some in Hk as (Hk & Hkm & Hka).
  apply find_cuenta_Some in Hc as (Hc & Hcm & Hca).
  eexists (nueva_transaccion user body env), k, _. cbn [transacciones categorias cuentas].
  repeat split.
  - apply lookup_insert_eq.
  - unfold createTransaccionSchema in Hschema.
    repeat (apply andb_true_iff in Hschema as [Hschema _]).
    apply Z.ltb_lt in Hschema. exact Hschema.
  - exact Hk.
  - exact Hkt.
  - exact Hka.
  - exact Hkm.
  - apply lookup_insert_eq.
  - exact Hca.
  - exact Hcm.
Qed.

(** X9. A create never overwrites a transaction: when the identifier drawn
    for the new row is already that of a stored transaction, the answer is
    not a success and the store is left as it was. *)
Theorem X9_create_never_overwrites (is_url : string -> bool) (user : User)
    (body : CreateBody.t) (env : Ambient) (s : Store) (t0 : Transaccion.t) :
  transacciones s !! nanoid env = Some t0 ->
  ~ is_success (snd (transacciones_post is_url user body env s)) /\
  fst (transacciones_post is_url user body env s) = s.
Proof.
  intros Hused.
  assert (Hr : ~ is_success (snd (transacciones_post is_url user body env s))).
  { intros Hr.
    destruct (post_success is_url user body env s _ _ (surjective_pairing _) Hr)
      as (_ & _ & _ & _ & _ & _ & Hfresh & _). congruence. }
  split; [exact Hr|].
  apply (post_fails_closed is_url user body env s _ _ (surjective_pairing _) Hr).
Qed.

(** ** Accounts and categories *)

Lemma fold_orb_spec {A} (p : A -> bool) (m : gmap string A) :
  map_fold (fun _ x found => found || p x) false m = true <->
  exists i x, m !! i = Some x /\ p x = true.
Proof.
  apply (map_fold_weak_ind
           (fun r m => r = true <-> exists i x, m !! i = Some x /\ p x = true)).
  - split; [discriminate|]. intros (i & x & Hi & _). rewrite lookup_empty in Hi. discriminate.
  - intros i x m0 r Hfresh IH. rewrite orb_true_iff, IH. split.
    + intros [(j & y & Hj & Hy)|Hx].
      * exists j, y. split; [|exact Hy]. rewrite lookup_insert_ne; [exact Hj|congruence].
      * exists i, x. split; [apply lookup_insert_eq | exact Hx].
    + intros (j & y & Hj & Hy). destruct (decide (i = j)) as [<-|Hne].
      * rewrite lookup_insert_eq in Hj. injection Hj as <-. right. exact Hy.
      * rewrite lookup_insert_ne in Hj by exact Hne. left. eauto.
Qed.

Lemma existe_nombre_spec s n m :
  existe_nombre s n m = true <->
  exists id c, cuentas s !! id = Some c /\ Cuenta.nombre c = n /\ Cuenta.cuentaMaestraId c = m.
Proof.
  unfold existe_nombre.
  rewrite (fold_orb_spec (fun c => bool_decide (Cuenta.nombre c = n)
                                   && bool_decide (Cuenta.cuentaMaestraId c = m))).
  split; intros (id & c & Hc & H); exists id, c; (split; [exact Hc|]).
  - apply andb_true_iff in H as [H1 H2].
    apply bool_decide_eq_true in H1, H2. auto.
  - destruct H as [H1 H2]. rewrite !bool_decide_eq_true_2 by assumption. reflexivity.
Qed.

Lemma existe_categoria_spec s n k m :
  existe_categoria s n k m = true <->
  exists id c, categorias s !! id = Some c /\ Categoria.nombre c = n /\
               Categoria.tipo c = k /\ Categoria.cuentaMaestraId c = m.
Proof.
  unfold existe_categoria.
  rewrite (fold_orb_spec (fun c => bool_decide (Categoria.nombre c = n)
                                   && bool_decide (Categoria.tipo c = k)
                                   && bool_decide (Categoria.cuentaMaestraId c = m))).
  split; intros (id & c & Hc & H); exists id, c; (split; [exact Hc|]).
  - apply andb_true_iff in H as [H H3]. apply andb_true_iff in H as [H1 H2].
    apply bool_decide_eq_true in H1, H2, H3. auto.
  - destruct H as (H1 & H2 & H3). rewrite !bool_decide_eq_true_2 by assumption. reflexivity.
Qed.

(** X10. POST /cuentas keeps the names of accounts unique within a master
    account: from a store where they are unique it returns such a store, and
    a well-formed request whose name is already that of an account of the
    caller's master account is answered ERR_CONFLICT (409) with the store
    unchanged. *)
Theorem X10_account_names_unique (user : User) (body : CuentaBody.t) (env : Ambient)
    (s : Store) :
  nombres_unicos s ->
  nombres_unicos (fst (cuentas_post user body env s)) /\
  (createCuentaSchema body = true ->
   (exists id c, cuentas s !! id = Some c /\ Cuenta.nombre c = CuentaBody.nombre body /\
                 Cuenta.cuentaMaestraId c = cuenta_maestra_id user) ->
   cuentas_post user body env s
   = (s, json (makeError "ERR_CONFLICT" "Ya existe una cuenta con este nombre") 409)).
Proof.
  intros Huniq. split.
  - unfold cuentas_post. destruct (negb _); [exact Huniq|].
    destruct (existe_nombre _ _ _) eqn:Hex; [exact Huniq|].
    destruct (cuentas s !! nanoid env) eqn:Hfresh; [exact Huniq|].
    destruct (_ <? 0); [exact Huniq|]. cbn [fst].
    assert (Hno : forall id c, cuentas s !! id = Some c ->
                               Cuenta.nombre c = CuentaBody.nombre body ->
                               Cuenta.cuentaMaestraId c = cuenta_maestra_id user -> False).
    { intros id c Hc Hn Hm.
      assert (existe_nombre s (CuentaBody.nombre body) (cuenta_maestra_id user) = true)
        by (apply existe_nombre_spec; eauto).
      congruence. }
    intros id1 id2 c1 c2. cbn [cuentas].
    destruct (decide (nanoid env = id1)) as [<-|H1], (decide (nanoid env = id2)) as [<-|H2];
      rewrite ?lookup_insert_eq, ?lookup_insert_ne by assumption.
    + reflexivity.
    + intros [= <-] Hc2 Hn Hm. exfalso. apply (Hno id2 c2 Hc2); [symmetry; exact Hn|].
      symmetry. exact Hm.
    + intros Hc1 [= <-] Hn Hm. exfalso. apply (Hno id1 c1 Hc1); assumption.
    + apply Huniq.
  - intros Hschema Hex. apply existe_nombre_spec in Hex.
    unfold cuentas_post. rewrite Hschema, Hex. reflexivity.
Qed.

(** X11. PATCH /cuentas with a balance sets the stored balance to the
    supplied value, which is not negative, whatever the transactions of the
    account are: no transaction, category or other account is touched, so the
    part of the balance that the transactions do not account for becomes the
    supplied value minus the sum of their signed contributions. *)
Theorem X11_balance_edit (user : User) (id : string) (body : CuentaUpdate.t)
    (env : Ambient) (s s' : Store) (r : Response) (n : Z) :
  cuentas_patch user id body env s = (s', r) ->
  is_success r ->
  CuentaUpdate.saldo body = Some n ->
  balance s' id = Some n /\
  0 <= n /\
  transacciones s' = transacciones s /\
  categorias s' = categorias s /\
  (forall a, a <> id -> cuentas s' !! a = cuentas s !! a) /\
  opening s' id = Some (n - contributions s id).
Proof.
  unfold cuentas_patch. intros H [msg ->] Hn.
  destruct (negb _); [discriminate|].
  destruct (cuentas s !! id) as [c|] eqn:Hc; [|discriminate].
  destruct (bool_decide _); [|discriminate].
  destruct (_ && _); [discriminate|].
  destruct (_ <? 0) eqn:Hneg; [discriminate|]. injection H as <-.
  unfold set_cuenta in Hneg. cbn [Cuenta.saldo] in Hneg. rewrite Hn in Hneg.
  cbn [default] in Hneg. apply Z.ltb_ge in Hneg.
  unfold opening, balance, contributions. cbn [cuentas transacciones categorias].
  rewrite lookup_insert_eq. unfold set_cuenta. cbn [Cuenta.saldo fmap option_fmap option_map].
  rewrite Hn. repeat split; auto.
  intros a Ha. apply lookup_insert_ne. auto.
Qed.

(** X12. The duplicate test of PATCH /cuentas looks only at the row being
    updated.  For a well-formed request that names [n] on an account of the
    caller whose balance is not negative: when [n] is the account's own
    current name the answer is ERR_CONFLICT (409) and nothing changes; any
    other name is written with success, whether or not another account of
    the master account already has it. *)
Theorem X12_rename_account (user : User) (id : string) (body : CuentaUpdate.t)
    (env : Ambient) (s : Store) (c : Cuenta.t) (n : string) :
  updateCuentaSchema body = true ->
  CuentaUpdate.nombre body = Some n ->
  cuentas s !! id = Some c ->
  Cuenta.cuentaMaestraId c = cuenta_maestra_id user ->
  0 <= Cuenta.saldo c ->
  (Cuenta.nombre c = n ->
   cuentas_patch user id body env s
   = (s, json (makeError "ERR_CONFLICT" "Ya existe una cuenta con este nombre") 409)) /\
  (Cuenta.nombre c <> n ->
   exists s',
     cuentas_patch user id body env s = (s', ok "Cuenta actualizada correctamente") /\
     Cuenta.nombre <$> cuentas s' !! id = Some n /\
     (forall a, a <> id -> cuentas s' !! a = cuentas s !! a)).
Proof.
  intros Hschema Hn Hc Hm Hb.
  assert (Hmin : min1 n = true).
  { unfold updateCuentaSchema in Hschema. rewrite Hn in Hschema.
    apply andb_true_iff in Hschema as [H _]. exact H. }
  assert (Hsaldo : 0 <= Cuenta.saldo (set_cuenta body (toISOString env) c)).
  { unfold set_cuenta. cbn [Cuenta.saldo]. destruct (CuentaUpdate.saldo body) as [x|] eqn:Hx.
    - unfold updateCuentaSchema in Hschema. rewrite Hx in Hschema.
      apply andb_true_iff in Hschema as [_ H]. apply Z.leb_le in H. exact H.
    - exact Hb. }
  unfold cuentas_patch, duplicado_cuenta. rewrite Hschema, Hc, Hn.
  rewrite (bool_decide_eq_true_2 _ Hm). cbn [negb truthy_str default]. rewrite Hmin.
  split.
  - intros Heq. rewrite (bool_decide_eq_true_2 _ Heq). reflexivity.
  - intros Hne. rewrite (bool_decide_eq_false_2 _ Hne). cbn [andb].
    destruct (_ <? 0) eqn:E; [apply Z.ltb_lt in E; lia|].
    eexists. split; [reflexivity|]. cbn [cuentas]. split.
    + rewrite lookup_insert_eq. unfold set_cuenta. cbn. rewrite Hn. reflexivity.
    + intros a Ha. apply lookup_insert_ne. auto.
Qed.

Lemma cuenta_referida_spec s a :
  cuenta_referida s a = true <->
  exists id t, transacciones s !! id = Some t /\ Transaccion.cuentaId t = a.
Proof.
  unfold cuenta_referida.
  rewrite (fold_orb_spec (fun t => bool_decide (Transaccion.cuentaId t = a))).
  split; intros (id & t & Ht & H); exists id, t; (split; [exact Ht|]).
  - apply bool_decide_eq_true in H. exact H.
  - apply bool_decide_eq_true_2. exact H.
Qed.

Lemma cuenta_referida_false s a :
  cuenta_referida s a = false <->
  forall id t, transacciones s !! id = Some t -> Transaccion.cuentaId t <> a.
Proof.
  split.
  - intros Hf id t Ht Ha.
    assert (cuenta_referida s a = true) by (apply cuenta_referida_spec; eauto). congruence.
  - intros H. destruct (cuenta_referida s a) eqn:E; [|reflexivity].
    apply cuenta_referida_spec in E as (id & t & Ht & Ha). exfalso. apply (H id t Ht Ha).
Qed.

Lemma categoria_referida_spec s k :
  categoria_referida s k = true <->
  exists id t, transacciones s !! id = Some t /\ Transaccion.categoriaId t = k.
Proof.
  unfold categoria_referida.
  rewrite (fold_orb_spec (fun t => bool_decide (Transaccion.categoriaId t = k))).
  split; intros (id & t & Ht & H); exists id, t; (split; [exact Ht|]).
  - apply bool_decide_eq_true in H. exact H.
  - apply bool_decide_eq_true_2. exact H.
Qed.

Lemma categoria_referida_false s k :
  categoria_referida s k = false <->
  forall id t, transacciones s !! id = Some t -> Transaccion.categoriaId t <> k.
Proof.
  split.
  - intros Hf id t Ht Hk.
    assert (categoria_referida s k = true) by (apply categoria_referida_spec; eauto).
    congruence.
  - intros H. destruct (categoria_referida s k) eqn:E; [|reflexivity].
    apply categoria_referida_spec in E as (id & t & Ht & Hk). exfalso. apply (H id t Ht Hk).
Qed.

(** X13. An account with transactions cannot be deleted.  DELETE /cuentas
    on an account of the caller that some transaction points to is answered
    ERR_INTERNAL (500) and changes nothing: the store refuses the removal.
    On an account that no transaction points to it removes the row of the
    account and nothing else, and afterwards a create that names the account
    does not succeed and changes nothing. *)
Theorem X13_account_deleted (is_url : string -> bool) (user : User) (a : string)
    (s : Store) (c : Cuenta.t) :
  cuentas s !! a = Some c ->
  Cuenta.cuentaMaestraId c = cuenta_maestra_id user ->
  ((exists id t, transacciones s !! id = Some t /\ Transaccion.cuentaId t = a) ->
   cuentas_delete user a s
   = (s, json (makeError "ERR_INTERNAL" "Error al eliminar cuenta") 500)) /\
  ((forall id t, transacciones s !! id = Some t -> Transaccion.cuentaId t <> a) ->
   let s' := mkStore (categorias s) (delete a (cuentas s)) (transacciones s) in
   cuentas_delete user a s = (s', ok "Cuenta eliminada correctamente") /\
   forall body env,
     CreateBody.cuenta_id body = a ->
     ~ is_success (snd (transacciones_post is_url user body env s')) /\
     fst (transacciones_post is_url user body env s') = s').
Proof.
  intros Hc Hm. unfold cuentas_delete. rewrite Hc, (bool_decide_eq_true_2 _ Hm). split.
  - intros Hex. apply cuenta_referida_spec in Hex. rewrite Hex. reflexivity.
  - intros Hno. apply cuenta_referida_false in Hno. rewrite Hno. cbv zeta.
    split; [reflexivity|]. intros body env Ha.
    set (s1 := mkStore (categorias s) (delete a (cuentas s)) (transacciones s)).
    assert (Hr : ~ is_success (snd (transacciones_post is_url user body env s1))).
    { intros Hr.
      destruct (post_success is_url user body env s1 _ _ (surjective_pairing _) Hr)
        as (_ & c0 & _ & _ & Hc0 & _).
      apply find_cuenta_Some in Hc0 as (Hc0 & _). rewrite Ha in Hc0.
      unfold s1 in Hc0. cbn [cuentas] in Hc0. rewrite lookup_delete_eq in Hc0.
      discriminate Hc0. }
    split; [exact Hr|].
    apply (post_fails_closed is_url user body env s1 _ _ (surjective_pairing _) Hr).
Qed.

(** X14. POST /categorias keeps the pairs of name and kind unique within a
    master account: from a store where they are unique it returns such a
    store, and a well-formed request whose name and kind are already those of
    a category of the caller's master account is answered ERR_CONFLICT (409)
    with the store unchanged. *)
Theorem X14_category_names_unique (user : User) (body : CategoriaBody.t) (env : Ambient)
    (s : Store) :
  categorias_unicas s ->
  categorias_unicas (fst (categorias_post user body env s)) /\
  (createCategoriaSchema body = true ->
   (exists id c, categorias s !! id = Some c /\
                 Categoria.nombre c = CategoriaBody.nombre body /\
                 Categoria.tipo c = CategoriaBody.tipo body /\
                 Categoria.cuentaMaestraId c = cuenta_maestra_id user) ->
   categorias_post user body env s
   = (s, json (makeError "ERR_CONFLICT"
                 "Ya existe una categoría con este nombre y tipo") 409)).
Proof.
  intros Huniq. split.
  - unfold categorias_post. destruct (negb _); [exact Huniq|].
    destruct (existe_categoria _ _ _ _) eqn:Hex; [exact Huniq|].
    destruct (categorias s !! nanoid env) eqn:Hfresh; [exact Huniq|]. cbn [fst].
    assert (Hno : forall id c, categorias s !! id = Some c ->
                               Categoria.nombre c = CategoriaBody.nombre body ->
                               Categoria.tipo c = CategoriaBody.tipo body ->
                               Categoria.cuentaMaestraId c = cuenta_maestra_id user -> False).
    { intros id c Hc Hn Hk Hm.
      assert (existe_categoria s (CategoriaBody.nombre body) (CategoriaBody.tipo body)
                               (cuenta_maestra_id user) = true)
        by (apply existe_categoria_spec; eauto 6).
      congruence. }
    intros id1 id2 c1 c2. cbn [categorias].
    destruct (decide (nanoid env = id1)) as [<-|H1], (decide (nanoid env = id2)) as [<-|H2];
      rewrite ?lookup_insert_eq, ?lookup_insert_ne by assumption.
    + reflexivity.
    + intros [= <-] Hc2 Hn Hk Hm. exfalso.
      apply (Hno id2 c2 Hc2); symmetry; assumption.
    + intros Hc1 [= <-] Hn Hk Hm. exfalso. apply (Hno id1 c1 Hc1); assumption.
    + apply Huniq.
  - intros Hschema Hex. apply existe_categoria_spec in Hex.
    unfold categorias_post. rewrite Hschema, Hex. reflexivity.
Qed.

(** X15. A category in use can be retired, not deleted.  After a PATCH
    /categorias that deactivated a category, every well-formed create that
    names it is answered ERR_NOT_FOUND (404) and changes nothing, while the
    transactions and the accounts are as they were, so the transactions of
    the category stay.  DELETE /categorias on a category of the caller that
    some transaction points to is answered ERR_INTERNAL (500) and changes
    nothing; on a category that none points to it removes that row only,
    and every well-formed create that names it afterwards is answered
    ERR_NOT_FOUND (404). *)
Theorem X15_category_retired :
  (forall (is_url : string -> bool) (user : User) (k : string) (upd : CategoriaUpdate.t)
          (s s' : Store) (r : Response) (body : CreateBody.t) (env : Ambient),
     categorias_patch user k upd s = (s', r) ->
     is_success r ->
     CategoriaUpdate.activa upd = Some false ->
     createTransaccionSchema is_url body = true ->
     CreateBody.categoria_id body = k ->
     transacciones s' = transacciones s /\ cuentas s' = cuentas s /\
     transacciones_post is_url user body env s'
     = (s', json (makeError "ERR_NOT_FOUND" "Categoría no encontrada o inactiva") 404)) /\
  (forall (is_url : string -> bool) (user : User) (k : string) (s : Store)
          (c : Categoria.t) (body : CreateBody.t) (env : Ambient),
     categorias s !! k = Some c ->
     Categoria.cuentaMaestraId c = cuenta_maestra_id user ->
     ((exists id t, transacciones s !! id = Some t /\ Transaccion.categoriaId t = k) ->
      categorias_delete user k s
      = (s, json (makeError "ERR_INTERNAL" "Error al eliminar categoría") 500)) /\
     ((forall id t, transacciones s !! id = Some t -> Transaccion.categoriaId t <> k) ->
      createTransaccionSchema is_url body = true ->
      CreateBody.categoria_id body = k ->
      let s' := mkStore (delete k (categorias s)) (cuentas s) (transacciones s) in
      categorias_delete user k s = (s', ok "Categoría eliminada correctamente") /\
      transacciones_post is_url user body env s'
      = (s', json (makeError "ERR_NOT_FOUND" "Categoría no encontrada o inactiva") 404))).
Proof.
  split.
  - intros is_url user k upd s s' r body env H [msg ->] Hact Hschema Hk.
    unfold categorias_patch in H.
    destruct (negb _); [discriminate|].
    destruct (categorias s !! k) as [c|] eqn:Hc; [|discriminate].
    destruct (bool_decide _); [|discriminate].
    destruct (_ && _); [discriminate|]. injection H as <-.
    split; [reflexivity|]. split; [reflexivity|].
    unfold transacciones_post. rewrite Hschema. cbn [negb].
    unfold find_categoria. cbn [categorias]. rewrite Hk, lookup_insert_eq.
    unfold set_categoria. cbn [Categoria.activa Categoria.cuentaMaestraId].
    rewrite Hact. cbn [default]. rewrite andb_false_r. reflexivity.
  - intros is_url user k s c body env Hc Hm.
    unfold categorias_delete. rewrite Hc, (bool_decide_eq_true_2 _ Hm). split.
    + intros Hex. apply categoria_referida_spec in Hex. rewrite Hex. reflexivity.
    + intros Hno Hschema Hk. apply categoria_referida_false in Hno. rewrite Hno. cbv zeta.
      split; [reflexivity|].
      unfold transacciones_post. rewrite Hschema. cbn [negb].
      unfold find_categoria. cbn [categorias]. rewrite Hk, lookup_delete_eq. reflexivity.
Qed.

(** ** Authentication and permissions *)

Lemma substring_all (x : string) : String.substring 0 (String.length x) x = x.
Proof. induction x as [|a x IH]; simpl; [reflexivity | rewrite IH; reflexivity]. Qed.

Lemma bearer_header (tok : string) :
  min1 (String.append "Bearer " tok) = true /\
  String.prefix "Bearer " (String.append "Bearer " tok) = true /\
  String.substring 7 (String.length (String.append "Bearer " tok) - 7)
                   (String.append "Bearer " tok) = tok.
Proof.
  split; [reflexivity|]. split.
  - simpl. destruct tok; reflexivity.
  - simpl. rewrite Nat.sub_0_r. apply substring_all.
Qed.

(** X17. A header [Bearer <token>] hands exactly [<token>] to the
    verification, and a token that verifies for a stored, active user opens
    a session whose user, master account, permission and email are those of
    the token's payload, whatever the stored row says about them. *)
Theorem X17_bearer_session (verify : string -> string -> option JWTPayload.t)
    (process_env c_env : option string) (usuarios : gmap string Usuario.t)
    (tok secret : string) (d : JWTPayload.t) (u : Usuario.t) :
  jwt_secret process_env c_env = Some secret ->
  min1 secret = true ->
  verify tok secret = Some d ->
  usuarios !! JWTPayload.usuario_id d = Some u ->
  Usuario.activo u = true ->
  authenticateJWT verify process_env c_env (Some (String.append "Bearer " tok)) usuarios
  = inr (Sesion.mk (mkUser (JWTPayload.usuario_id d) (JWTPayload.cuenta_maestra_id d))
                   (JWTPayload.tipo_permiso d) (JWTPayload.email d)).
Proof.
  intros Hsec Hmin Hver Hu Hact. unfold authenticateJWT.
  destruct (bearer_header tok) as (H1 & H2 & H3).
  rewrite H1, H2, H3, Hsec, Hmin, Hver, Hu, Hact. reflexivity.
Qed.

Lemma authenticate_session verify process_env c_env h usuarios sesion :
  authenticateJWT verify process_env c_env h usuarios = inr sesion ->
  exists u, usuarios !! user_id (Sesion.user sesion) = Some u /\ Usuario.activo u = true.
Proof.
  unfold authenticateJWT. intros H.
  destruct h as [h|]; [|discriminate].
  destruct (negb (min1 h && _)); [discriminate|].
  destruct (jwt_secret _ _) as [secret|]; [|discriminate].
  destruct (negb (min1 secret)); [discriminate|].
  destruct (verify _ _) as [d|]; [|discriminate].
  destruct (usuarios !! JWTPayload.usuario_id d) as [u|] eqn:Hu; [|discriminate].
  destruct (Usuario.activo u) eqn:Ha; [|discriminate].
  injection H as <-. exists u. auto.
Qed.

(** X18. No session without a bearer header and a stored, active user: a
    request without an Authorization header, or whose header does not start
    with [Bearer ], is answered ERR_UNAUTHORIZED (401) before the token is
    looked at; and whenever a session is opened, its user has a stored row
    whose [activo] flag is set. *)
Theorem X18_sessions_are_active_users (verify : string -> string -> option JWTPayload.t)
    (process_env c_env : option string) (usuarios : gmap string Usuario.t)
    (h : option string) :
  ((forall x, h = Some x -> String.prefix "Bearer " x = false) ->
   authenticateJWT verify process_env c_env h usuarios
   = inl (json (makeError "ERR_UNAUTHORIZED" "Token de autorización requerido") 401)) /\
  (forall sesion,
   authenticateJWT verify process_env c_env h usuarios = inr sesion ->
   exists u, usuarios !! user_id (Sesion.user sesion) = Some u /\ Usuario.activo u = true).
Proof.
  split.
  - intros Hh. unfold authenticateJWT. destruct h as [x|]; [|reflexivity].
    rewrite (Hh x eq_refl), andb_false_r. reflexivity.
  - apply authenticate_session.
Qed.

Lemma serve_write_closed is_url sql_names verify process_env c_env usuarios h req s :
  (forall sesion, authenticateJWT verify process_env c_env h usuarios = inr sesion ->
                  Sesion.tipo_permiso sesion <> "escritura") ->
  fst (serve_write is_url sql_names verify process_env c_env usuarios h req s) = s /\
  (status (snd (serve_write is_url sql_names verify process_env c_env usuarios h req s)) = 401 \/
   status (snd (serve_write is_url sql_names verify process_env c_env usuarios h req s)) = 403).
Proof.
  intros Hclosed. unfold serve_write.
  destruct (authenticateJWT verify process_env c_env h usuarios) as [r|sesion] eqn:Hauth.
  - split; [reflexivity|]. left. unfold authenticateJWT in Hauth.
    repeat match type of Hauth with
           | match ?x with _ => _ end = _ => destruct x
           | (if ?x then _ else _) = _ => destruct x
           end; try discriminate Hauth; injection Hauth as <-; reflexivity.
  - unfold requireWritePermission.
    rewrite (bool_decide_eq_false_2 _ (Hclosed sesion eq_refl)). cbn [negb].
    split; [reflexivity | right; reflexivity].
Qed.

(** X16. The write routes are closed to everyone but writers.  A request to
    any of the nine write routes of transactions, accounts and categories
    that fails authentication, or whose session does not carry the
    permission ['escritura'], is answered 401 or 403 and never reaches its
    handler: any sequence of such requests leaves the store as it was. *)
Theorem X16_write_routes_closed (is_url : string -> bool) (sql_names : bool)
    (verify : string -> string -> option JWTPayload.t)
    (process_env c_env : option string) (usuarios : gmap string Usuario.t)
    (reqs : list (option string * WriteRequest)) (s : Store) :
  Forall (fun hr =>
            forall sesion,
              authenticateJWT verify process_env c_env (fst hr) usuarios = inr sesion ->
              Sesion.tipo_permiso sesion <> "escritura") reqs ->
  serve_all is_url sql_names verify process_env c_env usuarios reqs s = s /\
  Forall (fun hr =>
            forall s0,
              let r := snd (serve_write is_url sql_names verify process_env c_env usuarios
                                        (fst hr) (snd hr) s0) in
              status r = 401 \/ status r = 403) reqs.
Proof.
  intros Hall. split.
  - revert s. induction reqs as [|[h req] reqs IH]; intros s; [reflexivity|].
    inversion Hall as [|? ? Hhd Htl]; subst. unfold serve_all. cbn [fold_left].
    destruct (serve_write_closed is_url sql_names verify process_env c_env usuarios
                                 h req s Hhd) as [-> _].
    apply (IH Htl).
  - induction Hall as [|[h req] reqs Hhd Htl IH]; constructor; [|exact IH].
    intros s0. cbv zeta.
    apply (serve_write_closed is_url sql_names verify process_env c_env usuarios
                              h req s0 Hhd).
Qed.

(** X19. Removing or deactivating a user ends their sessions at once, and
    nobody removes themselves.  DELETE /usuarios on the caller's own
    identifier is answered ERR_FORBIDDEN (403) and changes nothing; after a
    DELETE that succeeded, or a PATCH with [activo: false] that succeeded, no
    header opens a session for that user, however valid the token. *)
Theorem X19_user_locked_out :
  (forall (user : User) (usuarios : gmap string Usuario.t),
     usuarios_delete user (user_id user) usuarios
     = (usuarios, json (makeError "ERR_FORBIDDEN" "No puedes eliminar tu propia cuenta") 403)) /\
  (forall (verify : string -> string -> option JWTPayload.t) (user : User) (x : string)
          (usuarios usuarios' : gmap string Usuario.t) (r : Response)
          (process_env c_env h : option string) (sesion : Sesion.t),
     usuarios_delete user x usuarios = (usuarios', r) ->
     is_success r ->
     authenticateJWT verify process_env c_env h usuarios' = inr sesion ->
     user_id (Sesion.user sesion) <> x) /\
  (forall (is_url : string -> bool) (sql_names : bool)
          (verify : string -> string -> option JWTPayload.t) (user : User) (x : string)
          (body : UsuarioUpdate.t) (env : Ambient)
          (usuarios usuarios' : gmap string Usuario.t) (r : Response)
          (process_env c_env h : option string) (sesion : Sesion.t),
     usuarios_patch is_url sql_names user x body env usuarios = (usuarios', r) ->
     is_success r ->
     UsuarioUpdate.activo body = Some false ->
     authenticateJWT verify process_env c_env h usuarios' = inr sesion ->
     user_id (Sesion.user sesion) <> x).
Proof.
  split; [|split].
  - intros user usuarios. unfold usuarios_delete.
    rewrite bool_decide_eq_true_2; reflexivity.
  - intros verify user x usuarios usuarios' r pe ce h sesion H [msg ->] Hauth Hx.
    unfold usuarios_delete in H. destruct (bool_decide (x = _)); [discriminate|].
    destruct (usuarios !! x) as [u|]; [|discriminate].
    destruct (bool_decide _); [|discriminate]. injection H as <-.
    destruct (authenticate_session _ _ _ _ _ _ Hauth) as (u' & Hu' & _).
    rewrite Hx, lookup_delete_eq in Hu'. discriminate.
  - intros is_url sql_names verify user x body env usuarios usuarios' r pe ce h sesion
           H [msg ->] Hact Hauth Hx.
    unfold usuarios_patch in H. destruct (negb _); [discriminate|].
    destruct (usuarios !! x) as [u|]; [|discriminate].
    destruct (bool_decide _); [|discriminate]. injection H as <-.
    destruct (authenticate_session _ _ _ _ _ _ Hauth) as (u' & Hu' & Ha').
    rewrite Hx, lookup_insert_eq in Hu'. injection Hu' as <-.
    unfold set_usuario in Ha'. cbn [Usuario.activo] in Ha'. rewrite Hact in Ha'.
    discriminate.
Qed.

(** ** The total of the summary report *)

Lemma fold_sum_insert_fresh {A} (w : A -> Z) (m : gmap string A) k x :
  m !! k = None ->
  map_fold (fun _ y acc => acc + w y) 0 (<[k := x]> m)
  = map_fold (fun _ y acc => acc + w y) 0 m + w x.
Proof.
  intros Hk. rewrite map_fold_insert_L; [reflexivity| |exact Hk]. intros. lia.
Qed.

Lemma fold_sum_update {A} (w : A -> Z) (m : gmap string A) k x x' :
  m !! k = Some x ->
  map_fold (fun _ y acc => acc + w y) 0 (<[k := x']> m)
  = map_fold (fun _ y acc => acc + w y) 0 m - w x + w x'.
Proof.
  intros Hk. rewrite <- insert_delete_eq.
  rewrite fold_sum_insert_fresh by apply lookup_delete_eq.
  rewrite (map_fold_delete_L (fun _ y acc => acc + w y) 0 k x m); [lia| |exact Hk].
  intros. lia.
Qed.

(** The sum of the report as a sum over the table, each account weighing
    its balance when it is an active account of the master account. *)
Lemma saldo_total_fold maestra s :
  saldo_total_cuentas maestra s
  = map_fold (fun _ c acc =>
                acc + (if bool_decide (Cuenta.cuentaMaestraId c = maestra) && Cuenta.activa c
                       then Cuenta.saldo c else 0))
             0 (cuentas s).
Proof.
  unfold saldo_total_cuentas, cuentas_activas. rewrite map_fold_foldr.
  induction (map_to_list (cuentas s)) as [|[i c] l IH]; [reflexivity|].
  cbn [List.filter foldr uncurry snd]. rewrite <- IH.
  destruct (bool_decide _ && _); cbn [foldr snd]; lia.
Qed.

(** X20. The reported total follows the ledger on create.  After a create
    that succeeded, the sum of the balances of the active accounts of the
    caller's master account ([saldo_total_cuentas] of the summary report) has
    moved by the signed amount of the new transaction, and the sum of every
    other master account is what it was.  The sums are exact ones: the
    statement is made where the store adds the balances without rounding,
    whole amounts whose total stays below 2^53 ([total_exacto]), as the new
    total does. *)
Theorem X20_report_follows_create (is_url : string -> bool) (user : User)
    (body : CreateBody.t) (env : Ambient) (s s' : Store) (r : Response) (maestra : string) :
  total_exacto maestra s (CreateBody.monto body) ->
  transacciones_post is_url user body env s = (s', r) ->
  is_success r ->
  saldo_total_cuentas maestra s'
  = saldo_total_cuentas maestra s
    + (if bool_decide (cuenta_maestra_id user = maestra)
       then signed (nueva_transaccion user body env) else 0) /\
  saldo_total_cuentas maestra s' < 2 ^ 53.
Proof.
  intros (_ & _ & Hlt) H Hr.
  assert (Hpos : 0 < CreateBody.monto body).
  { pose proof (post_success_schema _ _ _ _ _ _ _ H Hr) as Hschema.
    unfold createTransaccionSchema in Hschema.
    repeat (apply andb_true_iff in Hschema as [Hschema _]).
    apply Z.ltb_lt in Hschema. exact Hschema. }
  destruct (post_success _ _ _ _ _ _ _ H Hr) as (k & c & _ & _ & Hc & _ & _ & ->).
  apply find_cuenta_Some in Hc as (Hc & Hm & Ha).
  assert (He : saldo_total_cuentas maestra
                 (mkStore (categorias s)
                    (<[CreateBody.cuenta_id body :=
                         with_saldo c (aplicar (CreateBody.tipo body) (Cuenta.saldo c)
                                               (CreateBody.monto body))
                                    (toISOString env)]> (cuentas s))
                    (<[nanoid env := nueva_transaccion user body env]> (transacciones s)))
               = saldo_total_cuentas maestra s
                 + (if bool_decide (cuenta_maestra_id user = maestra)
                    then signed (nueva_transaccion user body env) else 0)).
  { rewrite !saldo_total_fold. cbn [cuentas].
    rewrite (fold_sum_update _ _ _ c _ Hc).
    unfold with_saldo. cbn [Cuenta.cuentaMaestraId Cuenta.activa Cuenta.saldo].
    rewrite Ha, Hm, !andb_true_r.
    unfold signed, aplicar. cbn [nueva_transaccion Transaccion.tipo Transaccion.monto].
    destruct (bool_decide (cuenta_maestra_id user = maestra)), (CreateBody.tipo body);
      cbn [andb]; lia. }
  split; [exact He|]. rewrite He.
  unfold signed. cbn [nueva_transaccion Transaccion.tipo Transaccion.monto].
  destruct (bool_decide (cuenta_maestra_id user = maestra)), (CreateBody.tipo body); lia.
Qed.

(** ** References *)

Lemma referencias_static s s' t :
  accounts_static s s' ->
  is_Some (categorias s !! Transaccion.categoriaId t) /\
  is_Some (cuentas s !! Transaccion.cuentaId t) ->
  is_Some (categorias s' !! Transaccion.categoriaId t) /\
  is_Some (cuentas s' !! Transaccion.cuentaId t).
Proof.
  intros [Hk Hc] [H1 H2]. rewrite Hk. split; [exact H1|].
  specialize (Hc (Transaccion.cuentaId t)). destruct H2 as [c H2]. rewrite H2 in Hc.
  destruct (cuentas s' !! Transaccion.cuentaId t); [eauto | contradiction].
Qed.

Lemma spread_categoriaId sql_names v now d :
  set_str (column_value sql_names (spread v now) "categoriaId" "categoria_id") d
  = if sql_names then default d (UpdateBody.categoria_id v) else d.
Proof.
  destruct v as [[k|] [n|] [ci|] [cu|] [f|] [no|] [fo|]]; destruct sql_names; reflexivity.
Qed.

Lemma schema_categoria_id is_url v x :
  updateTransaccionSchema is_url v = true -> UpdateBody.categoria_id v = Some x ->
  min1 x = true.
Proof.
  unfold updateTransaccionSchema. intros H Hx. rewrite Hx in H. simpl in H.
  repeat (apply andb_true_iff in H as [H ?]). assumption.
Qed.

(** The row that PATCH writes points to rows that exist: to those of the
    stored row, or to those the handler has looked up for the request. *)
Lemma patch_row_refs is_url sql_names s user old body now :
  updateTransaccionSchema is_url body = true ->
  validar_categoria s user old body = None ->
  validar_cuenta s user body = None ->
  is_Some (categorias s !! Transaccion.categoriaId old) /\
  is_Some (cuentas s !! Transaccion.cuentaId old) ->
  is_Some (categorias s !! Transaccion.categoriaId
                             (set_transaccion sql_names (spread body now) old)) /\
  is_Some (cuentas s !! Transaccion.cuentaId
                          (set_transaccion sql_names (spread body now) old)).
Proof.
  intros Hschema Hvk Hvc [H1 H2]. unfold set_transaccion.
  cbn [Transaccion.categoriaId Transaccion.cuentaId].
  rewrite spread_categoriaId, spread_cuentaId.
  destruct sql_names; [|split; assumption]. split.
  - destruct (UpdateBody.categoria_id body) as [x|] eqn:Hx; [|exact H1]. cbn [default].
    pose proof (schema_categoria_id _ _ _ Hschema Hx) as Hmin.
    unfold validar_categoria in Hvk. rewrite Hx, Hmin in Hvk.
    destruct (find_categoria s x (cuenta_maestra_id user)) as [k|] eqn:Hf; [|discriminate].
    apply find_categoria_Some in Hf as (Hf & _). eauto.
  - destruct (UpdateBody.cuenta_id body) as [x|] eqn:Hx; [|exact H2]. cbn [default].
    destruct (validar_cuenta_found _ _ _ _ _ Hschema Hvc Hx) as (c & Hf).
    apply find_cuenta_Some in Hf as (Hf & _). eauto.
Qed.

(** The transaction routes keep the references. *)
Lemma handle_referencias is_url sql_names op s :
  referencias s -> referencias (fst (handle is_url sql_names op s)).
Proof.
  intros Href id t Ht.
  apply (referencias_static s _ t (handle_static is_url sql_names op s)).
  destruct op as [user body env|user tid body env|user tid env]; cbn [handle] in Ht.
  - destruct (transacciones_post is_url user body env s) as [s' r] eqn:H. cbn [fst] in Ht.
    destruct (is_success_dec r) as [Hr|Hr].
    2:{ rewrite (post_fails_closed _ _ _ _ _ _ _ H Hr) in Ht. apply (Href id t Ht). }
    destruct (post_success _ _ _ _ _ _ _ H Hr) as (k & c & Hk & _ & Hc & _ & _ & ->).
    cbn [transacciones] in Ht. destruct (decide (nanoid env = id)) as [<-|Hne].
    + rewrite lookup_insert_eq in Ht. injection Ht as <-.
      cbn [nueva_transaccion Transaccion.categoriaId Transaccion.cuentaId].
      apply find_categoria_Some in Hk as (Hk & _). apply find_cuenta_Some in Hc as (Hc & _).
      split; eauto.
    + rewrite lookup_insert_ne in Ht by exact Hne. apply (Href id t Ht).
  - destruct (transacciones_patch is_url sql_names user tid body env s) as [s' r] eqn:H.
    cbn [fst] in Ht. destruct (is_success_dec r) as [Hr|Hr].
    2:{ rewrite (patch_fails_closed _ _ _ _ _ _ _ _ _ H Hr) in Ht. apply (Href id t Ht). }
    destruct (patch_success_full _ _ _ _ _ _ _ _ _ H Hr)
      as (Hschema & old & Hold & Hvk & Hvc & _).
    destruct (patch_effect _ _ _ _ _ _ _ _ _ H Hr) as (old' & Hold' & _ & _ & Hrows & _).
    assert (old' = old) as -> by congruence.
    rewrite Hrows in Ht. destruct (decide (tid = id)) as [<-|Hne].
    + rewrite lookup_insert_eq in Ht. injection Ht as <-.
      apply find_transaccion_Some in Hold as (Hrow & _).
      apply (patch_row_refs is_url sql_names s user old body _ Hschema Hvk Hvc).
      apply (Href tid old Hrow).
    + rewrite lookup_insert_ne in Ht by exact Hne. apply (Href id t Ht).
  - destruct (transacciones_delete user tid env s) as [s' r] eqn:H. cbn [fst] in Ht.
    destruct (is_success_dec r) as [Hr|Hr].
    2:{ rewrite (delete_fails_closed _ _ _ _ _ _ H Hr) in Ht. apply (Href id t Ht). }
    destruct (delete_success_rows _ _ _ _ _ _ H Hr) as (t0 & _ & Hrows).
    rewrite Hrows in Ht. apply lookup_delete_Some in Ht as [_ Ht]. apply (Href id t Ht).
Qed.

(** So does every write route: the routes of accounts and categories add
    and rewrite rows, and remove only rows that nothing points to. *)
Lemma write_handler_referencias is_url sql_names req user s :
  referencias s -> referencias (fst (write_handler is_url sql_names req user s)).
Proof.
  intros Href.
  destruct req as [body env|id body env|id env|body env|id body env|id|body env|id body|id];
    cbn [write_handler].
  - apply (handle_referencias is_url sql_names (Create user body env) s Href).
  - apply (handle_referencias is_url sql_names (Update user id body env) s Href).
  - apply (handle_referencias is_url sql_names (Delete user id env) s Href).
  - unfold cuentas_post. destruct (negb _); [exact Href|].
    destruct (existe_nombre _ _ _); [exact Href|].
    destruct (cuentas s !! nanoid env) as [c0|]; [exact Href|].
    destruct (_ <? 0); [exact Href|]. cbn [fst]. intros i t Ht. cbn [transacciones] in Ht.
    destruct (Href i t Ht) as [H1 H2]. split; [exact H1|]. cbn [cuentas].
    apply lookup_insert_is_Some'. right. exact H2.
  - unfold cuentas_patch. destruct (negb _); [exact Href|].
    destruct (cuentas s !! id) as [c0|]; [|exact Href].
    destruct (bool_decide _); [|exact Href].
    destruct (_ && _); [exact Href|].
    destruct (_ <? 0); [exact Href|]. cbn [fst]. intros i t Ht. cbn [transacciones] in Ht.
    destruct (Href i t Ht) as [H1 H2]. split; [exact H1|]. cbn [cuentas].
    apply lookup_insert_is_Some'. right. exact H2.
  - unfold cuentas_delete. destruct (cuentas s !! id) as [c0|]; [|exact Href].
    destruct (bool_decide _); [|exact Href].
    destruct (cuenta_referida s id) eqn:Hno; [exact Href|]. cbn [fst].
    intros i t Ht. cbn [transacciones] in Ht.
    destruct (Href i t Ht) as [H1 H2]. split; [exact H1|]. cbn [cuentas].
    rewrite lookup_delete_ne; [exact H2|].
    intros Heq. apply (proj1 (cuenta_referida_false s id) Hno i t Ht). symmetry. exact Heq.
  - unfold categorias_post. destruct (negb _); [exact Href|].
    destruct (existe_categoria _ _ _ _); [exact Href|].
    destruct (categorias s !! nanoid env) as [k0|]; [exact Href|]. cbn [fst].
    intros i t Ht. cbn [transacciones] in Ht.
    destruct (Href i t Ht) as [H1 H2]. split; [|exact H2]. cbn [categorias].
    apply lookup_insert_is_Some'. right. exact H1.
  - unfold categorias_patch. destruct (negb _); [exact Href|].
    destruct (categorias s !! id) as [k0|]; [|exact Href].
    destruct (bool_decide _); [|exact Href].
    destruct (_ && _); [exact Href|]. cbn [fst].
    intros i t Ht. cbn [transacciones] in Ht.
    destruct (Href i t Ht) as [H1 H2]. split; [|exact H2]. cbn [categorias].
    apply lookup_insert_is_Some'. right. exact H1.
  - unfold categorias_delete. destruct (categorias s !! id) as [k0|]; [|exact Href].
    destruct (bool_decide _); [|exact Href].
    destruct (categoria_referida s id) eqn:Hno; [exact Href|]. cbn [fst].
    intros i t Ht. cbn [transacciones] in Ht.
    destruct (Href i t Ht) as [H1 H2]. split; [|exact H2]. cbn [categorias].
    rewrite lookup_delete_ne; [exact H1|].
    intros Heq. apply (proj1 (categoria_referida_false s id) Hno i t Ht). symmetry. exact Heq.
Qed.

Lemma serve_all_referencias is_url sql_names verify process_env c_env usuarios reqs s :
  referencias s ->
  referencias (serve_all is_url sql_names verify process_env c_env usuarios reqs s).
Proof.
  revert s. induction reqs as [|[h req] reqs IH]; intros s Href; [exact Href|].
  change (serve_all is_url sql_names verify process_env c_env usuarios ((h, req) :: reqs) s)
    with (serve_all is_url sql_names verify process_env c_env usuarios reqs
            (fst (serve_write is_url sql_names verify process_env c_env usuarios h req s))).
  apply IH. unfold serve_write.
  destruct (authenticateJWT verify process_env c_env h usuarios) as [r|sesion]; [exact Href|].
  unfold requireWritePermission. destruct (negb _); [exact Href|].
  apply write_handler_referencias. exact Href.
Qed.

(** X22. No transaction is left pointing nowhere, and none is hidden from
    its owner.  From a store in which every transaction points to a stored
    category and to a stored account, every sequence of requests to the
    nine write routes, whoever sends them, leads to such a store; and there
    GET /transacciones/:id, whose query joins the row with its category and
    its account, answers with the joined rows for every stored transaction
    of the caller's master account. *)
Theorem X22_references_kept (is_url : string -> bool) (sql_names : bool)
    (verify : string -> string -> option JWTPayload.t) (process_env c_env : option string)
    (usuarios : gmap string Usuario.t) (reqs : list (option string * WriteRequest))
    (s : Store) :
  referencias s ->
  let s' := serve_all is_url sql_names verify process_env c_env usuarios reqs s in
  referencias s' /\
  forall user id t,
    find_transaccion s' id (cuenta_maestra_id user) = Some t ->
    exists k c,
      transacciones_get user id s'
      = (ok "Transacción obtenida correctamente", Some (t, k, c)).
Proof.
  intros Href. cbv zeta.
  pose proof (serve_all_referencias is_url sql_names verify process_env c_env usuarios
                reqs s Href) as Href'.
  split; [exact Href'|]. intros user id t Ht.
  pose proof Ht as Hrow. apply find_transaccion_Some in Hrow as (Hrow & _).
  destruct (Href' id t Hrow) as [[k Hk] [c Hc]].
  exists k, c. unfold transacciones_get. rewrite Ht, Hk, Hc. reflexivity.
Qed.

(** ** The store's refusals, and the catalogue routes *)

(** X23. DELETE of a transaction whose reversal would leave its account
    with a negative balance writes nothing: the store refuses the balance,
    the unit is rolled back, and the answer is ERR_INTERNAL (500) with the
    row and the balance as they were. *)
Theorem X23_delete_refused (user : User) (id : string) (env : Ambient) (s : Store)
    (t : Transaccion.t) (c : Cuenta.t) :
  find_transaccion s id (cuenta_maestra_id user) = Some t ->
  cuentas s !! Transaccion.cuentaId t = Some c ->
  Cuenta.saldo c - signed t < 0 ->
  transacciones_delete user id env s
  = (s, json (makeError "ERR_INTERNAL" "Error al eliminar transacción") 500).
Proof.
  intros Ht Hc Hn. apply (delete_refused user id env s t c Ht Hc).
  rewrite revertir_signed. exact Hn.
Qed.

(** X24. An income that has been spent from cannot be edited.  When the
    account of a stored income holds less than the income's amount, every
    well-formed update of that transaction that supplies an amount, a kind or
    an account is answered ERR_INTERNAL (500) and changes nothing, whatever it
    asks for: taking the income back is the first write of the unit and the
    store refuses it. *)
Theorem X24_spent_income_update_refused (is_url : string -> bool) (sql_names : bool)
    (user : User) (id : string) (body : UpdateBody.t) (env : Ambient) (s : Store)
    (old : Transaccion.t) (c : Cuenta.t) :
  updateTransaccionSchema is_url body = true ->
  find_transaccion s id (cuenta_maestra_id user) = Some old ->
  validar_categoria s user old body = None ->
  validar_cuenta s user body = None ->
  toca_saldo body = true ->
  Transaccion.tipo old = ingreso ->
  cuentas s !! Transaccion.cuentaId old = Some c ->
  Cuenta.saldo c < Transaccion.monto old ->
  transacciones_patch is_url sql_names user id body env s
  = (s, json (makeError "ERR_INTERNAL" "Error al actualizar transacción") 500).
Proof.
  intros Hschema Hold Hcat Hcu Htoca Hk Hc Hlt.
  unfold transacciones_patch. rewrite Hschema, Hold, Hcat, Hcu. cbn [negb].
  unfold db_transaction, patch_unit. rewrite Htoca.
  unfold tx_bind at 1 2.
  assert (Hrev : revertir_anterior old (toISOString env) s
                 = inl (ConstraintFailed "saldo_positivo")).
  { unfold revertir_anterior, tx_bind, select_cuenta, tx_read. rewrite Hc, Hk.
    cbn [revertir]. apply (update_saldo_refused _ _ _ _ c Hc). lia. }
  rewrite Hrev. reflexivity.
Qed.

Lemma lookup_insert_foreign {A} (P : A -> Prop) (m : gmap string A) k x id y :
  (forall z, m !! k = Some z -> P z) -> P x -> ~ P y ->
  (m !! id = Some y <-> <[k := x]> m !! id = Some y).
Proof.
  intros Hold Hnew Hy. destruct (decide (k = id)) as [<-|Hne].
  - rewrite lookup_insert_eq. split.
    + intros Hz. exfalso. apply Hy. apply (Hold y Hz).
    + intros [= <-]. contradiction.
  - rewrite lookup_insert_ne by exact Hne. reflexivity.
Qed.

Lemma lookup_delete_foreign {A} (P : A -> Prop) (m : gmap string A) k id y :
  (forall z, m !! k = Some z -> P z) -> ~ P y ->
  (m !! id = Some y <-> delete k m !! id = Some y).
Proof.
  intros Hold Hy. destruct (decide (k = id)) as [<-|Hne].
  - rewrite lookup_delete_eq. split; [|discriminate].
    intros Hz. exfalso. apply Hy. apply (Hold y Hz).
  - rewrite lookup_delete_ne by exact Hne. reflexivity.
Qed.

(** X25. The routes of accounts and categories stay within the caller's
    master account.  Whatever POST, PATCH or DELETE of an account or of a
    category a caller of the master account [m] makes, every account row and
    every category row of another master account is exactly as it was, none
    is added, and no transaction is touched. *)
Theorem X25_catalog_isolated (is_url : string -> bool) (sql_names : bool)
    (req : WriteRequest) (user : User) (s : Store) :
  is_catalog req ->
  let s' := fst (write_handler is_url sql_names req user s) in
  transacciones s' = transacciones s /\
  (forall id c, Cuenta.cuentaMaestraId c <> cuenta_maestra_id user ->
     (cuentas s !! id = Some c <-> cuentas s' !! id = Some c)) /\
  (forall id k, Categoria.cuentaMaestraId k <> cuenta_maestra_id user ->
     (categorias s !! id = Some k <-> categorias s' !! id = Some k)).
Proof.
  intros Hreq. cbv zeta.
  assert (Hsame : forall s0, s0 = s ->
    transacciones s0 = transacciones s /\
    (forall id c, Cuenta.cuentaMaestraId c <> cuenta_maestra_id user ->
       (cuentas s !! id = Some c <-> cuentas s0 !! id = Some c)) /\
    (forall id k, Categoria.cuentaMaestraId k <> cuenta_maestra_id user ->
       (categorias s !! id = Some k <-> categorias s0 !! id = Some k))).
  { intros s0 ->. repeat split; auto. }
  destruct req as [| | |body env|id body env|id|body env|id body|id];
    try contradiction; cbn [write_handler].
  - unfold cuentas_post. destruct (negb _); [apply Hsame; reflexivity|].
    destruct (existe_nombre _ _ _); [apply Hsame; reflexivity|].
    destruct (cuentas s !! nanoid env) eqn:Hfresh; [apply Hsame; reflexivity|].
    destruct (_ <? 0); [apply Hsame; reflexivity|]. cbn [fst cuentas categorias transacciones].
    split; [reflexivity|]. split; [|reflexivity]. intros id c Hne.
    apply (lookup_insert_foreign
             (fun c => Cuenta.cuentaMaestraId c = cuenta_maestra_id user)); auto.
    intros z Hz. congruence.
  - unfold cuentas_patch. destruct (negb _); [apply Hsame; reflexivity|].
    destruct (cuentas s !! id) as [c0|] eqn:Hc0; [|apply Hsame; reflexivity].
    destruct (bool_decide _) eqn:Hm; [|apply Hsame; reflexivity].
    apply bool_decide_eq_true in Hm.
    destruct (_ && _); [apply Hsame; reflexivity|].
    destruct (_ <? 0); [apply Hsame; reflexivity|]. cbn [fst cuentas categorias transacciones].
    split; [reflexivity|]. split; [|reflexivity]. intros id' c Hne.
    apply (lookup_insert_foreign
             (fun c => Cuenta.cuentaMaestraId c = cuenta_maestra_id user)); auto.
    intros z Hz. congruence.
  - unfold cuentas_delete.
    destruct (cuentas s !! id) as [c0|] eqn:Hc0; [|apply Hsame; reflexivity].
    destruct (bool_decide _) eqn:Hm; [|apply Hsame; reflexivity].
    destruct (cuenta_referida s id); [apply Hsame; reflexivity|].
    apply bool_decide_eq_true in Hm. cbn [fst cuentas categorias transacciones].
    split; [reflexivity|]. split; [|reflexivity]. intros id' c Hne.
    apply (lookup_delete_foreign
             (fun c => Cuenta.cuentaMaestraId c = cuenta_maestra_id user)); auto.
    intros z Hz. congruence.
  - unfold categorias_post. destruct (negb _); [apply Hsame; reflexivity|].
    destruct (existe_categoria _ _ _ _); [apply Hsame; reflexivity|].
    destruct (categorias s !! nanoid env) eqn:Hfresh; [apply Hsame; reflexivity|].
    cbn [fst cuentas categorias transacciones].
    split; [reflexivity|]. split; [reflexivity|]. intros id k Hne.
    apply (lookup_insert_foreign
             (fun k => Categoria.cuentaMaestraId k = cuenta_maestra_id user)); auto.
    intros z Hz. congruence.
  - unfold categorias_patch. destruct (negb _); [apply Hsame; reflexivity|].
    destruct (categorias s !! id) as [k0|] eqn:Hk0; [|apply Hsame; reflexivity].
    destruct (bool_decide _) eqn:Hm; [|apply Hsame; reflexivity].
    apply bool_decide_eq_true in Hm.
    destruct (_ && _); [apply Hsame; reflexivity|]. cbn [fst cuentas categorias transacciones].
    split; [reflexivity|]. split; [reflexivity|]. intros id' k Hne.
    apply (lookup_insert_foreign
             (fun k => Categoria.cuentaMaestraId k = cuenta_maestra_id user)); auto.
    intros z Hz. congruence.
  - unfold categorias_delete.
    destruct (categorias s !! id) as [k0|] eqn:Hk0; [|apply Hsame; reflexivity].
    destruct (bool_decide _) eqn:Hm; [|apply Hsame; reflexivity].
    destruct (categoria_referida s id); [apply Hsame; reflexivity|].
    apply bool_decide_eq_true in Hm. cbn [fst cuentas categorias transacciones].
    split; [reflexivity|]. split; [reflexivity|]. intros id' k Hne.
    apply (lookup_delete_foreign
             (fun k => Categoria.cuentaMaestraId k = cuenta_maestra_id user)); auto.
    intros z Hz. congruence.
Qed.

(** ** The further properties at concrete inputs *)

Lemma X1_witness :
  fst (handle Ex.is_url false (Create Ex.u (Ex.expense 8000 "A") (Ex.env "t2")) Ex.s_30)
  = Ex.s_30.
Proof.
  apply X1_ledger_fails_closed. vm_compute. intros [m Hm]. discriminate Hm.
Defined.

Lemma X2_witness :
  checks_hold Ex2.s_two /\ checks_hold (run Ex.is_url false Ex2.ops_m1 Ex2.s_two).
Proof.
  assert (H : checks_hold Ex2.s_two).
  { split.
    - intros id c Hc. apply Z.leb_le. revert id c Hc.
      apply (map_forallb_check (fun c => 0 <=? Cuenta.saldo c)). vm_compute. reflexivity.
    - intros id t Ht. apply Z.ltb_lt. revert id t Ht.
      apply (map_forallb_check (fun t => 0 <? Transaccion.monto t)). vm_compute. reflexivity. }
  split; [exact H|]. apply X2_checks_kept. exact H.
Defined.

Lemma X4_witness :
  balance Ex2.s_two "X" = Some 4000 /\
  isolated "m1" Ex2.s_two (run Ex.is_url true Ex2.ops_m1 Ex2.s_two) /\
  same_tenant_refs (run Ex.is_url true Ex2.ops_m1 Ex2.s_two).
Proof.
  split; [reflexivity|].
  apply X4_tenants_isolated.
  - repeat constructor.
  - intros id t c Ht. vm_compute in Ht. discriminate Ht.
Defined.

Lemma X5_witness :
  transacciones_delete Ex2.u2 "t1" (Ex.env "d1") Ex.s_30
  = (Ex.s_30, json (makeError "ERR_NOT_FOUND" "Transacción no encontrada") 404).
Proof.
  refine (proj1 (X5_foreign_transaction_not_found Ex.is_url false Ex2.u2 "t1" Ex.no_change
                                                  (Ex.env "d1") Ex.s_30 _)).
  intros t Ht. vm_compute in Ht. injection Ht as <-. discriminate.
Defined.

Lemma X6_witness :
  balance Ex.s_30 "A" = Some 7000 /\
  (exists s',
     transacciones_patch Ex.is_url false Ex.u "t1" (Ex2.amount 10000) (Ex.env "p1") Ex.s_30
     = (s', ok "Transacción actualizada correctamente") /\
     balance s' "A" = Some 0 /\
     Transaccion.monto <$> transacciones s' !! "t1" = Some 10000) /\
  transacciones_patch Ex.is_url false Ex.u "t1" (Ex2.amount 10001) (Ex.env "p1") Ex.s_30
  = (Ex.s_30, json (makeError "ERR_VALIDATION" "Saldo insuficiente en la cuenta") 400).
Proof.
  split; [reflexivity|]. split.
  - edestruct (X6_update_amount_of_expense Ex.is_url false Ex.u "t1" (Ex2.amount 10000)
                 (Ex.env "p1") Ex.s_30 Ex.t1) as [H _].
    + reflexivity.
    + reflexivity.
    + reflexivity.
    + reflexivity.
    + reflexivity.
    + reflexivity.
    + reflexivity.
    + vm_compute. discriminate.
    + vm_compute. reflexivity.
    + vm_compute. discriminate.
    + apply H. vm_compute. discriminate.
  - edestruct (X6_update_amount_of_expense Ex.is_url false Ex.u "t1" (Ex2.amount 10001)
                 (Ex.env "p1") Ex.s_30 Ex.t1) as [_ H].
    + reflexivity.
    + reflexivity.
    + reflexivity.
    + reflexivity.
    + reflexivity.
    + reflexivity.
    + reflexivity.
    + vm_compute. discriminate.
    + vm_compute. reflexivity.
    + vm_compute. discriminate.
    + apply H. vm_compute. reflexivity.
Defined.

Lemma X7_witness :
  transacciones_delete Ex.u "t1" (Ex.env "d2")
    (fst (transacciones_delete Ex.u "t1" (Ex.env "d1") Ex.s_30))
  = (fst (transacciones_delete Ex.u "t1" (Ex.env "d1") Ex.s_30),
     json (makeError "ERR_NOT_FOUND" "Transacción no encontrada") 404).
Proof.
  apply (X7_delete_twice Ex.u "t1" (Ex.env "d1") (Ex.env "d2") Ex.s_30 _
                         (ok "Transacción eliminada correctamente")).
  - reflexivity.
  - eexists. reflexivity.
Defined.

Lemma X8_witness :
  exists t categoria cuenta,
    transacciones Ex.s_30 !! "t1" = Some t /\
    Transaccion.cuentaMaestraId t = "m1" /\
    Transaccion.usuarioId t = "u1" /\
    0 < Transaccion.monto t /\
    categorias Ex.s_30 !! Transaccion.categoriaId t = Some categoria /\
    Categoria.tipo categoria = Transaccion.tipo t /\
    Categoria.activa categoria = true /\
    Categoria.cuentaMaestraId categoria = "m1" /\
    cuentas Ex.s_30 !! Transaccion.cuentaId t = Some cuenta /\
    Cuenta.activa cuenta = true /\
    Cuenta.cuentaMaestraId cuenta = "m1".
Proof.
  apply (X8_created_row Ex.is_url Ex.u (Ex.expense 3000 "A") (Ex.env "t1") Ex.s_A Ex.s_30
                        (ok "Transacción creada correctamente")).
  - reflexivity.
  - eexists. reflexivity.
Defined.

Lemma X9_witness :
  ~ is_success (snd (transacciones_post Ex.is_url Ex.u (Ex.income 5000 "A") (Ex.env "t1")
                                        Ex.s_30)) /\
  fst (transacciones_post Ex.is_url Ex.u (Ex.income 5000 "A") (Ex.env "t1") Ex.s_30) = Ex.s_30.
Proof.
  apply (X9_create_never_overwrites Ex.is_url Ex.u (Ex.income 5000 "A") (Ex.env "t1")
                                    Ex.s_30 Ex.t1).
  reflexivity.
Defined.

Lemma X10_witness :
  nombres_unicos Ex.s_A /\
  cuentas_post Ex.u (CuentaBody.mk "Cash" None None None None) (Ex.env "A2") Ex.s_A
  = (Ex.s_A, json (makeError "ERR_CONFLICT" "Ya existe una cuenta con este nombre") 409).
Proof.
  assert (H0 : nombres_unicos Ex.s0).
  { intros id1 id2 c1 c2 H1. vm_compute in H1. discriminate H1. }
  pose proof (X10_account_names_unique Ex.u (CuentaBody.mk "Cash" (Some 10000) None None None)
                                       (Ex.env "A") Ex.s0 H0) as [Huniq _].
  split; [exact Huniq|].
  destruct (X10_account_names_unique Ex.u (CuentaBody.mk "Cash" None None None None)
                                     (Ex.env "A2") Ex.s_A Huniq) as [_ H].
  apply H; [reflexivity|]. eexists "A", _. split; [vm_compute; reflexivity|].
  split; reflexivity.
Defined.

Lemma X11_witness :
  contributions Ex.s_30 "A" = -3000 /\
  balance (fst (cuentas_patch Ex.u "A" (Ex2.set_saldo 5000) (Ex.env "p1") Ex.s_30)) "A"
  = Some 5000 /\
  opening (fst (cuentas_patch Ex.u "A" (Ex2.set_saldo 5000) (Ex.env "p1") Ex.s_30)) "A"
  = Some 8000.
Proof.
  split; [reflexivity|].
  destruct (X11_balance_edit Ex.u "A" (Ex2.set_saldo 5000) (Ex.env "p1") Ex.s_30
              (fst (cuentas_patch Ex.u "A" (Ex2.set_saldo 5000) (Ex.env "p1") Ex.s_30))
              (ok "Cuenta actualizada correctamente") 5000)
    as (Hb & _ & _ & _ & _ & Ho).
  - reflexivity.
  - eexists. reflexivity.
  - reflexivity.
  - split; [exact Hb | exact Ho].
Defined.

Lemma X12_witness :
  Cuenta.nombre <$> cuentas Ex.s_AB !! "A" = Some "Cash" /\
  cuentas_patch Ex.u "A" (Ex2.rename "Cash") (Ex.env "p1") Ex.s_AB
  = (Ex.s_AB, json (makeError "ERR_CONFLICT" "Ya existe una cuenta con este nombre") 409) /\
  exists s',
    cuentas_patch Ex.u "B" (Ex2.rename "Cash") (Ex.env "p1") Ex.s_AB
    = (s', ok "Cuenta actualizada correctamente") /\
    Cuenta.nombre <$> cuentas s' !! "B" = Some "Cash" /\
    (forall a, a <> "B" -> cuentas s' !! a = cuentas Ex.s_AB !! a).
Proof.
  split; [reflexivity|]. split.
  - edestruct (X12_rename_account Ex.u "A" (Ex2.rename "Cash") (Ex.env "p1") Ex.s_AB)
      as [H _].
    + reflexivity.
    + reflexivity.
    + vm_compute. reflexivity.
    + reflexivity.
    + vm_compute. discriminate.
    + apply H. reflexivity.
  - edestruct (X12_rename_account Ex.u "B" (Ex2.rename "Cash") (Ex.env "p1") Ex.s_AB)
      as [_ H].
    + reflexivity.
    + reflexivity.
    + vm_compute. reflexivity.
    + reflexivity.
    + vm_compute. discriminate.
    + apply H. vm_compute. discriminate.
Defined.

Lemma X13_witness :
  cuentas_delete Ex.u "A" Ex.s_AB
  = (Ex.s_AB, json (makeError "ERR_INTERNAL" "Error al eliminar cuenta") 500) /\
  cuentas_delete Ex.u "B" Ex.s_AB
  = (mkStore (categorias Ex.s_AB) (delete "B" (cuentas Ex.s_AB)) (transacciones Ex.s_AB),
     ok "Cuenta eliminada correctamente").
Proof.
  split.
  - edestruct (X13_account_deleted Ex.is_url Ex.u "A" Ex.s_AB) as [H _].
    + vm_compute. reflexivity.
    + reflexivity.
    + apply H. exists "t1", Ex.t1. split; reflexivity.
  - edestruct (X13_account_deleted Ex.is_url Ex.u "B" Ex.s_AB) as [_ H].
    + vm_compute. reflexivity.
    + reflexivity.
    + refine (proj1 (H _)). intros id t Ht.
      refine (proj1 (bool_decide_eq_false _) _). apply negb_true_iff. revert id t Ht.
      apply (map_forallb_check
               (fun t => negb (bool_decide (Transaccion.cuentaId t = "B")))).
      vm_compute. reflexivity.
Defined.

Lemma X14_witness :
  categorias_unicas Ex.s0 /\
  categorias_unicas (fst (categorias_post Ex.u (CategoriaBody.mk "Rent" gasto None None)
                                          (Ex.env "rent") Ex.s0)) /\
  categorias_post Ex.u (CategoriaBody.mk "Food" gasto None None) (Ex.env "food2") Ex.s0
  = (Ex.s0, json (makeError "ERR_CONFLICT"
                    "Ya existe una categoría con este nombre y tipo") 409).
Proof.
  assert (H0 : categorias_unicas Ex2.empty).
  { intros id1 id2 c1 c2 H1. vm_compute in H1. discriminate H1. }
  pose proof (X14_category_names_unique Ex.u (CategoriaBody.mk "Salary" ingreso None None)
                (Ex.env "salary") Ex2.empty H0) as [H1 _].
  pose proof (X14_category_names_unique Ex.u (CategoriaBody.mk "Food" gasto None None)
                (Ex.env "food") _ H1) as [H2 _].
  change (categorias_unicas Ex.s0) in H2.
  split; [exact H2|].
  destruct (X14_category_names_unique Ex.u (CategoriaBody.mk "Rent" gasto None None)
              (Ex.env "rent") Ex.s0 H2) as [H3 _].
  split; [exact H3|].
  destruct (X14_category_names_unique Ex.u (CategoriaBody.mk "Food" gasto None None)
              (Ex.env "food2") Ex.s0 H2) as [_ H4].
  apply H4; [reflexivity|]. exists "food", Ex.food. split; [vm_compute; reflexivity|].
  repeat split; reflexivity.
Defined.

Lemma X15_witness :
  transacciones_post Ex.is_url Ex.u (Ex.expense 1000 "A") (Ex.env "t5")
    (fst (categorias_patch Ex.u "food" Ex2.retire Ex.s_30))
  = (fst (categorias_patch Ex.u "food" Ex2.retire Ex.s_30),
     json (makeError "ERR_NOT_FOUND" "Categoría no encontrada o inactiva") 404) /\
  categorias_delete Ex.u "food" Ex.s_30
  = (Ex.s_30, json (makeError "ERR_INTERNAL" "Error al eliminar categoría") 500) /\
  snd (categorias_delete Ex.u "salary" Ex.s_30) = ok "Categoría eliminada correctamente" /\
  transacciones_post Ex.is_url Ex.u (Ex.income 1000 "A") (Ex.env "t5")
    (fst (categorias_delete Ex.u "salary" Ex.s_30))
  = (fst (categorias_delete Ex.u "salary" Ex.s_30),
     json (makeError "ERR_NOT_FOUND" "Categoría no encontrada o inactiva") 404).
Proof.
  destruct X15_category_retired as [H1 H2]. split; [|split].
  - apply (H1 Ex.is_url Ex.u "food" Ex2.retire Ex.s_30 _
              (ok "Categoría actualizada correctamente") (Ex.expense 1000 "A") (Ex.env "t5")).
    + reflexivity.
    + eexists. reflexivity.
    + reflexivity.
    + reflexivity.
    + reflexivity.
  - edestruct (H2 Ex.is_url Ex.u "food" Ex.s_30 Ex.food (Ex.expense 1000 "A") (Ex.env "t5"))
      as [H _].
    + vm_compute. reflexivity.
    + reflexivity.
    + apply H. exists "t1", Ex.t1. split; reflexivity.
  - edestruct (H2 Ex.is_url Ex.u "salary" Ex.s_30 Ex.salary (Ex.income 1000 "A")
                  (Ex.env "t5")) as [_ H].
    + vm_compute. reflexivity.
    + reflexivity.
    + destruct H as [Hd Hp].
      * intros id t Ht.
        refine (proj1 (bool_decide_eq_false _) _). apply negb_true_iff. revert id t Ht.
        apply (map_forallb_check
                 (fun t => negb (bool_decide (Transaccion.categoriaId t = "salary")))).
        vm_compute. reflexivity.
      * reflexivity.
      * reflexivity.
      * rewrite Hd. cbn [fst snd]. split; [reflexivity | exact Hp].
Defined.

Lemma X16_witness :
  serve_all Ex.is_url false Ex2.verify (Some "s3cret") None Ex2.usuarios
            Ex2.closed_requests Ex.s_A = Ex.s_A.
Proof.
  refine (proj1 (X16_write_routes_closed Ex.is_url false Ex2.verify (Some "s3cret") None
                   Ex2.usuarios Ex2.closed_requests Ex.s_A _)).
  repeat constructor; intros sesion H; vm_compute in H;
    try discriminate H; injection H as <-; discriminate.
Defined.

Lemma X17_witness :
  authenticateJWT Ex2.verify None (Some "s3cret") (Some "Bearer tok-ana") Ex2.usuarios
  = inr (Sesion.mk (mkUser "u1" "m1") "escritura" "ana@example.com").
Proof.
  apply (X17_bearer_session Ex2.verify None (Some "s3cret") Ex2.usuarios "tok-ana" "s3cret"
           (JWTPayload.mk "u1" "m1" "escritura" "ana@example.com")
           (Usuario.mk "m1" "ana@example.com" None None escritura true "h1" "2025-01-01"));
    reflexivity.
Defined.

Lemma X18_witness :
  authenticateJWT Ex2.verify (Some "s3cret") None (Some "Basic YW5hOmFuYQ==") Ex2.usuarios
  = inl (json (makeError "ERR_UNAUTHORIZED" "Token de autorización requerido") 401) /\
  exists u, Ex2.usuarios !! "u1" = Some u /\ Usuario.activo u = true.
Proof.
  split.
  - refine (proj1 (X18_sessions_are_active_users Ex2.verify (Some "s3cret") None Ex2.usuarios
                     (Some "Basic YW5hOmFuYQ==")) _).
    intros x [= <-]. reflexivity.
  - refine (proj2 (X18_sessions_are_active_users Ex2.verify (Some "s3cret") None Ex2.usuarios
                     (Some "Bearer tok-ana"))
                  (Sesion.mk (mkUser "u1" "m1") "escritura" "ana@example.com") _).
    reflexivity.
Defined.

Lemma X19_witness :
  authenticateJWT Ex2.verify (Some "s3cret") None (Some "Bearer tok-luis") Ex2.usuarios
  = inr (Sesion.mk (mkUser "u2" "m1") "lectura" "luis@example.com") /\
  forall h sesion,
    authenticateJWT Ex2.verify (Some "s3cret") None h
                    (fst (usuarios_delete Ex.u "u2" Ex2.usuarios)) = inr sesion ->
    user_id (Sesion.user sesion) <> "u2".
Proof.
  split; [reflexivity|]. intros h sesion.
  destruct X19_user_locked_out as (_ & H & _).
  apply (H Ex2.verify Ex.u "u2" Ex2.usuarios _ (ok "Usuario eliminado correctamente")).
  - reflexivity.
  - eexists. reflexivity.
Defined.

Lemma X20_witness :
  saldo_total_cuentas "m1" Ex.s_AB = 27000 /\
  saldo_total_cuentas "m1"
    (fst (transacciones_post Ex.is_url Ex.u (Ex.income 5000 "A") (Ex.env "t2") Ex.s_AB))
  = 27000 + 5000.
Proof.
  split; [reflexivity|].
  refine (proj1 (X20_report_follows_create Ex.is_url Ex.u (Ex.income 5000 "A") (Ex.env "t2")
                   Ex.s_AB _ (ok "Transacción creada correctamente") "m1" _ _ _)).
  - split; [|split; vm_compute; reflexivity].
    intros id c Hc.
    assert (Hb : (0 <=? Cuenta.saldo c) && (Cuenta.saldo c mod 100 =? 0) = true).
    { revert id c Hc.
      apply (map_forallb_check
               (fun c => (0 <=? Cuenta.saldo c) && (Cuenta.saldo c mod 100 =? 0))).
      vm_compute. reflexivity. }
    apply andb_true_iff in Hb as [H1 H2].
    apply Z.leb_le in H1. apply Z.eqb_eq in H2. split; assumption.
  - reflexivity.
  - eexists. reflexivity.
Defined.

Lemma X22_witness :
  referencias Ex.s_30 /\
  let s' := serve_all Ex.is_url false Ex2.verify (Some "s3cret") None Ex2.usuarios
                      Ex2.writer_requests Ex.s_30 in
  Transaccion.monto <$> transacciones s' !! "t1" = Some 2000 /\
  transacciones s' !! "t2" = None /\
  is_Some (cuentas s' !! "A") /\
  is_Some (categorias s' !! "food") /\
  exists k c,
    transacciones_get Ex.u "t1" s'
    = (ok "Transacción obtenida correctamente",
       Some (set_transaccion false (spread (Ex2.amount 2000) "2025-01-02T10:00:00.000Z") Ex.t1,
             k, c)).
Proof.
  assert (H : referencias Ex.s_30).
  { intros id t Ht.
    assert (Hb : bool_decide (is_Some (categorias Ex.s_30 !! Transaccion.categoriaId t))
                 && bool_decide (is_Some (cuentas Ex.s_30 !! Transaccion.cuentaId t))
                 = true).
    { revert id t Ht.
      apply (map_forallb_check
               (fun t => bool_decide (is_Some (categorias Ex.s_30 !! Transaccion.categoriaId t))
                         && bool_decide (is_Some (cuentas Ex.s_30 !! Transaccion.cuentaId t)))).
      vm_compute. reflexivity. }
    apply andb_true_iff in Hb as [H1 H2].
    apply bool_decide_eq_true in H1, H2. split; assumption. }
  split; [exact H|]. cbv zeta.
  split; [vm_compute; reflexivity|]. split; [vm_compute; reflexivity|].
  split; [vm_compute; eexists; reflexivity|]. split; [vm_compute; eexists; reflexivity|].
  refine (proj2 (X22_references_kept Ex.is_url false Ex2.verify (Some "s3cret") None
                   Ex2.usuarios Ex2.writer_requests Ex.s_30 H) Ex.u "t1" _ _).
  vm_compute. reflexivity.
Defined.

Lemma X23_witness :
  balance Ex.s_C "C" = Some 2000 /\
  transacciones_delete Ex.u "t3" (Ex.env "d1") Ex.s_C
  = (Ex.s_C, json (makeError "ERR_INTERNAL" "Error al eliminar transacción") 500).
Proof.
  split; [reflexivity|].
  eapply (X23_delete_refused Ex.u "t3" (Ex.env "d1") Ex.s_C
            (nueva_transaccion Ex.u (Ex.income 5000 "C") (Ex.env "t3"))).
  - reflexivity.
  - vm_compute. reflexivity.
  - vm_compute. reflexivity.
Defined.

Lemma X24_witness :
  balance Ex.s_C "C" = Some 2000 /\
  transacciones_patch Ex.is_url false Ex.u "t3" (Ex2.amount 6000) (Ex.env "p1") Ex.s_C
  = (Ex.s_C, json (makeError "ERR_INTERNAL" "Error al actualizar transacción") 500).
Proof.
  split; [reflexivity|].
  eapply (X24_spent_income_update_refused Ex.is_url false Ex.u "t3" (Ex2.amount 6000)
            (Ex.env "p1") Ex.s_C
            (nueva_transaccion Ex.u (Ex.income 5000 "C") (Ex.env "t3"))).
  - reflexivity.
  - reflexivity.
  - reflexivity.
  - reflexivity.
  - reflexivity.
  - reflexivity.
  - vm_compute. reflexivity.
  - vm_compute. reflexivity.
Defined.

Lemma X25_witness :
  balance Ex2.s_two "X" = Some 4000 /\
  forall id c,
    Cuenta.cuentaMaestraId c <> "m1" ->
    (cuentas Ex2.s_two !! id = Some c <->
     cuentas (fst (cuentas_patch Ex.u "X" (Ex2.set_saldo 0) (Ex.env "p1") Ex2.s_two)) !! id
     = Some c).
Proof.
  split; [reflexivity|].
  refine (proj1 (proj2 (X25_catalog_isolated Ex.is_url false
                          (PatchCuenta "X" (Ex2.set_saldo 0) (Ex.env "p1")) Ex.u Ex2.s_two _))).
  exact I.
Defined.
